(** * Page objects of the Ellucian portal end-to-end suite

    A shallow embedding of the page-object classes under [test/pages]
    ([BasePage], [DashboardPage], [PortalPage], [RequirementsPage],
    [InternationalStudentPage], [LoginPage], [EllucianLoginPage]) and of the
    configuration prologue of the test scripts.

    The automation library (Playwright) and the browser are not part of the
    repository: they appear as a record [Host] of operations over an abstract
    world [W].  Every operation either returns a value or throws a JavaScript
    error; the page objects are written in the state-and-exception monad
    [M W], with [try_catch] for [try { } catch (error) { }].  [console.log]
    has no effect on control flow and is left out. *)

From Stdlib Require Import ZArith List String Ascii Bool Lia.
From stdpp Require Import base option list gmap strings.
Import ListNotations.

Set Implicit Arguments.
Unset Strict Implicit.

(** ** JavaScript strings (ASCII fragment) *)

Module Js.

(** [String.prototype.toLowerCase] on the letters A-Z. *)
Definition lower_ascii (c : ascii) : ascii :=
  let n := nat_of_ascii c in
  if ((65 <=? n) && (n <=? 90))%nat then ascii_of_nat (n + 32) else c.

Fixpoint toLowerCase (s : string) : string :=
  match s with
  | EmptyString => EmptyString
  | String c r => String (lower_ascii c) (toLowerCase r)
  end.

(** [s.includes(sub)]: [sub] occurs in [s] as a contiguous substring. *)
Fixpoint includes (s sub : string) : bool :=
  String.prefix sub s ||
  match s with
  | EmptyString => false
  | String _ r => includes r sub
  end.

(** White space as matched by [\s] and removed by [trim]. *)
Definition is_space (c : ascii) : bool :=
  let n := nat_of_ascii c in
  ((n =? 32) || ((9 <=? n) && (n <=? 13)))%nat.

Fixpoint trimStart (s : string) : string :=
  match s with
  | EmptyString => EmptyString
  | String c r => if is_space c then trimStart r else s
  end.

Fixpoint trimEnd (s : string) : string :=
  match s with
  | EmptyString => EmptyString
  | String c r =>
      match trimEnd r with
      | EmptyString => if is_space c then EmptyString else String c EmptyString
      | r' => String c r'
      end
  end.

Definition trim (s : string) : string := trimEnd (trimStart s).

(** [s.replace(/\s+/g, '-')]: every maximal run of white space becomes one dash. *)
Fixpoint replace_spaces (in_run : bool) (s : string) : string :=
  match s with
  | EmptyString => EmptyString
  | String c r =>
      if is_space c
      then (if in_run then replace_spaces true r else String "-" (replace_spaces true r))
      else String c (replace_spaces false r)
  end.

(** The file-name stem the page objects build from a card or button name:
    [name.toLowerCase().replace(/\s+/g, '-')]. *)
Definition slug (name : string) : string := replace_spaces false (toLowerCase name).

(** Truthiness of a [string | null] value: [null] and the empty string are falsy. *)
Definition truthy (v : option string) : bool :=
  match v with
  | Some (String _ _) => true
  | _ => false
  end.

(** Case-insensitive containment as the page objects test it:
    [text.toLowerCase().includes(name.toLowerCase())]. *)
Definition icontains (text name : string) : bool :=
  includes (toLowerCase text) (toLowerCase name).

End Js.

(** ** The state-and-exception monad of asynchronous page-object code *)

(** A thrown JavaScript [Error]: the page objects only read [error.message]. *)
Record JsError : Type := mkError { err_name : string; err_message : string }.

Inductive outcome (A : Type) : Type :=
| Ret (a : A)
| Raise (e : JsError).
Arguments Ret {A} a.
Arguments Raise {A} e.

Definition M (W A : Type) : Type := W -> outcome A * W.

Definition ret {W A : Type} (a : A) : M W A := fun w => (Ret a, w).

Definition throw {W A : Type} (e : JsError) : M W A := fun w => (Raise e, w).

Definition bind {W A B : Type} (m : M W A) (k : A -> M W B) : M W B :=
  fun w =>
    match m w with
    | (Ret a, w') => k a w'
    | (Raise e, w') => (Raise e, w')
    end.

(** [try { m } catch (error) { h error }]. *)
Definition try_catch {W A : Type} (m : M W A) (h : JsError -> M W A) : M W A :=
  fun w =>
    match m w with
    | (Ret a, w') => (Ret a, w')
    | (Raise e, w') => h e w'
    end.

Declare Scope js_scope.
Delimit Scope js_scope with js.
Notation "x <- m ;; k" := (bind m (fun x => k))
  (at level 20, m at level 99, k at level 200, only parsing) : js_scope.
Notation "m ;; k" := (bind m (fun _ => k))
  (at level 100, k at level 200, only parsing, right associativity) : js_scope.
Open Scope js_scope.

(** A statement sequence in which an earlier statement may [return v]:
    [Some v] stands for "returned v", [None] for "fell through". *)
Definition or_else {W A : Type} (m : M W (option A)) (k : M W (option A)) : M W (option A) :=
  r <- m ;;
  match r with
  | Some v => ret (Some v)
  | None => k
  end.
Notation "m ;;? k" := (or_else m k)
  (at level 100, k at level 200, only parsing, right associativity) : js_scope.

(** [for (const x of xs) { body }] where the body may [return v] from the
    enclosing function ([Some v]) or [continue] / fall through ([None]). *)
Fixpoint for_of {W A B : Type} (xs : list A) (body : A -> M W (option B)) : M W (option B) :=
  match xs with
  | [] => ret None
  | x :: rest => body x ;;? for_of rest body
  end.

(** [for (const x of xs) { ys.push(await f(x)); }]. *)
Fixpoint for_each {W A B : Type} (xs : list A) (f : A -> M W B) : M W (list B) :=
  match xs with
  | [] => ret []
  | x :: rest =>
      y <- f x ;;
      ys <- for_each rest f ;;
      ret (y :: ys)
  end.

(** [s.trim()] on a [string | null] value: a [TypeError] on [null]. *)
Definition trim_of {W : Type} (v : option string) (e : JsError) : M W string :=
  match v with
  | Some s => ret (Js.trim s)
  | None => throw e
  end.

(** The final [return d] of a function whose earlier statements may have returned. *)
Definition returning {W A : Type} (m : M W (option A)) (d : A) : M W A :=
  r <- m ;; ret (default d r).

(** ** The browser host *)

Definition PageId : Type := nat.
Definition ContextId : Type := nat.
Definition ElementHandle : Type := nat.

(** Lazy Playwright locators, as the page objects build them. *)
Inductive Locator : Type :=
| getByText (pattern : string)
| getByRole (role : string) (name : option string)
| filter_has (l : Locator) (has : Locator)
| first (l : Locator).

(** What [findCard] hands back: an [ElementHandle] of a card, or the locator
    [page.getByText(...).first()]. *)
Inductive CardRef : Type :=
| Handle (h : ElementHandle)
| Loc (l : Locator).

(** The functions the page objects ship to the browser with [evaluate]. *)
Inductive Script : Type :=
| ScrollAndHighlight
| Highlight
| ClickOrDispatch
| DispatchClick
| FindSettingsAndClick
| FindPortalFeaturesAndClick
| ClickAlternativeIcon
| HasMeaningfulText
| IsChecked.

Record Host (W : Type) : Type := {
  date_now : W -> Z;
  js_RegExp : string -> option JsError;
  fs_ensure_dir : string -> M W unit;
  page_goto : PageId -> string -> M W unit;
  page_waitForLoadState : PageId -> string -> Z -> M W unit;
  page_screenshot : PageId -> string -> option Z -> M W unit;
  page_waitForTimeout : PageId -> Z -> M W unit;
  page_title : PageId -> M W string;
  page_innerText : PageId -> M W string;
  page_waitForSelector : PageId -> string -> option Z -> M W unit;
  page_query : PageId -> string -> M W (option ElementHandle);
  page_queryAll : PageId -> string -> M W (list ElementHandle);
  page_fill : PageId -> string -> string -> M W unit;
  page_click : PageId -> string -> M W unit;
  page_isVisible : PageId -> string -> M W bool;
  page_textContent : PageId -> string -> M W (option string);
  page_evaluate : PageId -> Script -> option ElementHandle -> M W bool;
  el_query : ElementHandle -> string -> M W (option ElementHandle);
  el_queryAll : ElementHandle -> string -> M W (list ElementHandle);
  el_textContent : ElementHandle -> M W (option string);
  el_getAttribute : ElementHandle -> string -> M W (option string);
  el_isVisible : ElementHandle -> M W bool;
  el_scrollIntoViewIfNeeded : ElementHandle -> M W unit;
  el_click : ElementHandle -> bool -> M W unit;
  loc_count : PageId -> Locator -> M W nat;
  loc_scrollIntoViewIfNeeded : PageId -> Locator -> M W unit;
  loc_click : PageId -> Locator -> bool -> M W unit;
  context_pages : ContextId -> M W (list PageId)
}.

(** ** BasePage *)

Module BasePage.
Section WithHost.
Context {W : Type} (H : Host W) (page : PageId).

Definition navigate (url : string) : M W unit :=
  page_goto H page url.

Definition waitForLoadState (state : string) (timeout : Z) : M W bool :=
  try_catch
    (page_waitForLoadState H page state timeout ;; ret true)
    (fun error => ret false).

Definition takeScreenshot (path : string) : M W unit :=
  try_catch
    (fs_ensure_dir H path ;;
     page_screenshot H page path (Some 5000%Z))
    (fun error => ret tt).

Definition wait (ms : Z) : M W unit :=
  try_catch
    (let safeMs := Z.min ms 5000 in
     page_waitForTimeout H page safeMs)
    (fun error => ret tt).



End WithHost.
End BasePage.

(** [new RegExp(source, 'i')]: throws the [SyntaxError] the engine reports, if any. *)
Definition new_RegExp {W : Type} (H : Host W) (source : string) : M W unit :=
  match js_RegExp H source with
  | Some e => throw e
  | None => ret tt
  end.

(** Reading a property of [undefined]. *)
Definition TypeError : JsError :=
  mkError "TypeError" "Cannot read properties of undefined".

(** ** PortalPage

    Selector strings are kept as in the source, with the quotation marks
    around attribute values left out. *)

Module PortalPage.

Definition mainContentSelector : string :=
  "main, div[role=main], div[class*=content]".
Definition cardsContainerSelector : string :=
  "div[class*=cards], div[class*=grid], div[class*=container]".
Definition cardSelector : string :=
  "div[class*=card], div[role=article], div[class*=tile], section[class*=card]".
Definition cardTitleSelector : string :=
  "h1, h2, h3, h4, h5, div[class*=title], div[class*=header]".
Definition cardContentSelector : string :=
  "div[class*=content], div[class*=body], p".
Definition cardButtonSelector : string :=
  "button, a[role=button], a[class*=button]".

(** The variables of the card-count loop of [waitForPortalPageLoad]. *)
Record CountState : Type := mkCount {
  previousCardCount : nat;
  currentCardCount : nat;
  stableCount : nat;
  attempt : nat
}.

Definition maxAttempts : nat := 10.

(** One pass through the body of the loop once the cards are counted:
    lines 59-67. *)
Definition tick (st : CountState) (count : nat) : CountState :=
  {| previousCardCount := count;
     currentCardCount := count;
     stableCount :=
       if (count =? previousCardCount st)%nat && (0 <? count)%nat
       then S (stableCount st) else 0%nat;
     attempt := S (attempt st) |}.

Definition initial : CountState := mkCount 0 0 0 0.

Section WithHost.
Context {W : Type} (H : Host W) (page : PageId).

Local Abbreviation wait := (BasePage.wait H page).
Local Abbreviation takeScreenshot := (BasePage.takeScreenshot H page).

(** [while (attempt < maxAttempts && stableCount < 3) { ... }]; [fuel] bounds
    the number of passes ([maxAttempts] is enough, see [count_loop_exits]). *)
Fixpoint count_loop (fuel : nat) (st : CountState) : M W CountState :=
  match fuel with
  | O => ret st
  | S fuel' =>
      if (attempt st <? maxAttempts)%nat && (stableCount st <? 3)%nat then
        wait 1000 ;;
        cards <- page_queryAll H page cardSelector ;;
        count_loop fuel' (tick st (length cards))
      else ret st
  end.

(** [timeout / 3] is the quotient in [Z]; it is the JavaScript value whenever
    [timeout] is a multiple of 3, as the default 30000 is, and a statement
    about the length of these waits is made for such timeouts only. *)
Definition waitForPortalPageLoad (timeout : Z) : M W unit :=
  try_catch
    (page_waitForSelector H page mainContentSelector (Some (timeout / 3)%Z) ;;
     page_waitForSelector H page cardsContainerSelector (Some (timeout / 3)%Z) ;;
     page_waitForSelector H page cardSelector (Some (timeout / 3)%Z) ;;
     _ <- count_loop maxAttempts initial ;;
     wait 2000 ;;
     takeScreenshot "portal-page-cards-loaded.png")
    (fun error => takeScreenshot "portal-page-load-error.png").

(** First loop of [findCard]: the card whose title contains the name. *)
Definition match_title (cardName : string) (card : ElementHandle)
  : M W (option (option ElementHandle)) :=
  titleElement <- el_query H card cardTitleSelector ;;
  match titleElement with
  | None => ret None
  | Some titleElement =>
      titleText <- el_textContent H titleElement ;;
      if negb (Js.truthy titleText) then ret None
      else if Js.icontains (default "" titleText) cardName then
        el_scrollIntoViewIfNeeded H card ;;
        takeScreenshot (Js.slug cardName +:+ "-card-found.png") ;;
        ret (Some (Some card))
      else ret None
  end.

(** Second loop of [findCard]: the card whose whole text contains the name. *)
Definition match_content (cardName : string) (card : ElementHandle)
  : M W (option (option ElementHandle)) :=
  cardText <- el_textContent H card ;;
  if negb (Js.truthy cardText) then ret None
  else if Js.icontains (default "" cardText) cardName then
    el_scrollIntoViewIfNeeded H card ;;
    takeScreenshot (Js.slug cardName +:+ "-card-found.png") ;;
    ret (Some (Some card))
  else ret None.

Definition findCard_body (cardName : string) : M W (option ElementHandle) :=
  cards <- page_queryAll H page cardSelector ;;
  returning
    (for_of cards (match_title cardName) ;;?
     for_of cards (match_content cardName) ;;?
     (takeScreenshot "card-not-found.png" ;; ret None))
    None.

Definition findCard (cardName : string) : M W (option ElementHandle) :=
  waitForPortalPageLoad 30000 ;;
  try_catch
    (findCard_body cardName)
    (fun error => takeScreenshot "error-finding-card.png" ;; ret None).

Definition getAllCards : M W (list ElementHandle) :=
  waitForPortalPageLoad 30000 ;;
  try_catch
    (page_queryAll H page cardSelector)
    (fun error => ret []).

(** The loop of [clickCardButton] over the buttons of the card. *)
Definition click_matching_button (buttonText : string) (button : ElementHandle)
  : M W (option bool) :=
  buttonContent <- el_textContent H button ;;
  if negb (Js.truthy buttonContent) then ret None
  else if Js.icontains (default "" buttonContent) buttonText then
    el_scrollIntoViewIfNeeded H button ;;
    takeScreenshot (Js.slug buttonText +:+ "-button-found.png") ;;
    el_click H button true ;;
    wait 1000 ;;
    ret (Some true)
  else ret None.

(** The page-wide search of [clickCardButton]:
    [page.getByRole('button', { name: new RegExp(buttonText, 'i') })]. *)
Definition click_page_button (buttonText : string) : M W (option bool) :=
  new_RegExp H buttonText ;;
  let pageButtons := getByRole "button" (Some buttonText) in
  n <- loc_count H page pageButtons ;;
  if (0 <? n)%nat then
    _ <- loc_count H page pageButtons ;;
    loc_scrollIntoViewIfNeeded H page (first pageButtons) ;;
    takeScreenshot (Js.slug buttonText +:+ "-button-found.png") ;;
    loc_click H page (first pageButtons) true ;;
    wait 1000 ;;
    ret (Some true)
  else ret None.

Definition clickCardButton_body (cardName : string) (buttonText : option string)
    (clickCardIfNoButton : bool) : M W bool :=
  card <- findCard cardName ;;
  match card with
  | None => ret false
  | Some card =>
      returning
        ((if Js.truthy buttonText then
            let buttonText := default "" buttonText in
            cardButtons <- el_queryAll H card cardButtonSelector ;;
            for_of cardButtons (click_matching_button buttonText) ;;?
            click_page_button buttonText
          else
            cardButtons <- el_queryAll H card cardButtonSelector ;;
            match cardButtons with
            | button0 :: _ =>
                el_scrollIntoViewIfNeeded H button0 ;;
                takeScreenshot "card-button-found.png" ;;
                el_click H button0 true ;;
                wait 1000 ;;
                ret (Some true)
            | [] => ret None
            end) ;;?
         (if clickCardIfNoButton then
            el_scrollIntoViewIfNeeded H card ;;
            takeScreenshot (Js.slug cardName +:+ "-card-click.png") ;;
            el_click H card true ;;
            wait 1000 ;;
            ret (Some true)
          else ret None) ;;?
         (takeScreenshot "button-not-found.png" ;; ret None))
        false
  end.

Definition clickCardButton (cardName : string) (buttonText : option string)
    (clickCardIfNoButton : bool) : M W bool :=
  try_catch
    (clickCardButton_body cardName buttonText clickCardIfNoButton)
    (fun error => takeScreenshot "error-clicking-button.png" ;; ret false).

Definition waitForNavigationAfterButtonClick (context : ContextId) : M W PageId :=
  try_catch
    (pages <- context_pages H context ;;
     if (1 <? length pages)%nat then
       match pages !! (length pages - 1)%nat with
       | Some newPage =>
           page_waitForLoadState H newPage "domcontentloaded" 10000 ;;
           ret newPage
       | None => throw TypeError
       end
     else
       _ <- BasePage.waitForLoadState H page "networkidle" 10000 ;;
       ret page)
    (fun error => ret page).

Definition clickCard_body (cardName : string) : M W bool :=
  card <- findCard cardName ;;
  match card with
  | None => ret false
  | Some card =>
      el_scrollIntoViewIfNeeded H card ;;
      takeScreenshot (Js.slug cardName +:+ "-card-before-click.png") ;;
      el_click H card true ;;
      wait 1000 ;;
      takeScreenshot (Js.slug cardName +:+ "-card-after-click.png") ;;
      ret true
  end.

Definition clickCard (cardName : string) : M W bool :=
  try_catch
    (clickCard_body cardName)
    (fun error => takeScreenshot "error-clicking-card.png" ;; ret false).



Definition getCardContent (card : ElementHandle) : M W (string * string) :=
  try_catch
    (titleElement <- el_query H card cardTitleSelector ;;
     title <- match titleElement with
              | Some titleElement => el_textContent H titleElement
              | None => ret (Some "Unknown Title"%string)
              end ;;
     contentElement <- el_query H card cardContentSelector ;;
     content <- match contentElement with
                | Some contentElement => el_textContent H contentElement
                | None => ret (Some ""%string)
                end ;;
     title <- trim_of title TypeError ;;
     content <- trim_of content TypeError ;;
     ret (title, content))
    (fun error => ret ("Error"%string, ""%string)).

Definition getAllCardTitles : M W (list string) :=
  cards <- getAllCards ;;
  for_each cards (fun card =>
    content <- getCardContent card ;;
    ret (fst content)).

Definition getAllCardContents : M W (list (string * string)) :=
  cards <- getAllCards ;;
  for_each cards getCardContent.

End WithHost.
End PortalPage.

(** ** DashboardPage *)

Module DashboardPage.

Definition dashboardContentSelector : string :=
  "main, div[class*=dashboard], div[class*=content]".
Definition dashboardCardSelector : string :=
  "div[class*=card], div[role=article], div[class*=tile], div[class*=item], section[class*=card]".
Definition dashboardContainerSelector : string :=
  "div[class*=cards], div[class*=grid], div[class*=container]".
Definition cardTitleSelector : string :=
  "h1, h2, h3, h4, h5, div[class*=title], div[class*=header], span[class*=title]".
Definition cardButtonSelector : string :=
  "button, a[role=button], a[class*=button]".

(** The variables of the card-count loop of [waitForDashboardPageLoad]. *)
Record CountState : Type := mkCount {
  cards : list ElementHandle;
  previousCardCount : nat;
  stableCount : nat
}.

(** How the card-count loop ended: by the [break] on the overall timeout, by
    the [break] that logs "card count has stabilized", or by running out of
    attempts. *)
Inductive LoopExit : Type := TimedOut | Stabilized | Exhausted.

Definition maxAttempts : nat := 5.

Section WithHost.
Context {W : Type} (H : Host W) (page : PageId).

Local Abbreviation wait := (BasePage.wait H page).
Local Abbreviation takeScreenshot := (BasePage.takeScreenshot H page).
Local Abbreviation waitForLoadState := (BasePage.waitForLoadState H page).

(** The closure [checkTimeout]: [Date.now() - startTime > timeout]. *)
Definition checkTimeout (startTime timeout : Z) : M W bool :=
  fun w => (Ret (timeout <? date_now H w - startTime)%Z, w).

(** [for (let attempt = 0; attempt < maxAttempts; attempt++) { ... }], by
    recursion on the attempts that remain. *)
Fixpoint count_loop (startTime timeout : Z) (remaining : nat) (st : CountState)
  : M W (CountState * LoopExit) :=
  match remaining with
  | O => ret (st, Exhausted)
  | S remaining' =>
      expired <- checkTimeout startTime timeout ;;
      if expired then ret (st, TimedOut)
      else
        let continue (st : CountState) :=
          wait 1000 ;;
          cards' <- page_queryAll H page dashboardCardSelector ;;
          count_loop startTime timeout remaining'
            (mkCount cards' (previousCardCount st) (stableCount st)) in
        if (length (cards st) =? previousCardCount st)%nat then
          let st := mkCount (cards st) (previousCardCount st) (S (stableCount st)) in
          if (2 <=? stableCount st)%nat then ret (st, Stabilized)
          else continue st
        else
          continue (mkCount (cards st) (length (cards st)) 0)
  end.

(** Lines 167-232: the inner [try] around the card wait. *)
Definition wait_for_cards (startTime timeout : Z) : M W unit :=
  try_catch
    (try_catch
       (page_waitForSelector H page dashboardCardSelector (Some 5000%Z))
       (fun cardError => ret tt) ;;
     cards0 <- page_queryAll H page dashboardCardSelector ;;
     _ <- count_loop startTime timeout maxAttempts (mkCount cards0 0 0) ;;
     expired <- checkTimeout startTime timeout ;;
     if expired then ret tt
     else
       wait 2000 ;;
       expired <- checkTimeout startTime timeout ;;
       if negb expired then
         cardImages <- page_queryAll H page (dashboardCardSelector +:+ " img") ;;
         if (0 <? length cardImages)%nat then wait 2000 else ret tt
       else ret tt)
    (fun error => takeScreenshot "dashboard-cards-not-found.png").

Definition waitForDashboardPageLoad (timeout : Z) : M W unit :=
  fun w =>
  let startTime := date_now H w in
  try_catch
    (try_catch
       (_ <- waitForLoadState "domcontentloaded" 15000 ;;
        _ <- waitForLoadState "networkidle" 15000 ;;
        ret tt)
       (fun loadError => ret tt) ;;
     takeScreenshot "dashboard-initial-load.png" ;;
     try_catch
       (page_waitForSelector H page dashboardContentSelector (Some 10000%Z))
       (fun error => takeScreenshot "dashboard-content-not-found.png") ;;
     try_catch
       (page_waitForSelector H page dashboardContainerSelector (Some 10000%Z))
       (fun error => takeScreenshot "dashboard-container-not-found.png") ;;
     wait_for_cards startTime timeout ;;
     takeScreenshot "dashboard-fully-loaded.png")
    (fun error => takeScreenshot "dashboard-page-load-error.png")
    w.

Definition ref_scrollIntoViewIfNeeded (card : CardRef) : M W unit :=
  match card with
  | Handle h => el_scrollIntoViewIfNeeded H h
  | Loc l => loc_scrollIntoViewIfNeeded H page l
  end.

Definition ref_click (card : CardRef) (force : bool) : M W unit :=
  match card with
  | Handle h => el_click H h force
  | Loc l => loc_click H page l force
  end.

Definition match_title (cardName : string) (card : ElementHandle)
  : M W (option (option CardRef)) :=
  titleElement <- el_query H card cardTitleSelector ;;
  match titleElement with
  | None => ret None
  | Some titleElement =>
      titleText <- el_textContent H titleElement ;;
      if negb (Js.truthy titleText) then ret None
      else if Js.icontains (default "" titleText) cardName then
        el_scrollIntoViewIfNeeded H card ;;
        takeScreenshot (Js.slug cardName +:+ "-card-found.png") ;;
        ret (Some (Some (Handle card)))
      else ret None
  end.

Definition match_content (cardName : string) (card : ElementHandle)
  : M W (option (option CardRef)) :=
  cardText <- el_textContent H card ;;
  if negb (Js.truthy cardText) then ret None
  else if Js.icontains (default "" cardText) cardName then
    el_scrollIntoViewIfNeeded H card ;;
    takeScreenshot (Js.slug cardName +:+ "-card-found.png") ;;
    ret (Some (Some (Handle card)))
  else ret None.

(** Third step of [findCard]: [page.getByText(new RegExp(cardName, 'i'))]. *)
Definition match_page_text (cardName : string) : M W (option (option CardRef)) :=
  new_RegExp H cardName ;;
  let textElements := getByText cardName in
  n <- loc_count H page textElements ;;
  if (0 <? n)%nat then
    _ <- loc_count H page textElements ;;
    let firstElement := first textElements in
    loc_scrollIntoViewIfNeeded H page firstElement ;;
    takeScreenshot (Js.slug cardName +:+ "-text-found.png") ;;
    ret (Some (Some (Loc firstElement)))
  else ret None.

Definition findCard_body (cardName : string) : M W (option CardRef) :=
  cards <- page_queryAll H page dashboardCardSelector ;;
  returning
    (for_of cards (match_title cardName) ;;?
     for_of cards (match_content cardName) ;;?
     match_page_text cardName ;;?
     (takeScreenshot "card-not-found.png" ;; ret None))
    None.

Definition findCard (cardName : string) : M W (option CardRef) :=
  try_catch
    (findCard_body cardName)
    (fun error => takeScreenshot "error-finding-card.png" ;; ret None).

Definition clickCard_body (cardName : string) : M W bool :=
  card <- findCard cardName ;;
  match card with
  | None => ret false
  | Some card =>
      ref_scrollIntoViewIfNeeded card ;;
      takeScreenshot (Js.slug cardName +:+ "-card-before-click.png") ;;
      ref_click card true ;;
      wait 1000 ;;
      takeScreenshot (Js.slug cardName +:+ "-card-after-click.png") ;;
      ret true
  end.

Definition clickCard (cardName : string) : M W bool :=
  try_catch
    (clickCard_body cardName)
    (fun error => takeScreenshot "error-clicking-card.png" ;; ret false).

(** Scroll to the first match of a locator, take the screenshot, click it. *)
Definition click_first (buttons : Locator) (shot : string) : M W (option bool) :=
  loc_scrollIntoViewIfNeeded H page (first buttons) ;;
  takeScreenshot shot ;;
  loc_click H page (first buttons) true ;;
  wait 1000 ;;
  ret (Some true).

Definition click_matching_button (buttonText : string) (button : ElementHandle)
  : M W (option bool) :=
  buttonContent <- el_textContent H button ;;
  if negb (Js.truthy buttonContent) then ret None
  else if Js.icontains (default "" buttonContent) buttonText then
    el_scrollIntoViewIfNeeded H button ;;
    takeScreenshot (Js.slug buttonText +:+ "-button-found.png") ;;
    el_click H button true ;;
    wait 1000 ;;
    ret (Some true)
  else ret None.

Definition click_page_button (buttonText : string) : M W (option bool) :=
  new_RegExp H buttonText ;;
  let pageButtons := getByRole "button" (Some buttonText) in
  n <- loc_count H page pageButtons ;;
  if (0 <? n)%nat then
    _ <- loc_count H page pageButtons ;;
    click_first pageButtons (Js.slug buttonText +:+ "-button-found.png")
  else ret None.

(** The button search of [clickCardButton], by the kind of reference
    [findCard] returned ([typeof card.$$ !== 'function'] for a locator). *)
Definition find_and_click_button (card : CardRef) (buttonText : option string)
  : M W (option bool) :=
  if Js.truthy buttonText then
    let buttonText := default "" buttonText in
    match card with
    | Loc cardLocator =>
        new_RegExp H buttonText ;;
        let nearbyButton := filter_has (getByRole "button" (Some buttonText)) cardLocator in
        buttonCount <- loc_count H page nearbyButton ;;
        (if (0 <? buttonCount)%nat then
           click_first nearbyButton (Js.slug buttonText +:+ "-button-found.png")
         else ret None) ;;?
        click_page_button buttonText
    | Handle card =>
        cardButtons <- el_queryAll H card cardButtonSelector ;;
        for_of cardButtons (click_matching_button buttonText) ;;?
        click_page_button buttonText
    end
  else
    match card with
    | Loc cardLocator =>
        let nearbyButtons := filter_has (getByRole "button" None) cardLocator in
        n <- loc_count H page nearbyButtons ;;
        if (0 <? n)%nat then
          _ <- loc_count H page nearbyButtons ;;
          click_first nearbyButtons "card-button-found.png"
        else ret None
    | Handle card =>
        cardButtons <- el_queryAll H card cardButtonSelector ;;
        match cardButtons with
        | button0 :: _ =>
            el_scrollIntoViewIfNeeded H button0 ;;
            takeScreenshot "card-button-found.png" ;;
            el_click H button0 true ;;
            wait 1000 ;;
            ret (Some true)
        | [] => ret None
        end
    end.

Definition clickCardButton_body (cardName : string) (buttonText : option string)
    (clickCardIfNoButton : bool) : M W bool :=
  card <- findCard cardName ;;
  match card with
  | None => ret false
  | Some card =>
      returning
        (find_and_click_button card buttonText ;;?
         (if clickCardIfNoButton then
            ref_scrollIntoViewIfNeeded card ;;
            takeScreenshot (Js.slug cardName +:+ "-card-click.png") ;;
            ref_click card true ;;
            wait 1000 ;;
            ret (Some true)
          else ret None) ;;?
         (takeScreenshot "button-not-found.png" ;; ret None))
        false
  end.

Definition clickCardButton (cardName : string) (buttonText : option string)
    (clickCardIfNoButton : bool) : M W bool :=
  try_catch
    (clickCardButton_body cardName buttonText clickCardIfNoButton)
    (fun error => takeScreenshot "error-clicking-button.png" ;; ret false).

Definition waitForNavigationAfterButtonClick (context : ContextId) : M W PageId :=
  try_catch
    (pages <- context_pages H context ;;
     if (1 <? length pages)%nat then
       match pages !! (length pages - 1)%nat with
       | Some newPage =>
           page_waitForLoadState H newPage "domcontentloaded" 10000 ;;
           ret newPage
       | None => throw TypeError
       end
     else
       _ <- waitForLoadState "networkidle" 10000 ;;
       ret page)
    (fun error => ret page).

Definition isDashboardLoaded : M W bool :=
  try_catch
    (returning
       (try_catch
          (content <- page_query H page dashboardContentSelector ;;
           match content with
           | Some _ => ret (Some true)
           | None => ret None
           end)
          (fun contentError => ret None) ;;?
        try_catch
          (title <- page_title H page ;;
           if Js.truthy (Some title)
              && (Js.includes title "Dashboard" || Js.includes title "Portal"
                  || Js.includes title "Ellucian")
           then ret (Some true) else ret None)
          (fun titleError => ret None) ;;?
        try_catch
          (bodyText <- page_innerText H page ;;
           if Js.truthy (Some bodyText) then ret (Some true) else ret None)
          (fun bodyError => ret None))
       false)
    (fun error => ret false).


End WithHost.
End DashboardPage.

(** ** RequirementsPage *)

Module RequirementsPage.

Definition requirementsContentSelector : string :=
  "main, div[class*=content], div[role=main]".
Definition requirementsHeaderSelector : string :=
  "h1, h2, div[class*=header], div[class*=title]".
Definition requirementsListSelector : string :=
  "ul, ol, div[class*=list]".
Definition requirementItemSelector : string :=
  "li, div[class*=item], div[class*=requirement]".
Definition requirementStatusSelector : string :=
  "span[class*=status], div[class*=status]".

Section WithHost.
Context {W : Type} (H : Host W) (page : PageId).

Local Abbreviation wait := (BasePage.wait H page).
Local Abbreviation takeScreenshot := (BasePage.takeScreenshot H page).
Local Abbreviation waitForLoadState := (BasePage.waitForLoadState H page).

(** [timeout / 3] is the quotient in [Z], as in [PortalPage]. *)
Definition waitForRequirementsPageLoad (timeout : Z) : M W bool :=
  try_catch
    (_ <- waitForLoadState "domcontentloaded" (timeout / 3) ;;
     _ <- waitForLoadState "networkidle" (timeout / 3) ;;
     takeScreenshot "requirements-initial-load.png" ;;
     page_waitForSelector H page requirementsContentSelector (Some (timeout / 3)%Z) ;;
     wait 1000 ;;
     try_catch
       (headerElement <- page_query H page requirementsHeaderSelector ;;
        match headerElement with
        | Some headerElement =>
            headerText <- el_textContent H headerElement ;;
            _ <- trim_of headerText TypeError ;;
            ret tt
        | None => ret tt
        end)
       (fun error => ret tt) ;;
     try_catch
       (page_waitForSelector H page requirementsListSelector (Some 5000%Z) ;;
        _ <- page_queryAll H page requirementItemSelector ;;
        ret tt)
       (fun error => ret tt) ;;
     takeScreenshot "requirements-fully-loaded.png" ;;
     ret true)
    (fun error => takeScreenshot "requirements-page-load-error.png" ;; ret false).

Definition getAllRequirements : M W (list ElementHandle) :=
  try_catch
    (page_queryAll H page requirementItemSelector)
    (fun error => ret []).

Definition getRequirementStatus (requirement : ElementHandle) : M W string :=
  try_catch
    (statusElement <- el_query H requirement requirementStatusSelector ;;
     match statusElement with
     | Some statusElement =>
         status <- el_textContent H statusElement ;;
         trim_of status TypeError
     | None => ret "Unknown"%string
     end)
    (fun error => ret "Error"%string).

Definition getRequirementText (requirement : ElementHandle) : M W string :=
  try_catch
    (text <- el_textContent H requirement ;;
     trim_of text TypeError)
    (fun error => ret "Error"%string).

Definition getAllRequirementTextsAndStatuses : M W (list (string * string)) :=
  requirements <- getAllRequirements ;;
  for_each requirements (fun requirement =>
    text <- getRequirementText requirement ;;
    status <- getRequirementStatus requirement ;;
    ret (text, status)).



Definition waitOnRequirementsPage (seconds : Z) : M W unit :=
  wait (seconds * 1000).

End WithHost.
End RequirementsPage.

(** ** InternationalStudentPage (extends PortalPage) *)

Module InternationalStudentPage.

Definition settingsIconSelector : string :=
  ".sidebar a, a[href*=settings], a:has-text(Settings), a:has(svg[class*=settings]), a:has(i[class*=settings])".
Definition portalFeaturesSelector : string :=
  "a:has-text(Portal Features), a:text(Portal Features), a[href*=portal-features], li:has-text(Portal Features), span:has-text(Portal Features), div:has-text(Portal Features):not(:has-div), a:has-text(Features), a[href*=features]".
Definition mainContentSelector : string :=
  "main, div[role=main], div[class*=content]".

(** What the browser-side function of lines 517-529 does with the element:
    [el.click()] when [typeof el.click === 'function'], a dispatched
    [MouseEvent('click')] otherwise (SVG elements). *)
Inductive DomAction : Type := CallClick | DispatchMouseEvent.

Definition click_or_dispatch (click_is_function : bool) : DomAction :=
  if click_is_function then CallClick else DispatchMouseEvent.

Section WithHost.
Context {W : Type} (H : Host W) (page : PageId).

Local Abbreviation wait := (BasePage.wait H page).
Local Abbreviation takeScreenshot := (BasePage.takeScreenshot H page).
Local Abbreviation waitForLoadState := (BasePage.waitForLoadState H page).

(** [for (const strategy of strategies) { if (await strategy()) { await
    this.wait(1000); return true; } }]. *)
Definition first_strategy (strategies : list (M W bool)) : M W (option bool) :=
  for_of strategies (fun strategy =>
    ok <- strategy ;;
    if ok then wait 1000 ;; ret (Some true) else ret None).

(** *** clickSettingsIcon *)

Definition is_settings_link (linkText linkHref : option string) : bool :=
  (Js.truthy linkText &&
     Js.includes (Js.toLowerCase (Js.trim (default "" linkText))) "settings")
  || (Js.truthy linkHref &&
     Js.includes (Js.toLowerCase (default "" linkHref)) "settings").

Definition settings_direct : M W (option bool) :=
  sidebarLinks <- page_queryAll H page ".sidebar a, nav a, aside a" ;;
  for_of sidebarLinks (fun link =>
    linkText <- el_textContent H link ;;
    linkHref <- el_getAttribute H link "href" ;;
    if is_settings_link linkText linkHref then
      el_scrollIntoViewIfNeeded H link ;;
      takeScreenshot "screenshots/found-settings-link.png" ;;
      _ <- page_evaluate H page ScrollAndHighlight (Some link) ;;
      wait 1000 ;;
      el_click H link false ;;
      takeScreenshot "screenshots/after-clicking-settings.png" ;;
      ret (Some true)
    else ret None).

Definition settings_strategy1 : M W bool :=
  settingsButton <- page_query H page settingsIconSelector ;;
  match settingsButton with
  | Some settingsButton =>
      el_scrollIntoViewIfNeeded H settingsButton ;;
      takeScreenshot "screenshots/settings-icon-found.png" ;;
      el_click H settingsButton true ;;
      ret true
  | None => ret false
  end.

Definition settings_strategy2 : M W bool :=
  sidebar <- page_query H page "nav, aside, div[class*=sidebar]" ;;
  match sidebar with
  | Some sidebar =>
      sidebarSettings <- el_query H sidebar
        "button svg, a svg, i[class*=settings], button[aria-label*=Settings], a[href*=settings], a:has-text(Settings)" ;;
      match sidebarSettings with
      | Some sidebarSettings =>
          el_scrollIntoViewIfNeeded H sidebarSettings ;;
          takeScreenshot "screenshots/settings-icon-in-sidebar-found.png" ;;
          el_click H sidebarSettings true ;;
          ret true
      | None => ret false
      end
  | None => ret false
  end.

Definition settings_strategy3 : M W bool :=
  clicked <- page_evaluate H page FindSettingsAndClick None ;;
  if clicked then
    takeScreenshot "screenshots/settings-icon-js-clicked.png" ;;
    ret true
  else ret false.

Definition iconClasses : list string :=
  ["cog"; "gear"; "setting"; "configure"; "preferences"; "options"].

Definition settings_strategy4 : M W bool :=
  returning
    (for_of iconClasses (fun className =>
       let iconSelector :=
         "i[class*=" +:+ className +:+ "], svg[class*=" +:+ className
           +:+ "], button:has(svg[class*=" +:+ className +:+ "])" in
       icon <- page_query H page iconSelector ;;
       match icon with
       | Some icon =>
           el_scrollIntoViewIfNeeded H icon ;;
           takeScreenshot ("screenshots/settings-icon-" +:+ className +:+ "-found.png") ;;
           el_click H icon true ;;
           ret (Some true)
       | None => ret None
       end))
    false.

Definition looks_like_settings (text href classes : option string) : bool :=
  (Js.truthy text && Js.includes (Js.toLowerCase (default "" text)) "settings")
  || (Js.truthy href && Js.includes (Js.toLowerCase (default "" href)) "settings")
  || (Js.truthy classes && Js.includes (Js.toLowerCase (default "" classes)) "settings").

Definition settings_strategy5 : M W bool :=
  try_catch
    (takeScreenshot "screenshots/visual-approach-sidebar.png" ;;
     leftSideElements <- page_queryAll H page
       "div[style*=left] a, div.sidebar a, nav a, aside a, div[class*=sidebar] a, div[class*=nav] a" ;;
     returning
       (for_of leftSideElements (fun element =>
          isVisible <- el_isVisible H element ;;
          if negb isVisible then ret None
          else
            text <- el_textContent H element ;;
            href <- el_getAttribute H element "href" ;;
            classes <- el_getAttribute H element "class" ;;
            if looks_like_settings text href classes then
              _ <- page_evaluate H page Highlight (Some element) ;;
              el_scrollIntoViewIfNeeded H element ;;
              takeScreenshot "screenshots/found-settings-element.png" ;;
              wait 500 ;;
              el_click H element false ;;
              wait 500 ;;
              takeScreenshot "screenshots/after-clicking-settings-element.png" ;;
              ret (Some true)
            else ret None) ;;?
        (iconElements <- page_queryAll H page
           "svg, i[class*=cog], i[class*=gear], i[class*=setting]" ;;
         for_of iconElements (fun icon =>
           isVisible <- el_isVisible H icon ;;
           if isVisible then
             el_scrollIntoViewIfNeeded H icon ;;
             takeScreenshot "screenshots/potential-settings-icon.png" ;;
             el_click H icon false ;;
             ret (Some true)
           else ret None)))
       false)
    (fun error => ret false).

Definition clickSettingsIcon_body : M W bool :=
  takeScreenshot "screenshots/before-clicking-settings.png" ;;
  returning
    (try_catch settings_direct (fun error => ret None) ;;?
     first_strategy
       [settings_strategy1; settings_strategy2; settings_strategy3;
        settings_strategy4; settings_strategy5] ;;?
     (takeScreenshot "screenshots/settings-icon-not-found.png" ;; ret None))
    false.

Definition clickSettingsIcon : M W bool :=
  try_catch clickSettingsIcon_body
    (fun error =>
       takeScreenshot "screenshots/error-clicking-settings-icon.png" ;; ret false).

(** *** clickPortalFeatures *)

(** Lines 509-542 (repeated at 566-598 and 612-644): the forced click, then
    the script click, then the dispatched event, each inside the [catch] of
    the one before. *)
Definition click_with_fallbacks (el : ElementHandle) : M W unit :=
  try_catch
    (el_click H el true)
    (fun error =>
       try_catch
         (_ <- page_evaluate H page ClickOrDispatch (Some el) ;; ret tt)
         (fun jsError =>
            _ <- page_evaluate H page DispatchClick (Some el) ;; ret tt)).

Definition is_features_link (linkText linkHref : option string) : bool :=
  (Js.truthy linkText &&
     (let t := Js.toLowerCase (Js.trim (default "" linkText)) in
      Js.includes t "portal feature"
      || String.eqb t "features" || String.eqb t "portal features"))
  || (Js.truthy linkHref &&
     (let h := Js.toLowerCase (default "" linkHref) in
      Js.includes h "portal-feature" || Js.includes h "features")).

Definition features_direct : M W (option bool) :=
  (portalFeaturesLink <- page_query H page
     "a:text(Portal Features), a[href*=portal-features], li:text(Portal Features)" ;;
   match portalFeaturesLink with
   | Some link =>
       visible <- el_isVisible H link ;;
       if visible then
         el_scrollIntoViewIfNeeded H link ;;
         takeScreenshot "screenshots/portal-features-direct-found.png" ;;
         _ <- page_evaluate H page ScrollAndHighlight (Some link) ;;
         wait 1000 ;;
         el_click H link false ;;
         wait 500 ;;
         takeScreenshot "screenshots/after-clicking-portal-features-direct.png" ;;
         ret (Some true)
       else ret None
   | None => ret None
   end) ;;?
  (allLinks <- page_queryAll H page "a" ;;
   for_of allLinks (fun link =>
     isVisible <- el_isVisible H link ;;
     if negb isVisible then ret None
     else
       linkText <- el_textContent H link ;;
       linkHref <- el_getAttribute H link "href" ;;
       if is_features_link linkText linkHref then
         _ <- page_evaluate H page ScrollAndHighlight (Some link) ;;
         wait 1000 ;;
         takeScreenshot "screenshots/found-portal-features-link.png" ;;
         el_click H link false ;;
         wait 500 ;;
         takeScreenshot "screenshots/after-clicking-portal-features.png" ;;
         ret (Some true)
       else ret None)).

Definition features_strategy1 : M W bool :=
  portalFeatures <- page_query H page portalFeaturesSelector ;;
  match portalFeatures with
  | Some portalFeatures =>
      el_scrollIntoViewIfNeeded H portalFeatures ;;
      takeScreenshot "screenshots/portal-features-found.png" ;;
      el_click H portalFeatures true ;;
      ret true
  | None => ret false
  end.

Definition textOptions : list string :=
  ["Portal Features"; "Portal features"; "portal features"; "Features"; "Portal"].

Definition features_strategy2 : M W bool :=
  returning
    (for_of textOptions (fun text =>
       let selector :=
         "a:text(" +:+ text +:+ "), div:text(" +:+ text +:+ "), li:text(" +:+ text
           +:+ "), span:text(" +:+ text +:+ "), button:text(" +:+ text +:+ ")" in
       element <- page_query H page selector ;;
       match element with
       | Some element =>
           el_scrollIntoViewIfNeeded H element ;;
           takeScreenshot ("screenshots/portal-features-" +:+ Js.slug text +:+ "-found.png") ;;
           el_click H element true ;;
           ret (Some true)
       | None => ret None
       end))
    false.

Definition features_strategy3 : M W bool :=
  clicked <- page_evaluate H page FindPortalFeaturesAndClick None ;;
  if clicked then
    takeScreenshot "screenshots/portal-features-js-clicked.png" ;;
    ret true
  else ret false.

Definition menuSelectors : list string :=
  [".dropdown-menu"; ".menu"; "[role=menu]"; ".popover"; ".modal";
   "ul:has(li:has(a))"; "div:has(a):not(nav)"].

Definition is_relevant_item (itemText itemHref : option string) : bool :=
  (Js.truthy itemText &&
     (let t := Js.toLowerCase (default "" itemText) in
      Js.includes t "portal" || Js.includes t "feature"))
  || (Js.truthy itemHref &&
     (let h := Js.toLowerCase (default "" itemHref) in
      Js.includes h "portal" || Js.includes h "feature")).

(** The body of the loop over [menuSelectors] once a menu is found. *)
Definition click_in_menu (menu : ElementHandle) : M W (option bool) :=
  (portalFeaturesItem <- el_query H menu
     "a:has-text(Portal Features), a:text(Portal Features), a[href*=portal-features], li:has-text(Portal Features), a:has-text(Features), a[href*=features]" ;;
   match portalFeaturesItem with
   | Some item =>
       el_scrollIntoViewIfNeeded H item ;;
       takeScreenshot "screenshots/portal-features-menu-item-found.png" ;;
       _ <- page_evaluate H page Highlight (Some item) ;;
       wait 1000 ;;
       _ <- el_textContent H item ;;
       click_with_fallbacks item ;;
       ret (Some true)
   | None => ret None
   end) ;;?
  (clickableItems <- el_queryAll H menu "a, button, [role=menuitem], li" ;;
   for_of clickableItems (fun item =>
     itemText <- el_textContent H item ;;
     itemHref <- el_getAttribute H item "href" ;;
     if is_relevant_item itemText itemHref then
       el_scrollIntoViewIfNeeded H item ;;
       takeScreenshot "screenshots/relevant-menu-item-found.png" ;;
       click_with_fallbacks item ;;
       ret (Some true)
     else ret None) ;;?
   match clickableItems with
   | item0 :: _ =>
       el_scrollIntoViewIfNeeded H item0 ;;
       takeScreenshot "screenshots/first-menu-item-found.png" ;;
       click_with_fallbacks item0 ;;
       ret (Some true)
   | [] => ret None
   end).

Definition features_strategy4 : M W bool :=
  wait 1000 ;;
  returning
    (for_of menuSelectors (fun menuSelector =>
       menu <- page_query H page menuSelector ;;
       match menu with
       | Some menu => click_in_menu menu
       | None => ret None
       end))
    false.

Definition relatedTerms : list string :=
  ["feature"; "config"; "setting"; "option"; "preference"].

Definition features_strategy5 : M W bool :=
  returning
    (for_of relatedTerms (fun term =>
       let selector :=
         "a:has-text(" +:+ term +:+ "), button:has-text(" +:+ term
           +:+ "), div[role=button]:has-text(" +:+ term +:+ ")" in
       element <- page_query H page selector ;;
       match element with
       | Some element =>
           el_scrollIntoViewIfNeeded H element ;;
           takeScreenshot ("screenshots/related-term-" +:+ term +:+ "-found.png") ;;
           el_click H element true ;;
           ret (Some true)
       | None => ret None
       end))
    false.

Definition clickPortalFeatures_body : M W bool :=
  takeScreenshot "screenshots/before-clicking-portal-features.png" ;;
  wait 2000 ;;
  returning
    (try_catch features_direct (fun error => ret None) ;;?
     first_strategy
       [features_strategy1; features_strategy2; features_strategy3;
        features_strategy4; features_strategy5] ;;?
     (takeScreenshot "screenshots/portal-features-not-found.png" ;; ret None))
    false.

Definition clickPortalFeatures : M W bool :=
  try_catch clickPortalFeatures_body
    (fun error =>
       takeScreenshot "screenshots/error-clicking-portal-features.png" ;; ret false).

(** *** waitForPortalFeaturesContent *)

Definition content_strategy1 : M W bool :=
  try_catch
    (page_waitForSelector H page mainContentSelector (Some 5000%Z) ;; ret true)
    (fun e => ret false).

Definition content_strategy2 : M W bool :=
  try_catch
    (takeScreenshot "screenshots/before-content-wait.png" ;;
     _ <- waitForLoadState "networkidle" 5000 ;;
     wait 1000 ;;
     takeScreenshot "screenshots/after-content-wait.png" ;;
     ret true)
    (fun e => ret false).

Definition content_strategy3 : M W bool :=
  try_catch
    (hasContent <- page_evaluate H page HasMeaningfulText None ;;
     if hasContent then ret true else ret false)
    (fun e => ret false).

Definition content_strategy4 : M W bool :=
  wait 5000 ;; ret true.

(** [for (const strategy of strategies) { if (await strategy()) break; }]. *)
Fixpoint until_first (strategies : list (M W bool)) : M W unit :=
  match strategies with
  | [] => ret tt
  | strategy :: rest =>
      ok <- strategy ;;
      if ok then ret tt else until_first rest
  end.

Definition waitForPortalFeaturesContent : M W unit :=
  try_catch
    (until_first
       [content_strategy1; content_strategy2; content_strategy3; content_strategy4] ;;
     wait 2000 ;;
     takeScreenshot "screenshots/page-content-loaded.png")
    (fun error => takeScreenshot "screenshots/page-content-error.png").

End WithHost.
End InternationalStudentPage.

(** ** LoginPage *)

Module LoginPage.

Definition usernameInput : string := "input[type=text]".
Definition passwordInput : string := "input[type=password]".
Definition loginButton : string := "button[type=submit]".

Section WithHost.
Context {W : Type} (H : Host W) (page : PageId).

Definition waitForLoginForm : M W unit :=
  page_waitForSelector H page usernameInput None ;;
  page_waitForSelector H page passwordInput None ;;
  page_waitForSelector H page loginButton None.

Definition navigateToLoginPage (url : string) : M W unit :=
  BasePage.navigate H page url ;;
  waitForLoginForm.

Definition enterUsername (username : string) : M W unit :=
  page_fill H page usernameInput username.

Definition enterPassword (password : string) : M W unit :=
  page_fill H page passwordInput password.

Definition clickLoginButton : M W unit :=
  page_click H page loginButton.

Definition login (username password : string) : M W unit :=
  enterUsername username ;;
  enterPassword password ;;
  clickLoginButton.

(** The part of [loginAndWaitForNavigation] inside the outer [try]. *)
Definition loginAndWaitForNavigation_body (url username password : string) : M W unit :=
  navigateToLoginPage url ;;
  login username password ;;
  try_catch
    (_ <- BasePage.waitForLoadState H page "domcontentloaded" 10000 ;;
     BasePage.wait H page 1000)
    (fun error => ret tt) ;;
  BasePage.takeScreenshot H page "after-login.png".

Definition loginAndWaitForNavigation (url username password : string) : M W unit :=
  try_catch
    (loginAndWaitForNavigation_body url username password)
    (fun error =>
       BasePage.takeScreenshot H page "login-error.png" ;;
       throw error).

End WithHost.
End LoginPage.

(** ** EllucianLoginPage *)

Module EllucianLoginPage.

Definition usernameInput : string := "#usernameUserInput".
Definition passwordInput : string := "#password".
Definition loginButton : string := "button[type=submit]".
Definition rememberMeCheckbox : string := "#chkRemember".

Section WithHost.
Context {W : Type} (H : Host W) (page : PageId).

Local Abbreviation takeScreenshot := (BasePage.takeScreenshot H page).

Definition waitForLoginForm : M W unit :=
  try_catch
    (page_waitForSelector H page usernameInput (Some 10000%Z) ;;
     page_waitForSelector H page passwordInput (Some 5000%Z) ;;
     page_waitForSelector H page loginButton (Some 5000%Z))
    (fun error => takeScreenshot "login-form-error.png" ;; throw error).

Definition navigateToLoginPage (url : string) : M W unit :=
  BasePage.navigate H page url ;;
  waitForLoginForm.

Definition enterUsername (username : string) : M W unit :=
  try_catch
    (page_fill H page usernameInput username)
    (fun error => takeScreenshot "username-error.png" ;; throw error).

Definition enterPassword (password : string) : M W unit :=
  try_catch
    (page_fill H page passwordInput password)
    (fun error => takeScreenshot "password-error.png" ;; throw error).

(** [page.$eval(rememberMeCheckbox, el => el.checked)] is the script
    [IsChecked] run on the page. *)
Definition toggleRememberMe (check : bool) : M W unit :=
  try_catch
    (isChecked <- page_evaluate H page IsChecked None ;;
     if (check && negb isChecked) || (negb check && isChecked)
     then page_click H page rememberMeCheckbox
     else ret tt)
    (fun error => ret tt).

Definition clickLoginButton : M W unit :=
  try_catch
    (page_click H page loginButton)
    (fun error => takeScreenshot "login-button-error.png" ;; throw error).

(** Returns [new PortalPage(this.page)]: the page the portal object wraps. *)
Definition login (username password : string) (rememberMe : bool) : M W PageId :=
  enterUsername username ;;
  enterPassword password ;;
  (if rememberMe then toggleRememberMe true else ret tt) ;;
  clickLoginButton ;;
  ret page.

Definition loginAndWaitForNavigation_body (url username password : string)
    (rememberMe : bool) : M W PageId :=
  navigateToLoginPage url ;;
  takeScreenshot "at-login-page.png" ;;
  portalPage <- login username password rememberMe ;;
  try_catch
    (_ <- BasePage.waitForLoadState H page "domcontentloaded" 20000 ;;
     BasePage.wait H page 2000 ;;
     takeScreenshot "after-login-navigation.png")
    (fun error => ret tt) ;;
  ret portalPage.

Definition loginAndWaitForNavigation (url username password : string)
    (rememberMe : bool) : M W PageId :=
  try_catch
    (loginAndWaitForNavigation_body url username password rememberMe)
    (fun error => takeScreenshot "login-process-error.png" ;; throw error).


End WithHost.
End EllucianLoginPage.

(** ** The configuration prologue of the test scripts *)

Module Tests.

(** [process.env] after [dotenv] has loaded the [.env] file. *)
Abbreviation Env := (gmap string string).

Record Config : Type := mkConfig {
  portalUrl : string;
  username : string;
  password : string
}.

Definition ellucianUrl : string :=
  "https://experience-dev-devinternal.elluciancloud.com/ebuildcanadaglobal/".

(** [a || b] on a [string | undefined] left operand. *)
Definition js_or (a : option string) (b : string) : string :=
  if Js.truthy a then default "" a else b.

Definition falsy (s : string) : bool := negb (Js.truthy (Some s)).

Definition ConfigurationMissing : JsError :=
  mkError "Error"
    "Required environment variables (url, Username, Password) must be set in .env file".

(** [ellucian-portal-login.spec.js], lines 19-24: the three values are
    literals; [process.env] is loaded and never read. *)
Definition login_spec_config (env : Env) : outcome Config :=
  Ret (mkConfig ellucianUrl "vberg" "111111").

(** [ellucian-portal-event-signup.spec.js], lines 22-29 (the same lines open
    [ellucian-requirements-navigation-test.spec.js]). *)
Definition event_signup_config (env : Env) : outcome Config :=
  let portalUrl := js_or (env !! "url") ellucianUrl in
  let username := js_or (env !! "Username") "vberg" in
  let password := js_or (env !! "Password") "111111" in
  if falsy portalUrl || falsy username || falsy password
  then Raise ConfigurationMissing
  else Ret (mkConfig portalUrl username password).

Section WithHost.
Context {W : Type} (H : Host W) (page : PageId).

(** Both scripts up to the end of their login step: the configuration
    prologue, then [loginPage.loginAndWaitForNavigation]. *)
Definition run_login (config : outcome Config) : M W unit :=
  match config with
  | Raise e => throw e
  | Ret c => LoginPage.loginAndWaitForNavigation H page (portalUrl c) (username c) (password c)
  end.

Definition login_spec (env : Env) : M W unit :=
  try_catch
    (run_login (login_spec_config env) ;;
     BasePage.takeScreenshot H page "screenshots/ellucian-after-login.png")
    (fun error =>
       page_screenshot H page "screenshots/login-failure.png" None ;;
       throw error).

Definition event_signup_spec (env : Env) : M W unit :=
  run_login (event_signup_config env) ;;
  BasePage.takeScreenshot H page "screenshots/after-login.png".

End WithHost.
End Tests.

(** ** A simulated browser

    A deterministic host for running the page objects: a scenario fixes what
    the document answers, the world carries a logical clock, the number of
    [page.$$] queries answered so far (so that a document can change between
    polls) and the trace of the actions performed.  Waiting is the only thing
    that takes time: [waitForTimeout(ms)] takes [ms], and a wait for a
    selector or load state that is not met takes its whole timeout and then
    throws. *)

Module Sim.

Import InternationalStudentPage.

Inductive Action : Type :=
| Goto (url : string)
| Fill (selector value : string)
| ClickSelector (selector : string)
| ClickElement (el : ElementHandle) (force : bool)
| ClickLocator (l : Locator)
| Evaluate (s : Script) (el : option ElementHandle)
| Dom (a : DomAction) (el : ElementHandle)
| WaitForTimeout (ms : Z)
| Screenshot (path : string).

Record World : Type := mkWorld {
  clock : Z;
  polls : nat;
  trace : list Action
}.

Record Scenario : Type := mkScenario {
  regexp_error : string -> option JsError;
  reachable : string -> bool;
  selector_appears : string -> bool;
  load_state_reached : PageId -> string -> bool;
  select_all : nat -> string -> list ElementHandle;
  select : string -> option ElementHandle;
  sub_select : ElementHandle -> string -> option ElementHandle;
  sub_select_all : ElementHandle -> string -> list ElementHandle;
  text_of : ElementHandle -> option string;
  attribute_of : ElementHandle -> string -> option string;
  visible : ElementHandle -> bool;
  click_is_function : ElementHandle -> bool;
  click_fails : ElementHandle -> bool;
  script_result : Script -> option ElementHandle -> option bool;
  locator_matches : Locator -> list ElementHandle;
  open_pages : list PageId;
  title : string;
  body_text : string
}.

Definition TimeoutError : JsError := mkError "TimeoutError" "Timeout exceeded".
Definition ScriptError : JsError := mkError "Error" "Evaluation failed".
Definition ClickError : JsError := mkError "Error" "Element is not attached to the DOM".
Definition NavigationError : JsError := mkError "Error" "net::ERR_NAME_NOT_RESOLVED".

Definition default_timeout : Z := 30000.

Definition log (a : Action) (w : World) : World :=
  mkWorld (clock w) (polls w) (trace w ++ [a]).

Definition advance (ms : Z) (w : World) : World :=
  mkWorld (clock w + Z.max 0 ms) (polls w) (trace w).

Definition polled (w : World) : World :=
  mkWorld (clock w) (S (polls w)) (trace w).

(** A query: answers at once and leaves the world alone. *)
Definition answer {A : Type} (a : A) : M World A := fun w => (Ret a, w).

(** An action that succeeds. *)
Definition perform (a : Action) : M World unit := fun w => (Ret tt, log a w).

(** A wait that resolves at once when [met], and otherwise takes the whole
    timeout and throws. *)
Definition await_condition (met : bool) (timeout : Z) : M World unit :=
  fun w => if met then (Ret tt, w) else (Raise TimeoutError, advance timeout w).

(** An action on a selector or locator: performed when it resolves to an
    element, a timeout otherwise. *)
Definition act_if (found : bool) (a : Action) : M World unit :=
  fun w => if found then (Ret tt, log a w)
           else (Raise TimeoutError, advance default_timeout w).

Section WithScenario.
Variable sc : Scenario.

(** [page.evaluate]: the script runs in the browser; for the two click
    scripts of [InternationalStudentPage] the trace records what they do to
    the element. *)
Definition evaluate (s : Script) (el : option ElementHandle) : M World bool :=
  fun w =>
    let w := log (Evaluate s el) w in
    match script_result sc s el with
    | None => (Raise ScriptError, w)
    | Some b =>
        match s, el with
        | ClickOrDispatch, Some e =>
            (Ret b, log (Dom (click_or_dispatch (click_is_function sc e)) e) w)
        | DispatchClick, Some e => (Ret b, log (Dom DispatchMouseEvent e) w)
        | _, _ => (Ret b, w)
        end
    end.

(** The elements a locator resolves to, in document order; [first] keeps
    the first of them. *)
Fixpoint resolve (l : Locator) : list ElementHandle :=
  match l with
  | first l' => take 1 (resolve l')
  | _ => locator_matches sc l
  end.

Definition host : Host World := {|
  date_now := clock;
  js_RegExp := regexp_error sc;
  fs_ensure_dir := fun path => answer tt;
  page_goto := fun p url w =>
    if reachable sc url then (Ret tt, log (Goto url) w)
    else (Raise NavigationError, log (Goto url) w);
  page_waitForLoadState := fun p state timeout =>
    await_condition (load_state_reached sc p state) timeout;
  page_screenshot := fun p path timeout => perform (Screenshot path);
  page_waitForTimeout := fun p ms w => (Ret tt, advance ms (log (WaitForTimeout ms) w));
  page_title := fun p => answer (title sc);
  page_innerText := fun p => answer (body_text sc);
  page_waitForSelector := fun p selector timeout =>
    await_condition (selector_appears sc selector) (default default_timeout timeout);
  page_query := fun p selector => answer (select sc selector);
  page_queryAll := fun p selector w => (Ret (select_all sc (polls w) selector), polled w);
  page_fill := fun p selector value =>
    act_if (selector_appears sc selector) (Fill selector value);
  page_click := fun p selector =>
    act_if (selector_appears sc selector) (ClickSelector selector);
  page_isVisible := fun p selector => answer (selector_appears sc selector);
  page_textContent := fun p selector =>
    answer (match select sc selector with Some e => text_of sc e | None => None end);
  page_evaluate := fun p => evaluate;
  el_query := fun e selector => answer (sub_select sc e selector);
  el_queryAll := fun e selector => answer (sub_select_all sc e selector);
  el_textContent := fun e => answer (text_of sc e);
  el_getAttribute := fun e a => answer (attribute_of sc e a);
  el_isVisible := fun e => answer (visible sc e);
  el_scrollIntoViewIfNeeded := fun e => answer tt;
  el_click := fun e force w =>
    if click_fails sc e then (Raise ClickError, log (ClickElement e force) w)
    else (Ret tt, log (ClickElement e force) w);
  loc_count := fun p l => answer (length (resolve l));
  loc_scrollIntoViewIfNeeded := fun p l w =>
    match resolve l with
    | [] => (Raise TimeoutError, advance default_timeout w)
    | _ => (Ret tt, w)
    end;
  loc_click := fun p l force =>
    act_if (match resolve l with [] => false | _ => true end) (ClickLocator l);
  context_pages := fun c => answer (open_pages sc)
|}.

End WithScenario.

Definition start : World := mkWorld 0 0 [].

(** The unchanged document: every poll is answered as the first one. *)
Definition freeze (sc : Scenario) : Scenario :=
  mkScenario (regexp_error sc) (reachable sc) (selector_appears sc)
    (load_state_reached sc) (fun _ => select_all sc 0) (select sc)
    (sub_select sc) (sub_select_all sc) (text_of sc) (attribute_of sc)
    (visible sc) (click_is_function sc) (click_fails sc) (script_result sc)
    (locator_matches sc) (open_pages sc) (title sc) (body_text sc).

(** Time a run took, and its result. *)
Definition elapsed {A : Type} (m : M World A) (w : World) : Z :=
  clock (snd (m w)) - clock w.

Definition result {A : Type} (m : M World A) (w : World) : outcome A :=
  fst (m w).

(** The actions a run added to the trace. *)
Definition added {A : Type} (m : M World A) (w : World) : list Action :=
  drop (length (trace w)) (trace (snd (m w))).

End Sim.

(** * Specification vocabulary *)

(** [m] returns normally in every world. *)
Definition never_throws {W A : Type} (m : M W A) : Prop :=
  forall w, exists a w', m w = (Ret a, w').

(** [op] is [body] inside a [try] whose [catch] returns [fallback]: it returns
    what the body returns, and [fallback] when the body throws. *)
Definition guarded {W A : Type} (op body : M W A) (fallback : A) : Prop :=
  forall w,
    fst (op w) = match fst (body w) with
                 | Ret v => Ret v
                 | Raise _ => Ret fallback
                 end.

(** [op] lets every error of [body] through to its caller. *)
Definition rethrows {W A : Type} (op body : M W A) : Prop :=
  forall w, fst (op w) = fst (body w).

(** ** The find, click and wait operations on cards, buttons and icons *)





(** ** The other public operations with a [catch] that does not throw again *)



(** ** The public operations that hand their errors to the caller

    With [CardOperation] and [OtherOperation] these are all the public methods
    of the page objects: 6 of [BasePage], 10 of [PortalPage], 7 of
    [DashboardPage], 8 of [RequirementsPage], 3 of [InternationalStudentPage],
    7 of [LoginPage] and 9 of [EllucianLoginPage].  The operations below have
    no [catch] at all, or a [catch] that throws the error again. *)



(** A host whose page has been closed: every call on the page, on one of its
    elements or locators and on its browser context throws; the clock, the
    regular expressions and the file system are not the page's and still
    work. *)
Definition TargetClosed : JsError :=
  mkError "Error" "Target page, context or browser has been closed".

Definition closed_page : Host unit := {|
  date_now := fun _ => 0%Z;
  js_RegExp := fun _ => None;
  fs_ensure_dir := fun _ => ret tt;
  page_goto := fun _ _ => throw TargetClosed;
  page_waitForLoadState := fun _ _ _ => throw TargetClosed;
  page_screenshot := fun _ _ _ => throw TargetClosed;
  page_waitForTimeout := fun _ _ => throw TargetClosed;
  page_title := fun _ => throw TargetClosed;
  page_innerText := fun _ => throw TargetClosed;
  page_waitForSelector := fun _ _ _ => throw TargetClosed;
  page_query := fun _ _ => throw TargetClosed;
  page_queryAll := fun _ _ => throw TargetClosed;
  page_fill := fun _ _ _ => throw TargetClosed;
  page_click := fun _ _ => throw TargetClosed;
  page_isVisible := fun _ _ => throw TargetClosed;
  page_textContent := fun _ _ => throw TargetClosed;
  page_evaluate := fun _ _ _ => throw TargetClosed;
  el_query := fun _ _ => throw TargetClosed;
  el_queryAll := fun _ _ => throw TargetClosed;
  el_textContent := fun _ => throw TargetClosed;
  el_getAttribute := fun _ _ => throw TargetClosed;
  el_isVisible := fun _ => throw TargetClosed;
  el_scrollIntoViewIfNeeded := fun _ => throw TargetClosed;
  el_click := fun _ _ => throw TargetClosed;
  loc_count := fun _ _ => throw TargetClosed;
  loc_scrollIntoViewIfNeeded := fun _ _ => throw TargetClosed;
  loc_click := fun _ _ _ => throw TargetClosed;
  context_pages := fun _ => throw TargetClosed
|}.

(** The most recently opened page of a browser context: the last entry of
    [context.pages()]; [current] when the context lists no page. *)
Definition newest (pages : list PageId) (current : PageId) : PageId :=
  default current (last pages).

(** ** The card-count loops, as functions of the counts polled *)

(** The size of the answer to the [k]-th [page.$$] query for the portal's
    card selector. *)
Definition portal_count (sc : Sim.Scenario) (k : nat) : nat :=
  length (Sim.select_all sc k PortalPage.cardSelector).

Definition dashboard_count (sc : Sim.Scenario) (k : nat) : nat :=
  length (Sim.select_all sc k DashboardPage.dashboardCardSelector).

Module PortalCount.
Import PortalPage.

(** The loop of [waitForPortalPageLoad] when the [k]-th query finds [f k]
    cards: the state it ends in. *)
Fixpoint scan (f : nat -> nat) (k : nat) (fuel : nat) (st : CountState) : CountState :=
  match fuel with
  | O => st
  | S fuel' =>
      if (attempt st <? maxAttempts)%nat && (stableCount st <? 3)%nat
      then scan f (S k) fuel' (tick st (f k))
      else st
  end.

(** The loop variables after [n] polls starting with query [k0], were the
    loop never to stop. *)
Fixpoint after (f : nat -> nat) (k0 : nat) (n : nat) : CountState :=
  match n with
  | O => initial
  | S m => tick (after f k0 m) (f (k0 + m)%nat)
  end.

(** The number of polls after which the loop stops, from [n] polls on. *)
Fixpoint stop (f : nat -> nat) (k0 : nat) (fuel : nat) (n : nat) : nat :=
  match fuel with
  | O => n
  | S fuel' =>
      if (n <? maxAttempts)%nat && (stableCount (after f k0 n) <? 3)%nat
      then stop f k0 fuel' (S n)
      else n
  end.

(** Four polls in a row, the [i]-th to the [i+3]-th, found the same non-zero
    number of cards. *)
Definition four_equal (f : nat -> nat) (i : nat) : Prop :=
  f i = f (S i) /\ f (S i) = f (S (S i))
  /\ f (S (S i)) = f (S (S (S i))) /\ (0 < f i)%nat.

(** The reading of the claim: three polls in a row found the same non-zero
    number of cards. *)
Definition three_equal (f : nat -> nat) (i : nat) : Prop :=
  f i = f (S i) /\ f (S i) = f (S (S i)) /\ (0 < f i)%nat.

End PortalCount.

Module DashboardCount.
Import DashboardPage.

(** The loop of [waitForDashboardPageLoad] on the simulated browser: [now]
    is the clock at the top of the attempt, [k] the index of the next
    [page.$$] query; each further attempt comes 1000 ms later. *)
Fixpoint scan (sc : Sim.Scenario) (startTime timeout now : Z) (k : nat)
    (remaining : nat) (st : CountState) : CountState * LoopExit :=
  match remaining with
  | O => (st, Exhausted)
  | S remaining' =>
      if (timeout <? now - startTime)%Z then (st, TimedOut)
      else
        let continue (st : CountState) :=
          scan sc startTime timeout (now + 1000)%Z (S k) remaining'
            (mkCount (Sim.select_all sc k dashboardCardSelector)
               (previousCardCount st) (stableCount st)) in
        if (length (cards st) =? previousCardCount st)%nat then
          let st := mkCount (cards st) (previousCardCount st) (S (stableCount st)) in
          if (2 <=? stableCount st)%nat then (st, Stabilized)
          else continue st
        else
          continue (mkCount (cards st) (length (cards st)) 0)
  end.

(** The counts the attempts see: the query before the loop found [cards0],
    attempt [j + 1] sees the answer to query [k0 + j]. *)
Definition seen (sc : Sim.Scenario) (cards0 : list ElementHandle) (k0 : nat) (j : nat) : nat :=
  match j with
  | O => length cards0
  | S j' => dashboard_count sc (k0 + j')
  end.

(** The overall timeout has not expired at the top of attempt [j]. *)
Definition in_time (startTime timeout now : Z) (j : Z) : Prop :=
  (now + 1000 * j - startTime <= timeout)%Z.

End DashboardCount.

(** ** Concrete scenarios *)

Module Scenarios.
Import Sim.

(** An empty page on which every wait is met at once and nothing fails. *)
Definition blank : Scenario :=
  mkScenario (fun _ => None) (fun _ => true) (fun _ => true) (fun _ _ => true)
    (fun _ _ => []) (fun _ => None) (fun _ _ => None) (fun _ _ => [])
    (fun _ => None) (fun _ _ => None) (fun _ => true) (fun _ => true)
    (fun _ => false) (fun _ _ => Some false) (fun _ => []) [0%nat] "" "".

Definition with_select_all (f : nat -> string -> list ElementHandle) (sc : Scenario) : Scenario :=
  mkScenario (regexp_error sc) (reachable sc) (selector_appears sc)
    (load_state_reached sc) f (select sc)
    (sub_select sc) (sub_select_all sc) (text_of sc) (attribute_of sc)
    (visible sc) (click_is_function sc) (click_fails sc) (script_result sc)
    (locator_matches sc) (open_pages sc) (title sc) (body_text sc).

Definition with_selector_appears (f : string -> bool) (sc : Scenario) : Scenario :=
  mkScenario (regexp_error sc) (reachable sc) f
    (load_state_reached sc) (select_all sc) (select sc)
    (sub_select sc) (sub_select_all sc) (text_of sc) (attribute_of sc)
    (visible sc) (click_is_function sc) (click_fails sc) (script_result sc)
    (locator_matches sc) (open_pages sc) (title sc) (body_text sc).

Definition with_select (f : string -> option ElementHandle) (sc : Scenario) : Scenario :=
  mkScenario (regexp_error sc) (reachable sc) (selector_appears sc)
    (load_state_reached sc) (select_all sc) f
    (sub_select sc) (sub_select_all sc) (text_of sc) (attribute_of sc)
    (visible sc) (click_is_function sc) (click_fails sc) (script_result sc)
    (locator_matches sc) (open_pages sc) (title sc) (body_text sc).

Definition with_sub_select (f : ElementHandle -> string -> option ElementHandle)
    (sc : Scenario) : Scenario :=
  mkScenario (regexp_error sc) (reachable sc) (selector_appears sc)
    (load_state_reached sc) (select_all sc) (select sc)
    f (sub_select_all sc) (text_of sc) (attribute_of sc)
    (visible sc) (click_is_function sc) (click_fails sc) (script_result sc)
    (locator_matches sc) (open_pages sc) (title sc) (body_text sc).

Definition with_text_of (f : ElementHandle -> option string) (sc : Scenario) : Scenario :=
  mkScenario (regexp_error sc) (reachable sc) (selector_appears sc)
    (load_state_reached sc) (select_all sc) (select sc)
    (sub_select sc) (sub_select_all sc) f (attribute_of sc)
    (visible sc) (click_is_function sc) (click_fails sc) (script_result sc)
    (locator_matches sc) (open_pages sc) (title sc) (body_text sc).

Definition with_visible (f : ElementHandle -> bool) (sc : Scenario) : Scenario :=
  mkScenario (regexp_error sc) (reachable sc) (selector_appears sc)
    (load_state_reached sc) (select_all sc) (select sc)
    (sub_select sc) (sub_select_all sc) (text_of sc) (attribute_of sc)
    f (click_is_function sc) (click_fails sc) (script_result sc)
    (locator_matches sc) (open_pages sc) (title sc) (body_text sc).

Definition with_click_is_function (f : ElementHandle -> bool) (sc : Scenario) : Scenario :=
  mkScenario (regexp_error sc) (reachable sc) (selector_appears sc)
    (load_state_reached sc) (select_all sc) (select sc)
    (sub_select sc) (sub_select_all sc) (text_of sc) (attribute_of sc)
    (visible sc) f (click_fails sc) (script_result sc)
    (locator_matches sc) (open_pages sc) (title sc) (body_text sc).

Definition with_click_fails (f : ElementHandle -> bool) (sc : Scenario) : Scenario :=
  mkScenario (regexp_error sc) (reachable sc) (selector_appears sc)
    (load_state_reached sc) (select_all sc) (select sc)
    (sub_select sc) (sub_select_all sc) (text_of sc) (attribute_of sc)
    (visible sc) (click_is_function sc) f (script_result sc)
    (locator_matches sc) (open_pages sc) (title sc) (body_text sc).

Definition with_script_result (f : Script -> option ElementHandle -> option bool)
    (sc : Scenario) : Scenario :=
  mkScenario (regexp_error sc) (reachable sc) (selector_appears sc)
    (load_state_reached sc) (select_all sc) (select sc)
    (sub_select sc) (sub_select_all sc) (text_of sc) (attribute_of sc)
    (visible sc) (click_is_function sc) (click_fails sc) f
    (locator_matches sc) (open_pages sc) (title sc) (body_text sc).

Definition with_locator_matches (f : Locator -> list ElementHandle) (sc : Scenario) : Scenario :=
  mkScenario (regexp_error sc) (reachable sc) (selector_appears sc)
    (load_state_reached sc) (select_all sc) (select sc)
    (sub_select sc) (sub_select_all sc) (text_of sc) (attribute_of sc)
    (visible sc) (click_is_function sc) (click_fails sc) (script_result sc)
    f (open_pages sc) (title sc) (body_text sc).


Definition with_open_pages (pages : list PageId) (sc : Scenario) : Scenario :=
  mkScenario (regexp_error sc) (reachable sc) (selector_appears sc)
    (load_state_reached sc) (select_all sc) (select sc)
    (sub_select sc) (sub_select_all sc) (text_of sc) (attribute_of sc)
    (visible sc) (click_is_function sc) (click_fails sc) (script_result sc)
    (locator_matches sc) pages (title sc) (body_text sc).

Definition with_load_state_reached (f : PageId -> string -> bool) (sc : Scenario) : Scenario :=
  mkScenario (regexp_error sc) (reachable sc) (selector_appears sc)
    f (select_all sc) (select sc)
    (sub_select sc) (sub_select_all sc) (text_of sc) (attribute_of sc)
    (visible sc) (click_is_function sc) (click_fails sc) (script_result sc)
    (locator_matches sc) (open_pages sc) (title sc) (body_text sc).

(** A click has opened the tabs 1 and 2 beside the current page 0. *)
Definition two_new_tabs : Scenario := with_open_pages [0; 1; 2]%nat blank.

(** The same, but the newest tab never finishes loading. *)
Definition newest_tab_stalls : Scenario :=
  with_load_state_reached (fun p _ => negb (p =? 2)%nat) two_new_tabs.

(** A page whose [k]-th card query finds [counts[k]] cards (none once the
    list is used up), the cards being the elements 1, 2, ... *)
Definition polling (counts : list nat) : Scenario :=
  with_select_all (fun k _ => seq 1 (nth k counts 0%nat)) blank.

(** Three polls in a row find five cards; the counts differ afterwards. *)
Definition five_thrice : Scenario := polling [5; 5; 5; 4; 3; 2; 1; 2; 3; 4]%nat.

(** Four polls in a row find five cards. *)
Definition five_four_times : Scenario := polling [3; 5; 5; 5; 5]%nat.

(** The number of cards keeps changing. *)
Definition flickering : Scenario := polling [1; 2; 1; 2; 1; 2; 1; 2; 1; 2; 1; 2]%nat.

(** A dashboard with content and container but no card at all. *)
Definition no_cards : Scenario :=
  with_selector_appears
    (fun selector => negb (String.eqb selector DashboardPage.dashboardCardSelector))
    blank.

End Scenarios.

(** ** What findCard resolves to on a given document *)

Module Resolver.
Import Sim.

(** The title test of the first loop: the card has an element matching the
    title selector whose text is non-empty and contains the name, case
    ignored. *)
Definition title_hit (sc : Scenario) (titleSelector cardName : string)
    (card : ElementHandle) : bool :=
  match sub_select sc card titleSelector with
  | Some titleElement =>
      Js.truthy (text_of sc titleElement)
      && Js.icontains (default "" (text_of sc titleElement)) cardName
  | None => false
  end.

(** The content test of the second loop. *)
Definition content_hit (sc : Scenario) (cardName : string) (card : ElementHandle) : bool :=
  Js.truthy (text_of sc card) && Js.icontains (default "" (text_of sc card)) cardName.

(** [PortalPage.findCard] on the cards [cards]: the first card, in document
    order, that passes the title test; failing that, the first that passes
    the content test; failing that, [null]. *)
Definition portal (sc : Scenario) (cards : list ElementHandle) (cardName : string)
  : option ElementHandle :=
  match List.find (title_hit sc PortalPage.cardTitleSelector cardName) cards with
  | Some card => Some card
  | None => List.find (content_hit sc cardName) cards
  end.

(** The page-wide step of [DashboardPage.findCard]: the first element whose
    text matches the regular expression made of the name, when that
    expression is well formed and matches somewhere. *)
Definition page_text (sc : Scenario) (cardName : string) : option CardRef :=
  match regexp_error sc cardName with
  | Some _ => None
  | None =>
      match locator_matches sc (getByText cardName) with
      | [] => None
      | _ :: _ => Some (Loc (first (getByText cardName)))
      end
  end.

Definition dashboard (sc : Scenario) (cards : list ElementHandle) (cardName : string)
  : option CardRef :=
  match List.find (title_hit sc DashboardPage.cardTitleSelector cardName) cards with
  | Some card => Some (Handle card)
  | None =>
      match List.find (content_hit sc cardName) cards with
      | Some card => Some (Handle card)
      | None => page_text sc cardName
      end
  end.

(** The reading of the claim: the first card, in document order, that is
    visible and passes the test. *)
Definition first_visible (sc : Scenario) (hit : ElementHandle -> bool)
    (cards : list ElementHandle) : option ElementHandle :=
  List.find (fun card => visible sc card && hit card) cards.

End Resolver.

Module Documents.
Import Sim Scenarios.

(** Two cards titled alike; the first one is hidden. *)
Definition hidden_first : Scenario :=
  with_visible (fun e => negb (e =? 1)%nat)
    (with_text_of (fun e => if (e <? 20)%nat then Some "International Portal"%string else None)
       (with_sub_select (fun card _ => Some (10 + card)%nat)
          (with_select_all (fun _ _ => [1; 2]%nat) blank))).

(** No card at all; one paragraph of the page mentions the name. *)
Definition text_only : Scenario :=
  with_locator_matches
    (fun l => match l with getByText _ => [7%nat] | _ => [] end)
    blank.

End Documents.

(** ** The click chain of clickPortalFeatures, as seen in the trace *)

Module ClickChain.
Import Sim InternationalStudentPage.

(** The three ways in which lines 509-542 try to click an element. *)
Inductive Attempt : Type := ForcedClick | ScriptedClick | DispatchedEvent.

Definition order : list Attempt := [ForcedClick; ScriptedClick; DispatchedEvent].

Definition attempt_of (a : Action) : option Attempt :=
  match a with
  | ClickElement _ true => Some ForcedClick
  | Evaluate ClickOrDispatch _ => Some ScriptedClick
  | Evaluate DispatchClick _ => Some DispatchedEvent
  | _ => None
  end.

(** The click attempts recorded in a trace, in the order they were made. *)
Definition attempts (tr : list Action) : list Attempt := omap attempt_of tr.

(** The actions the chain adds to the trace and the way it ends, by which
    of its calls throw. *)
Definition expected (sc : Scenario) (el : ElementHandle) : list Action * outcome unit :=
  if negb (click_fails sc el) then
    ([ClickElement el true], Ret tt)
  else
    match script_result sc ClickOrDispatch (Some el) with
    | Some _ =>
        ([ClickElement el true; Evaluate ClickOrDispatch (Some el);
          Dom (click_or_dispatch (click_is_function sc el)) el], Ret tt)
    | None =>
        match script_result sc DispatchClick (Some el) with
        | Some _ =>
            ([ClickElement el true; Evaluate ClickOrDispatch (Some el);
              Evaluate DispatchClick (Some el); Dom DispatchMouseEvent el], Ret tt)
        | None =>
            ([ClickElement el true; Evaluate ClickOrDispatch (Some el);
              Evaluate DispatchClick (Some el)], Raise ScriptError)
        end
    end.

(** A page on which [clickPortalFeatures] finds nothing until its fourth
    strategy, which finds the menu 50 and in it the item 51. *)
Definition menu_page (forced_click_fails click_is_function : bool) : Scenario :=
  Scenarios.with_select
    (fun selector => if String.eqb selector ".dropdown-menu" then Some 50%nat else None)
    (Scenarios.with_sub_select
       (fun e _ => if (e =? 50)%nat then Some 51%nat else None)
       (Scenarios.with_click_fails
          (fun e => forced_click_fails && (e =? 51)%nat)
          (Scenarios.with_click_is_function (fun _ => click_is_function)
             Scenarios.blank))).

(** The same page when both click scripts throw as well. *)
Definition scripts_fail (sc : Scenario) : Scenario :=
  Scenarios.with_script_result
    (fun s el =>
       match s with
       | ClickOrDispatch | DispatchClick => None
       | _ => script_result sc s el
       end)
    sc.

End ClickChain.

(** ** Documents on which a name matches nothing *)

(** Nothing on the card matches the name: neither the text of its title
    element nor its own text contains it, case ignored. *)
Definition card_without (sc : Sim.Scenario) (titleSelector cardName : string)
    (card : ElementHandle) : Prop :=
  (forall t s,
      Sim.sub_select sc card titleSelector = Some t ->
      Sim.text_of sc t = Some s -> Js.icontains s cardName = false)
  /\ (forall s, Sim.text_of sc card = Some s -> Js.icontains s cardName = false).

(** No card that any poll of the document finds matches the name. *)
Definition no_card_matches (sc : Sim.Scenario) (cardSelector titleSelector cardName : string)
  : Prop :=
  forall k card,
    In card (Sim.select_all sc k cardSelector) ->
    card_without sc titleSelector cardName card.

(** No text of the page matches the name as a regular expression: the name
    is no regular expression, or no element matches it. *)
Definition no_text_matches (sc : Sim.Scenario) (cardName : string) : Prop :=
  Sim.regexp_error sc cardName <> None
  \/ Sim.locator_matches sc (getByText cardName) = [].

(** ** What the click operations of PortalPage click *)

Module ButtonResolver.
Import Sim.

(** [PortalPage.clickCardButton] on a card it found.  With a button text: the
    first button of the card, in document order, whose text contains it, case
    ignored; failing that, the first button of the page with that accessible
    name, unless the text is no regular expression; failing that, the card
    itself when [clickCardIfNoButton] is set.  Without a button text: the
    first button of the card, or else the card itself when the flag is set. *)
Definition portal (sc : Scenario) (card : ElementHandle) (buttonText : option string)
    (clickCardIfNoButton : bool) : option Action :=
  let buttons := sub_select_all sc card PortalPage.cardButtonSelector in
  let fallback := if clickCardIfNoButton then Some (ClickElement card true) else None in
  if Js.truthy buttonText then
    let text := default "" buttonText in
    match List.find (Resolver.content_hit sc text) buttons with
    | Some button => Some (ClickElement button true)
    | None =>
        match regexp_error sc text with
        | Some _ => None
        | None =>
            match locator_matches sc (getByRole "button" (Some text)) with
            | _ :: _ => Some (ClickLocator (first (getByRole "button" (Some text))))
            | [] => fallback
            end
        end
    end
  else
    match buttons with
    | button0 :: _ => Some (ClickElement button0 true)
    | [] => fallback
    end.

(** Whether the click, if any, goes through. *)
Definition succeeds (sc : Scenario) (target : option Action) : bool :=
  match target with
  | Some (ClickElement e _) => negb (click_fails sc e)
  | Some _ => true
  | None => false
  end.

End ButtonResolver.

(** The card has a title element with some text in it. *)
Definition has_title (sc : Sim.Scenario) (card : ElementHandle) : bool :=
  match Sim.sub_select sc card PortalPage.cardTitleSelector with
  | Some titleElement => Js.truthy (Sim.text_of sc titleElement)
  | None => false
  end.

(** ** Vocabulary for the further properties *)

(** No character of [s] is white space. *)
Definition no_space (s : string) : Prop :=
  forall c, In c (list_ascii_of_string s) -> Js.is_space c = false.

(** The invariant of the card-count loop of [PortalPage]: the two count
    variables agree, the counter never passes 3 nor the attempts 10, a
    positive counter goes with a positive count, and the counter stays below
    the number of polls made. *)
Definition portal_count_invariant (st : PortalPage.CountState) : Prop :=
  PortalPage.previousCardCount st = PortalPage.currentCardCount st
  /\ (PortalPage.stableCount st <= 3)%nat
  /\ (PortalPage.attempt st <= PortalPage.maxAttempts)%nat
  /\ (0 < PortalPage.stableCount st -> 0 < PortalPage.currentCardCount st)%nat
  /\ (PortalPage.attempt st = 0%nat ->
      PortalPage.previousCardCount st = 0%nat /\ PortalPage.stableCount st = 0%nat)
  /\ (0 < PortalPage.attempt st -> PortalPage.stableCount st < PortalPage.attempt st)%nat.

(** [f] of the world is the same after [m] as before it, however [m] ends. *)
Definition preserves {X A : Type} (f : Sim.World -> X) (m : M Sim.World A) : Prop :=
  forall w, f (snd (m w)) = f w.

(** [m] takes at most [d] ms of the simulated clock, however it ends, and
    never sets the clock back. *)
Definition within {A : Type} (d : Z) (m : M Sim.World A) : Prop :=
  (0 <= d)%Z
  /\ forall w, (Sim.clock w <= Sim.clock (snd (m w)) <= Sim.clock w + d)%Z.

(** The clicks recorded in a trace: on elements, selectors and locators. *)
Definition is_click (a : Sim.Action) : bool :=
  match a with
  | Sim.ClickElement _ _ | Sim.ClickSelector _ | Sim.ClickLocator _ => true
  | _ => false
  end.

Definition clicks (w : Sim.World) : list Sim.Action :=
  List.filter is_click (Sim.trace w).

(** The waits of a trace. *)
Definition is_wait (a : Sim.Action) : bool :=
  match a with
  | Sim.WaitForTimeout _ => true
  | _ => false
  end.

(** The click that [DashboardPage.clickCard] makes on what [findCard]
    returned: on the element, or on the locator. *)
Definition card_click (card : CardRef) : Sim.Action :=
  match card with
  | Handle h => Sim.ClickElement h true
  | Loc l => Sim.ClickLocator l
  end.

(** A dashboard on which no load state is reached, no selector appears and
    the number of cards changes at every poll. *)
Definition slow_dashboard : Sim.Scenario :=
  Scenarios.with_load_state_reached (fun _ _ => false)
    (Scenarios.with_selector_appears (fun _ => false)
       (Scenarios.with_select_all (fun k _ => List.repeat 0%nat (1 + Nat.modulo k 2))
          Scenarios.blank)).

(** A page whose settings icon and Portal Features entry are the same
    element, found by the selectors of the first strategies only, on which
    every click fails. *)
Definition stuck_icon : Sim.Scenario :=
  Scenarios.with_click_fails (fun _ => true)
    (Scenarios.with_select
       (fun s =>
          if String.eqb s InternationalStudentPage.settingsIconSelector
             || String.eqb s InternationalStudentPage.portalFeaturesSelector
          then Some 3%nat else None)
       Scenarios.blank).

(** * Properties *)

(** ** Strings *)

Example slug_example : Js.slug "International  Portal" = "international-portal"%string.
Proof. reflexivity. Qed.

Example icontains_example : Js.icontains "GO TO Dashboard" "to dash" = true.
Proof. reflexivity. Qed.

Example trim_example : Js.trim "  Portal Features "%string = "Portal Features"%string.
Proof. reflexivity. Qed.

Lemma icontains_empty (text : string) : Js.icontains text "" = true.
Proof. unfold Js.icontains. destruct text; reflexivity. Qed.

(** ** Control flow of the monad *)

Section MonadFacts.
Context {W : Type}.

Lemma never_throws_ret {A : Type} (a : A) : never_throws (W := W) (ret a).
Proof. intros w. exists a, w. reflexivity. Qed.

Lemma never_throws_bind {A B : Type} (m : M W A) (k : A -> M W B) :
  never_throws m -> (forall a, never_throws (k a)) -> never_throws (bind m k).
Proof.
  intros Hm Hk w. unfold bind.
  destruct (Hm w) as (a & w1 & ->).
  apply Hk.
Qed.

Lemma never_throws_try_catch {A : Type} (m : M W A) (h : JsError -> M W A) :
  (forall e, never_throws (h e)) -> never_throws (try_catch m h).
Proof.
  intros Hh w. unfold try_catch.
  destruct (m w) as [[a | e] w1].
  - exists a, w1. reflexivity.
  - apply Hh.
Qed.

Lemma never_throws_or_else {A : Type} (m k : M W (option A)) :
  never_throws m -> never_throws k -> never_throws (or_else m k).
Proof.
  intros Hm Hk. unfold or_else. apply never_throws_bind; [assumption|].
  intros [v|]; [apply never_throws_ret | assumption].
Qed.


Lemma never_throws_if {A : Type} (b : bool) (m1 m2 : M W A) :
  never_throws m1 -> never_throws m2 -> never_throws (if b then m1 else m2).
Proof. destruct b; auto. Qed.

Lemma guarded_try_catch {A : Type} (body : M W A) (h : JsError -> M W unit) (d : A) :
  (forall e, never_throws (h e)) ->
  guarded (try_catch body (fun e => bind (h e) (fun _ => ret d))) body d.
Proof.
  intros Hh w. unfold try_catch, bind, ret.
  destruct (body w) as [[a | e] w1]; simpl; [reflexivity|].
  destruct (Hh e w1) as ([] & w2 & ->). reflexivity.
Qed.

Lemma rethrows_try_catch {A : Type} (body : M W A) (h : JsError -> M W unit) :
  (forall e, never_throws (h e)) ->
  rethrows (try_catch body (fun e => bind (h e) (fun _ => throw e))) body.
Proof.
  intros Hh w. unfold try_catch, bind, throw.
  destruct (body w) as [[a | e] w1]; simpl; [reflexivity|].
  destruct (Hh e w1) as ([] & w2 & ->). reflexivity.
Qed.

End MonadFacts.

Create HintDb never_throws.
#[global] Hint Resolve never_throws_ret never_throws_bind never_throws_try_catch
  never_throws_or_else never_throws_if : never_throws.

(** ** BasePage: the helpers that swallow their errors *)

Section BasePageFacts.
Context {W : Type} (H : Host W) (page : PageId).

Lemma takeScreenshot_never_throws (path : string) :
  never_throws (BasePage.takeScreenshot H page path).
Proof. apply never_throws_try_catch. intros e. apply never_throws_ret. Qed.

Lemma wait_never_throws (ms : Z) : never_throws (BasePage.wait H page ms).
Proof. apply never_throws_try_catch. intros e. apply never_throws_ret. Qed.

Lemma waitForLoadState_never_throws (state : string) (timeout : Z) :
  never_throws (BasePage.waitForLoadState H page state timeout).
Proof. apply never_throws_try_catch. intros e. apply never_throws_ret. Qed.

End BasePageFacts.

#[global] Hint Resolve takeScreenshot_never_throws wait_never_throws
  waitForLoadState_never_throws : never_throws.

(** ** The guarded operations never throw *)

Section Guarded.
Context {W : Type} (H : Host W) (page : PageId).


Lemma waitForPortalPageLoad_never_throws (timeout : Z) :
  never_throws (PortalPage.waitForPortalPageLoad H page timeout).
Proof. unfold PortalPage.waitForPortalPageLoad. auto with never_throws. Qed.

(** The loop of [waitForPortalPageLoad] ends by its own condition: with
    [maxAttempts] passes allowed from the initial state, the state it returns
    fails the loop test. *)
Lemma count_loop_exits (fuel : nat) :
  forall (st st' : PortalPage.CountState) (w w' : W),
    (PortalPage.maxAttempts <= PortalPage.attempt st + fuel)%nat ->
    PortalPage.count_loop H page fuel st w = (Ret st', w') ->
    (PortalPage.attempt st' <? PortalPage.maxAttempts)%nat
    && (PortalPage.stableCount st' <? 3)%nat = false.
Proof.
  induction fuel as [|fuel IH]; intros st st' w w' Hfuel Hrun; simpl in Hrun.
  - injection Hrun as <- <-.
    destruct (Nat.ltb_spec (PortalPage.attempt st) PortalPage.maxAttempts);
      [lia | reflexivity].
  - destruct ((PortalPage.attempt st <? PortalPage.maxAttempts)%nat
              && (PortalPage.stableCount st <? 3)%nat) eqn:Hcond.
    + unfold bind at 1 in Hrun.
      destruct (wait_never_throws H page 1000 w) as ([] & w1 & Hwait).
      rewrite Hwait in Hrun. unfold bind at 1 in Hrun.
      destruct (page_queryAll H page PortalPage.cardSelector w1) as [[cards | e] w2];
        [|discriminate].
      eapply IH; [|exact Hrun]. simpl. lia.
    + injection Hrun as <- <-. exact Hcond.
Qed.

Lemma portal_findCard_never_throws (cardName : string) :
  never_throws (PortalPage.findCard H page cardName).
Proof.
  unfold PortalPage.findCard.
  apply never_throws_bind; [apply waitForPortalPageLoad_never_throws|].
  intros _. auto with never_throws.
Qed.

Lemma portal_getAllCards_never_throws : never_throws (PortalPage.getAllCards H page).
Proof.
  unfold PortalPage.getAllCards.
  apply never_throws_bind; [apply waitForPortalPageLoad_never_throws|].
  intros _. auto with never_throws.
Qed.






Lemma dashboard_findCard_never_throws (cardName : string) :
  never_throws (DashboardPage.findCard H page cardName).
Proof. unfold DashboardPage.findCard. auto with never_throws. Qed.





Lemma clickPortalFeatures_never_throws :
  never_throws (InternationalStudentPage.clickPortalFeatures H page).
Proof. unfold InternationalStudentPage.clickPortalFeatures. auto with never_throws. Qed.



Lemma getCardContent_never_throws (card : ElementHandle) :
  never_throws (PortalPage.getCardContent H card).
Proof. unfold PortalPage.getCardContent. auto with never_throws. Qed.

Lemma getRequirementText_never_throws (requirement : ElementHandle) :
  never_throws (RequirementsPage.getRequirementText H requirement).
Proof. unfold RequirementsPage.getRequirementText. auto with never_throws. Qed.

Lemma getRequirementStatus_never_throws (requirement : ElementHandle) :
  never_throws (RequirementsPage.getRequirementStatus H requirement).
Proof. unfold RequirementsPage.getRequirementStatus. auto with never_throws. Qed.

Lemma getAllRequirements_never_throws :
  never_throws (RequirementsPage.getAllRequirements H page).
Proof. unfold RequirementsPage.getAllRequirements. auto with never_throws. Qed.


(** [PortalPage.findCard] waits for the page outside its [try]; the wait
    never throws, so the operation is still its lookup under a guard. *)
Lemma portal_findCard_guarded (cardName : string) :
  guarded (PortalPage.findCard H page cardName)
    (bind (PortalPage.waitForPortalPageLoad H page 30000)
          (fun _ => PortalPage.findCard_body H page cardName))
    None.
Proof.
  intros w. unfold PortalPage.findCard, bind.
  destruct (waitForPortalPageLoad_never_throws 30000 w) as ([] & w1 & ->).
  apply (@guarded_try_catch W _ (PortalPage.findCard_body H page cardName)
           (fun _ => BasePage.takeScreenshot H page "error-finding-card.png") None).
  intros _. apply takeScreenshot_never_throws.
Qed.

End Guarded.

(** ** waitForNavigationAfterButtonClick *)

Lemma newest_lookup (pages : list PageId) (current : PageId) :
  (1 <? length pages)%nat = true ->
  pages !! (length pages - 1)%nat = Some (newest pages current).
Proof.
  intros Hlen. apply Nat.ltb_lt in Hlen.
  unfold newest. rewrite last_lookup, Nat.sub_1_r.
  destruct (pages !! Nat.pred (length pages)) eqn:E; [reflexivity|].
  apply lookup_ge_None in E. lia.
Qed.

Example newest_tab_adopted :
  Sim.result (PortalPage.waitForNavigationAfterButtonClick
                (Sim.host Scenarios.two_new_tabs) 0 0) Sim.start = Ret 2%nat
  /\ Sim.result (PortalPage.waitForNavigationAfterButtonClick
                   (Sim.host Scenarios.newest_tab_stalls) 0 0) Sim.start = Ret 0%nat
  /\ Sim.result (PortalPage.waitForNavigationAfterButtonClick
                   (Sim.host Scenarios.blank) 0 0) Sim.start = Ret 0%nat.
Proof. repeat split; reflexivity. Qed.

(** C6. [waitForNavigationAfterButtonClick] (the same code in [PortalPage]
    and [DashboardPage]) never throws; it returns the newest page of the
    context when the context lists more than one page and the wait for that
    page to load succeeds, and the current page in every other case: a single
    page, an error from [context.pages()], or an error from the wait. *)
Theorem waitForNavigationAfterButtonClick_newest_or_current :
  forall (W : Type) (H : Host W) (page : PageId) (context : ContextId) (w : W),
  exists target w',
    PortalPage.waitForNavigationAfterButtonClick H page context w = (Ret target, w')
    /\ DashboardPage.waitForNavigationAfterButtonClick H page context w = (Ret target, w')
    /\ target =
       match context_pages H context w with
       | (Ret pages, w1) =>
           if (1 <? length pages)%nat then
             match fst (page_waitForLoadState H (newest pages page)
                          "domcontentloaded" 10000 w1) with
             | Ret _ => newest pages page
             | Raise _ => page
             end
           else page
       | (Raise _, _) => page
       end.
Proof.
  intros W H page context w.
  unfold PortalPage.waitForNavigationAfterButtonClick,
    DashboardPage.waitForNavigationAfterButtonClick, try_catch, bind.
  destruct (context_pages H context w) as [[pages | e] w1].
  - destruct (1 <? length pages)%nat eqn:Hlen.
    + rewrite (newest_lookup page Hlen).
      destruct (page_waitForLoadState H (newest pages page) "domcontentloaded" 10000 w1)
        as [[[] | e] w2]; simpl; eauto.
    + destruct (waitForLoadState_never_throws H page "networkidle" 10000 w1)
        as (b & w2 & ->).
      simpl. eauto.
  - simpl. eauto.
Qed.

(** ** The simulated browser: the helpers of BasePage *)

Section SimBasics.
Variable sc : Sim.Scenario.
Variable page : PageId.

Lemma sim_wait (ms : Z) (w : Sim.World) :
  BasePage.wait (Sim.host sc) page ms w =
    (Ret tt, Sim.advance (Z.min ms 5000) (Sim.log (Sim.WaitForTimeout (Z.min ms 5000)) w)).
Proof. reflexivity. Qed.

Lemma sim_takeScreenshot (path : string) (w : Sim.World) :
  BasePage.takeScreenshot (Sim.host sc) page path w = (Ret tt, Sim.log (Sim.Screenshot path) w).
Proof. reflexivity. Qed.

Lemma sim_queryAll (selector : string) (w : Sim.World) :
  page_queryAll (Sim.host sc) page selector w =
    (Ret (Sim.select_all sc (Sim.polls w) selector), Sim.polled w).
Proof. reflexivity. Qed.

Lemma sim_waitForSelector (selector : string) (timeout : option Z) (w : Sim.World) :
  page_waitForSelector (Sim.host sc) page selector timeout w =
    if Sim.selector_appears sc selector then (Ret tt, w)
    else (Raise Sim.TimeoutError, Sim.advance (default Sim.default_timeout timeout) w).
Proof. reflexivity. Qed.

End SimBasics.

(** ** The card-count loop of PortalPage *)

Section PortalCountFacts.
Import PortalPage PortalCount.

Lemma portal_count_loop_sim (sc : Sim.Scenario) (page : PageId) :
  forall (fuel : nat) (st : CountState) (w : Sim.World),
  exists w',
    count_loop (Sim.host sc) page fuel st w
      = (Ret (scan (portal_count sc) (Sim.polls w) fuel st), w')
    /\ (Sim.clock w' - Sim.clock w
        = 1000 * (Z.of_nat (attempt (scan (portal_count sc) (Sim.polls w) fuel st))
                  - Z.of_nat (attempt st)))%Z.
Proof.
  induction fuel as [|fuel IH]; intros st w.
  - exists w. split; [reflexivity | simpl; lia].
  - simpl.
    destruct ((attempt st <? maxAttempts)%nat && (stableCount st <? 3)%nat).
    + unfold bind at 1. rewrite sim_wait. cbv beta iota.
      unfold bind at 1.
      edestruct IH as (w' & Hrun & Hclock).
      exists w'. split; [exact Hrun|].
      simpl in Hclock |- *. unfold portal_count in *. lia.
    + exists w. split; [reflexivity | lia].
Qed.

Section Pure.
Variable f : nat -> nat.
Variable k0 : nat.

Lemma attempt_after (n : nat) : attempt (after f k0 n) = n.
Proof. induction n as [|n IH]; simpl; congruence. Qed.

Lemma previous_after (n : nat) :
  previousCardCount (after f k0 (S n)) = f (k0 + n)%nat.
Proof. reflexivity. Qed.

Lemma stable_after (n : nat) :
  stableCount (after f k0 (S n)) =
    if (f (k0 + n) =? previousCardCount (after f k0 n))%nat && (0 <? f (k0 + n))%nat
    then S (stableCount (after f k0 n)) else 0%nat.
Proof. reflexivity. Qed.

Lemma stable_after_le (n : nat) :
  (stableCount (after f k0 (S n)) <= S (stableCount (after f k0 n)))%nat.
Proof. rewrite stable_after. destruct (_ && _); lia. Qed.

(** The loop is the unstopped iteration, cut at [stop]. *)
Lemma scan_after (fuel n : nat) :
  scan f (k0 + n) fuel (after f k0 n) = after f k0 (stop f k0 fuel n).
Proof.
  revert n. induction fuel as [|fuel IH]; intros n; simpl; [reflexivity|].
  rewrite attempt_after.
  destruct ((n <? maxAttempts)%nat && (stableCount (after f k0 n) <? 3)%nat);
    [|reflexivity].
  rewrite <- IH. simpl. rewrite Nat.add_succ_r. reflexivity.
Qed.

Lemma stop_bounds (fuel n : nat) :
  (n <= stop f k0 fuel n)%nat /\ (stop f k0 fuel n <= Nat.max n maxAttempts)%nat.
Proof.
  revert n. induction fuel as [|fuel IH]; intros n; simpl; [lia|].
  destruct (Nat.ltb_spec n maxAttempts); simpl; [|lia].
  destruct (stableCount (after f k0 n) <? 3)%nat; [|lia].
  specialize (IH (S n)). lia.
Qed.

Lemma stop_before (fuel n m : nat) :
  (n <= m < stop f k0 fuel n)%nat -> (stableCount (after f k0 m) < 3)%nat.
Proof.
  revert n. induction fuel as [|fuel IH]; intros n; simpl; [lia|].
  destruct (Nat.ltb_spec n maxAttempts); simpl; [|lia].
  destruct (Nat.ltb_spec (stableCount (after f k0 n)) 3); [|lia].
  intros Hm. destruct (Nat.eq_dec m n) as [->|Hne]; [assumption|].
  apply (IH (S n)). lia.
Qed.

Lemma stop_exit (fuel n : nat) :
  (maxAttempts <= n + fuel)%nat ->
  (maxAttempts <= stop f k0 fuel n)%nat
  \/ (3 <= stableCount (after f k0 (stop f k0 fuel n)))%nat.
Proof.
  revert n. induction fuel as [|fuel IH]; intros n Hfuel; simpl; [lia|].
  destruct (Nat.ltb_spec n maxAttempts); simpl; [|lia].
  destruct (Nat.ltb_spec (stableCount (after f k0 n)) 3); [|lia].
  apply IH. lia.
Qed.

Lemma stable_three_iff (n : nat) :
  (3 <= stableCount (after f k0 n))%nat
  <-> exists i, n = (i + 4)%nat /\ four_equal f (k0 + i).
Proof.
  unfold four_equal. split.
  - destruct n as [|[|[|[|n]]]];
      rewrite ?stable_after, ?previous_after, ?Nat.add_succ_r, ?Nat.add_0_r; simpl;
      repeat match goal with
             | |- context [(?a =? ?b)%nat] => destruct (Nat.eqb_spec a b)
             | |- context [(?a <? ?b)%nat] => destruct (Nat.ltb_spec a b)
             end; simpl; intros Hs; try lia.
    all: exists n; repeat split; try lia; congruence.
  - intros (i & -> & H1 & H2 & H3 & Hpos).
    replace (i + 4)%nat with (S (S (S (S i)))) by lia.
    rewrite !stable_after, !previous_after, !Nat.add_succ_r.
    repeat match goal with
           | |- context [(?a =? ?b)%nat] => destruct (Nat.eqb_spec a b)
           | |- context [(?a <? ?b)%nat] => destruct (Nat.ltb_spec a b)
           end; simpl; try lia; congruence.
Qed.

(** The loop ends with the counter at 3 exactly when, among its ten polls,
    four in a row found the same non-zero number of cards. *)
Lemma scan_stable_iff :
  stableCount (scan f k0 maxAttempts initial) = 3%nat
  <-> exists i, (i + 4 <= maxAttempts)%nat /\ four_equal f (k0 + i).
Proof.
  pose proof (scan_after maxAttempts 0) as Hscan.
  rewrite Nat.add_0_r in Hscan. change (after f k0 0) with initial in Hscan.
  rewrite Hscan.
  set (s := stop f k0 maxAttempts 0).
  pose proof (stop_bounds maxAttempts 0) as [_ Hle]. fold s in Hle.
  assert (Hbefore : forall m, (m < s)%nat -> (stableCount (after f k0 m) < 3)%nat).
  { intros m Hm. apply (@stop_before maxAttempts 0 m). fold s. lia. }
  split.
  - intros Hs.
    destruct (proj1 (stable_three_iff s)) as (i & Hi & Hfour); [lia|].
    exists i. split; [unfold maxAttempts in *; lia | assumption].
  - intros (i & Hi & Hfour).
    assert (Hn : (3 <= stableCount (after f k0 (i + 4)))%nat).
    { apply stable_three_iff. exists i. auto. }
    assert (Hsn : (s <= i + 4)%nat).
    { destruct (Nat.le_gt_cases s (i + 4)) as [|Hgt]; [assumption|].
      specialize (Hbefore _ Hgt). lia. }
    assert (Hge : (3 <= stableCount (after f k0 s))%nat).
    { destruct (@stop_exit maxAttempts 0) as [Hmax|Hst]; [simpl; lia| |exact Hst].
      fold s in Hmax. replace s with (i + 4)%nat by (unfold maxAttempts in *; lia).
      exact Hn. }
    destruct s as [|s'].
    + simpl in Hge. lia.
    + pose proof (stable_after_le s'). specialize (Hbefore s'). lia.
Qed.

End Pure.

End PortalCountFacts.

(** ** The card-count loop of DashboardPage *)

Section DashboardCountFacts.
Import DashboardPage DashboardCount.

Lemma dashboard_count_loop_sim (sc : Sim.Scenario) (page : PageId) (startTime timeout : Z) :
  forall (remaining : nat) (st : CountState) (w : Sim.World),
  exists w',
    count_loop (Sim.host sc) page startTime timeout remaining st w
      = (Ret (scan sc startTime timeout (Sim.clock w) (Sim.polls w) remaining st), w').
Proof.
  induction remaining as [|remaining IH]; intros st w.
  - exists w. reflexivity.
  - simpl. unfold bind at 1, checkTimeout. simpl.
    destruct (timeout <? Sim.clock w - startTime)%Z; [eexists; reflexivity|].
    destruct (length (cards st) =? previousCardCount st)%nat.
    + destruct (stableCount st) as [|[|s]] eqn:Hs; simpl; try (eexists; reflexivity).
      unfold bind at 1. rewrite sim_wait. cbv beta iota. unfold bind at 1.
      edestruct IH as (w' & Hrun). exists w'. exact Hrun.
    + unfold bind at 1. rewrite sim_wait. cbv beta iota. unfold bind at 1.
      edestruct IH as (w' & Hrun). exists w'. exact Hrun.
Qed.

(** With five attempts, the loop ends by the "stabilized" [break] exactly
    when some attempt, reached in time, sees the count of the two attempts
    before it, the variable [previousCardCount] standing in (with its initial
    0) for the attempt before the first. *)
Lemma scan_stabilized_iff (sc : Sim.Scenario) (startTime timeout now : Z)
    (cards0 : list ElementHandle) (k0 : nat) :
  let c := seen sc cards0 k0 in
  let ok := in_time startTime timeout now in
  snd (scan sc startTime timeout now k0 maxAttempts (mkCount cards0 0 0)) = Stabilized
  <-> (c 0%nat = 0%nat /\ c 1%nat = 0%nat /\ ok 1%Z)
      \/ (c 0%nat = c 1%nat /\ c 1%nat = c 2%nat /\ ok 2%Z)
      \/ (c 1%nat = c 2%nat /\ c 2%nat = c 3%nat /\ ok 3%Z)
      \/ (c 2%nat = c 3%nat /\ c 3%nat = c 4%nat /\ ok 4%Z).
Proof.
  unfold maxAttempts, in_time, seen, dashboard_count. simpl.
  rewrite ?Nat.add_succ_r, ?Nat.add_0_r.
  repeat match goal with
         | |- context [(?a <? ?b)%Z] => destruct (Z.ltb_spec a b); simpl
         | |- context [(?a =? ?b)%nat] => destruct (Nat.eqb_spec a b); simpl
         end;
    split; intros Hx; try discriminate; try reflexivity;
    try (exfalso; intuition lia); intuition lia.
Qed.

End DashboardCountFacts.

(** ** C1: when the card count is declared stable *)

Example portal_stable_at_fifth_poll :
  Sim.result (PortalPage.count_loop (Sim.host Scenarios.five_four_times) 0
                PortalPage.maxAttempts PortalPage.initial) Sim.start
  = Ret (PortalPage.mkCount 5 5 3 5).
Proof. vm_compute. reflexivity. Qed.

(** C1 (as amended). On the simulated browser, from any world:
    - the loop of [PortalPage.waitForPortalPageLoad] ends with its counter at
      3 (the count is declared stable) if and only if, among its at most ten
      polls, four in a row found the same non-zero number of cards;
    - the loop of [DashboardPage.waitForDashboardPageLoad] ends by its
      "stabilized" [break] if and only if some attempt reached before the
      overall timeout sees the same count as the two attempts before it, the
      initial value 0 of [previousCardCount] counting as the attempt before
      the first (so that two counts of zero are enough);
    - in [PortalPage] a poll that differs from the one before it, or finds no
      card, sets the counter to 0;
    - in [DashboardPage] an attempt reached in time whose count differs from
      [previousCardCount] goes on to the next attempt with the counter at 0. *)
Theorem card_count_stabilization :
  forall (sc : Sim.Scenario) (page : PageId) (w : Sim.World),
    (exists st,
        Sim.result (PortalPage.count_loop (Sim.host sc) page
                      PortalPage.maxAttempts PortalPage.initial) w = Ret st
        /\ (PortalPage.stableCount st = 3%nat
            <-> exists i, (i + 4 <= PortalPage.maxAttempts)%nat
                  /\ PortalCount.four_equal (portal_count sc) (Sim.polls w + i)))
    /\ (forall (startTime timeout : Z) (cards0 : list ElementHandle),
        let c := DashboardCount.seen sc cards0 (Sim.polls w) in
        let ok := DashboardCount.in_time startTime timeout (Sim.clock w) in
        exists st exit,
          Sim.result (DashboardPage.count_loop (Sim.host sc) page startTime timeout
                        DashboardPage.maxAttempts (DashboardPage.mkCount cards0 0 0)) w
            = Ret (st, exit)
          /\ (exit = DashboardPage.Stabilized
              <-> (c 0%nat = 0%nat /\ c 1%nat = 0%nat /\ ok 1%Z)
                  \/ (c 0%nat = c 1%nat /\ c 1%nat = c 2%nat /\ ok 2%Z)
                  \/ (c 1%nat = c 2%nat /\ c 2%nat = c 3%nat /\ ok 3%Z)
                  \/ (c 2%nat = c 3%nat /\ c 3%nat = c 4%nat /\ ok 4%Z)))
    /\ (forall (st : PortalPage.CountState) (count : nat),
        count <> PortalPage.previousCardCount st \/ count = 0%nat ->
        PortalPage.stableCount (PortalPage.tick st count) = 0%nat)
    /\ (forall (startTime timeout : Z) (remaining : nat) (st : DashboardPage.CountState),
        length (DashboardPage.cards st) <> DashboardPage.previousCardCount st ->
        (Sim.clock w - startTime <= timeout)%Z ->
        Sim.result (DashboardPage.count_loop (Sim.host sc) page startTime timeout
                      (S remaining) st) w
        = Sim.result (DashboardPage.count_loop (Sim.host sc) page startTime timeout
                        remaining
                        (DashboardPage.mkCount
                           (Sim.select_all sc (Sim.polls w) DashboardPage.dashboardCardSelector)
                           (length (DashboardPage.cards st)) 0))
            (Sim.polled (Sim.advance 1000 (Sim.log (Sim.WaitForTimeout 1000) w)))).
Proof.
  intros sc page w. split; [|split; [|split]].
  - destruct (portal_count_loop_sim sc page PortalPage.maxAttempts PortalPage.initial w)
      as (w' & Hrun & _).
    eexists. unfold Sim.result. rewrite Hrun. split; [reflexivity|].
    apply scan_stable_iff.
  - intros startTime timeout cards0 c ok.
    destruct (dashboard_count_loop_sim sc page startTime timeout DashboardPage.maxAttempts
                (DashboardPage.mkCount cards0 0 0) w) as (w' & Hrun).
    unfold Sim.result. rewrite Hrun.
    destruct (DashboardCount.scan sc startTime timeout (Sim.clock w) (Sim.polls w)
                DashboardPage.maxAttempts (DashboardPage.mkCount cards0 0 0))
      as [st exit] eqn:Hscan.
    exists st, exit. split; [reflexivity|].
    pose proof (scan_stabilized_iff sc startTime timeout (Sim.clock w) cards0 (Sim.polls w))
      as Hiff.
    rewrite Hscan in Hiff. exact Hiff.
  - intros st count Hchange. unfold PortalPage.tick. simpl.
    destruct (Nat.eqb_spec count (PortalPage.previousCardCount st));
      destruct (Nat.ltb_spec 0 count); simpl; try reflexivity; lia.
  - intros startTime timeout remaining st Hdiff Htime.
    unfold Sim.result. simpl.
    unfold bind at 1, DashboardPage.checkTimeout. simpl.
    destruct (Z.ltb_spec timeout (Sim.clock w - startTime)); [lia|].
    destruct (Nat.eqb_spec (length (DashboardPage.cards st))
                (DashboardPage.previousCardCount st)); [contradiction|].
    reflexivity.
Qed.

Lemma card_count_stabilization_witness :
  PortalPage.stableCount (PortalPage.tick (PortalPage.mkCount 5 5 2 3) 4) = 0%nat.
Proof.
  destruct (card_count_stabilization Scenarios.blank 0 Sim.start) as (_ & _ & Hreset & _).
  apply Hreset. left. simpl. discriminate.
Defined.

(** The claim as stated fails.  In [five_thrice] the first three polls all
    find five cards, yet the portal loop is not stable after them: it runs
    all ten attempts and ends with the counter at 0.  On a dashboard without
    cards the loop declares the count stable on its second attempt, with a
    count of zero. *)
Lemma stabilization_counterexample :
  PortalCount.three_equal (portal_count Scenarios.five_thrice) 0
  /\ Sim.result (PortalPage.count_loop (Sim.host Scenarios.five_thrice) 0
                   PortalPage.maxAttempts PortalPage.initial) Sim.start
     = Ret (PortalPage.mkCount 4 4 0 10)
  /\ Sim.result (DashboardPage.count_loop (Sim.host Scenarios.blank) 0 0 20000
                   DashboardPage.maxAttempts (DashboardPage.mkCount [] 0 0)) Sim.start
     = Ret (DashboardPage.mkCount [] 0 2, DashboardPage.Stabilized).
Proof.
  split; [|split].
  - unfold PortalCount.three_equal. vm_compute. repeat split. lia.
  - vm_compute. reflexivity.
  - vm_compute. reflexivity.
Qed.

(** ** findCard on the simulated browser *)

Section ForOf.
Context {W A B : Type}.

(** A loop whose body returns [r x] at the first [x] that passes [hit]. *)
Lemma for_of_find (body : A -> M W (option B)) (hit : A -> bool) (r : A -> B) :
  (forall x w, exists w', body x w = (Ret (if hit x then Some (r x) else None), w')) ->
  forall xs w, exists w',
    for_of xs body w = (Ret (option_map r (List.find hit xs)), w').
Proof.
  intros Hbody. induction xs as [|x xs IH]; intros w; simpl.
  - exists w. reflexivity.
  - unfold or_else, bind. destruct (Hbody x w) as (w1 & ->).
    destruct (hit x); simpl.
    + exists w1. reflexivity.
    + apply IH.
Qed.

End ForOf.

Section FindCardSim.
Variable sc : Sim.Scenario.
Variable page : PageId.
Variable cardName : string.

Lemma portal_match_title_sim (card : ElementHandle) (w : Sim.World) :
  exists w',
    PortalPage.match_title (Sim.host sc) page cardName card w
    = (Ret (if Resolver.title_hit sc PortalPage.cardTitleSelector cardName card
            then Some (Some card) else None), w').
Proof.
  unfold PortalPage.match_title, Resolver.title_hit, bind. simpl.
  destruct (Sim.sub_select sc card PortalPage.cardTitleSelector) as [t|]; simpl;
    [|eexists; reflexivity].
  destruct (Sim.text_of sc t) as [[|c s]|]; simpl; try (eexists; reflexivity).
  destruct (Js.icontains (String c s) cardName); eexists; reflexivity.
Qed.

Lemma portal_match_content_sim (card : ElementHandle) (w : Sim.World) :
  exists w',
    PortalPage.match_content (Sim.host sc) page cardName card w
    = (Ret (if Resolver.content_hit sc cardName card
            then Some (Some card) else None), w').
Proof.
  unfold PortalPage.match_content, Resolver.content_hit, bind. simpl.
  destruct (Sim.text_of sc card) as [[|c s]|]; simpl; try (eexists; reflexivity).
  destruct (Js.icontains (String c s) cardName); eexists; reflexivity.
Qed.

Lemma portal_findCard_body_sim (w : Sim.World) :
  exists w',
    PortalPage.findCard_body (Sim.host sc) page cardName w
    = (Ret (Resolver.portal sc (Sim.select_all sc (Sim.polls w) PortalPage.cardSelector)
              cardName), w').
Proof.
  unfold PortalPage.findCard_body, Resolver.portal.
  unfold bind at 1. rewrite sim_queryAll. cbv beta iota.
  set (cards := Sim.select_all sc (Sim.polls w) PortalPage.cardSelector).
  unfold returning, or_else, bind.
  destruct (@for_of_find _ _ _ (PortalPage.match_title (Sim.host sc) page cardName)
              (Resolver.title_hit sc PortalPage.cardTitleSelector cardName)
              (fun card => Some card) portal_match_title_sim cards (Sim.polled w))
    as (w1 & ->).
  destruct (List.find _ cards) as [card|]; simpl; [eexists; reflexivity|].
  destruct (@for_of_find _ _ _ (PortalPage.match_content (Sim.host sc) page cardName)
              (Resolver.content_hit sc cardName)
              (fun card => Some card) portal_match_content_sim cards w1)
    as (w2 & ->).
  destruct (List.find _ cards) as [card|]; simpl; eexists; reflexivity.
Qed.

Lemma portal_findCard_sim (w : Sim.World) :
  exists w1 w',
    PortalPage.waitForPortalPageLoad (Sim.host sc) page 30000 w = (Ret tt, w1)
    /\ PortalPage.findCard (Sim.host sc) page cardName w
       = (Ret (Resolver.portal sc (Sim.select_all sc (Sim.polls w1) PortalPage.cardSelector)
                 cardName), w').
Proof.
  destruct (waitForPortalPageLoad_never_throws (Sim.host sc) page 30000 w)
    as ([] & w1 & Hwait).
  destruct (portal_findCard_body_sim w1) as (w' & Hbody).
  exists w1, w'. split; [exact Hwait|].
  unfold PortalPage.findCard, bind, try_catch. rewrite Hwait, Hbody. reflexivity.
Qed.

Lemma dashboard_match_title_sim (card : ElementHandle) (w : Sim.World) :
  exists w',
    DashboardPage.match_title (Sim.host sc) page cardName card w
    = (Ret (if Resolver.title_hit sc DashboardPage.cardTitleSelector cardName card
            then Some (Some (Handle card)) else None), w').
Proof.
  unfold DashboardPage.match_title, Resolver.title_hit, bind. simpl.
  destruct (Sim.sub_select sc card DashboardPage.cardTitleSelector) as [t|]; simpl;
    [|eexists; reflexivity].
  destruct (Sim.text_of sc t) as [[|c s]|]; simpl; try (eexists; reflexivity).
  destruct (Js.icontains (String c s) cardName); eexists; reflexivity.
Qed.

Lemma dashboard_match_content_sim (card : ElementHandle) (w : Sim.World) :
  exists w',
    DashboardPage.match_content (Sim.host sc) page cardName card w
    = (Ret (if Resolver.content_hit sc cardName card
            then Some (Some (Handle card)) else None), w').
Proof.
  unfold DashboardPage.match_content, Resolver.content_hit, bind. simpl.
  destruct (Sim.text_of sc card) as [[|c s]|]; simpl; try (eexists; reflexivity).
  destruct (Js.icontains (String c s) cardName); eexists; reflexivity.
Qed.

Lemma dashboard_findCard_sim (w : Sim.World) :
  exists w',
    DashboardPage.findCard (Sim.host sc) page cardName w
    = (Ret (Resolver.dashboard sc
              (Sim.select_all sc (Sim.polls w) DashboardPage.dashboardCardSelector)
              cardName), w').
Proof.
  unfold DashboardPage.findCard, DashboardPage.findCard_body, Resolver.dashboard.
  unfold try_catch, bind at 1. rewrite sim_queryAll. cbv beta iota.
  set (cards := Sim.select_all sc (Sim.polls w) DashboardPage.dashboardCardSelector).
  unfold returning, or_else, bind.
  destruct (@for_of_find _ _ _ (DashboardPage.match_title (Sim.host sc) page cardName)
              (Resolver.title_hit sc DashboardPage.cardTitleSelector cardName)
              (fun card => Some (Handle card)) dashboard_match_title_sim
              cards (Sim.polled w)) as (w1 & ->).
  destruct (List.find _ cards) as [card|]; simpl; [eexists; reflexivity|].
  destruct (@for_of_find _ _ _ (DashboardPage.match_content (Sim.host sc) page cardName)
              (Resolver.content_hit sc cardName)
              (fun card => Some (Handle card)) dashboard_match_content_sim
              cards w1) as (w2 & ->).
  destruct (List.find _ cards) as [card|]; simpl; [eexists; reflexivity|].
  unfold DashboardPage.match_page_text, Resolver.page_text, new_RegExp, bind. simpl.
  destruct (Sim.regexp_error sc cardName) as [e|]; simpl; [eexists; reflexivity|].
  destruct (Sim.locator_matches sc (getByText cardName)) as [|e l]; simpl;
    eexists; reflexivity.
Qed.

End FindCardSim.

(** ** C4: not found is a value *)

Section NothingMatches.
Variable sc : Sim.Scenario.
Variable cardName : string.

Lemma find_none_intro {A : Type} (f : A -> bool) (l : list A) :
  (forall x, In x l -> f x = false) -> List.find f l = None.
Proof.
  induction l as [|x l IH]; intros Hf; simpl; [reflexivity|].
  rewrite (Hf x) by (left; reflexivity).
  apply IH. intros y Hy. apply Hf. right. exact Hy.
Qed.

Lemma card_without_no_hit (titleSelector : string) (card : ElementHandle) :
  card_without sc titleSelector cardName card ->
  Resolver.title_hit sc titleSelector cardName card = false
  /\ Resolver.content_hit sc cardName card = false.
Proof.
  intros [Htitle Hcontent]. unfold Resolver.title_hit, Resolver.content_hit. split.
  - destruct (Sim.sub_select sc card titleSelector) as [t|] eqn:Ht; [|reflexivity].
    destruct (Sim.text_of sc t) as [s|] eqn:Hs; [|reflexivity].
    change (default ""%string (Some s)) with s.
    rewrite (Htitle t s eq_refl Hs). apply andb_false_r.
  - destruct (Sim.text_of sc card) as [s|] eqn:Hs; [|reflexivity].
    change (default ""%string (Some s)) with s.
    rewrite (Hcontent s eq_refl). apply andb_false_r.
Qed.

Lemma portal_resolves_to_null (cards : list ElementHandle) :
  (forall card, In card cards -> card_without sc PortalPage.cardTitleSelector cardName card) ->
  Resolver.portal sc cards cardName = None.
Proof.
  intros Hnone. unfold Resolver.portal.
  rewrite !find_none_intro; [reflexivity | |];
    intros card Hin; apply (card_without_no_hit (Hnone card Hin)).
Qed.

Lemma dashboard_resolves_to_null (cards : list ElementHandle) :
  (forall card, In card cards ->
     card_without sc DashboardPage.cardTitleSelector cardName card) ->
  no_text_matches sc cardName ->
  Resolver.dashboard sc cards cardName = None.
Proof.
  intros Hnone Htext. unfold Resolver.dashboard.
  rewrite !find_none_intro;
    [| intros card Hin; apply (card_without_no_hit (Hnone card Hin))
     | intros card Hin; apply (card_without_no_hit (Hnone card Hin))].
  unfold Resolver.page_text.
  destruct Htext as [Herror | Hempty].
  - destruct (Sim.regexp_error sc cardName); [reflexivity | congruence].
  - rewrite Hempty. destruct (Sim.regexp_error sc cardName); reflexivity.
Qed.

End NothingMatches.

(** C4. For every host, page and card name, [findCard] of both page objects
    returns normally: it yields what its lookup yields, and [null] when the
    lookup throws.  On the simulated browser, whatever the document holds,
    a name that matches nothing yields [null]: for [PortalPage] when no card
    has the name in its title or in its text, for [DashboardPage] when in
    addition no text of the page matches the name (or the name is no regular
    expression); so on the empty document every name yields [null].  On a
    page that has been closed, where every call of the lookup throws, both
    return [null] as well. *)
Theorem findCard_returns_null_instead_of_throwing :
  forall (W : Type) (H : Host W) (page : PageId) (cardName : string),
    never_throws (PortalPage.findCard H page cardName)
    /\ never_throws (DashboardPage.findCard H page cardName)
    /\ guarded (PortalPage.findCard H page cardName)
         (bind (PortalPage.waitForPortalPageLoad H page 30000)
               (fun _ => PortalPage.findCard_body H page cardName))
         None
    /\ guarded (DashboardPage.findCard H page cardName)
         (DashboardPage.findCard_body H page cardName)
         None
    /\ (forall w : Sim.World,
        Sim.result (PortalPage.findCard (Sim.host Scenarios.blank) page cardName) w
        = Ret None
        /\ Sim.result (DashboardPage.findCard (Sim.host Scenarios.blank) page cardName) w
           = Ret None)
    /\ (forall (sc : Sim.Scenario) (w : Sim.World),
        no_card_matches sc PortalPage.cardSelector PortalPage.cardTitleSelector cardName ->
        Sim.result (PortalPage.findCard (Sim.host sc) page cardName) w = Ret None)
    /\ (forall (sc : Sim.Scenario) (w : Sim.World),
        no_card_matches sc DashboardPage.dashboardCardSelector
          DashboardPage.cardTitleSelector cardName ->
        no_text_matches sc cardName ->
        Sim.result (DashboardPage.findCard (Sim.host sc) page cardName) w = Ret None)
    /\ fst (PortalPage.findCard closed_page page cardName tt) = Ret None
    /\ fst (DashboardPage.findCard closed_page page cardName tt) = Ret None.
Proof.
  intros W H page cardName.
  split; [apply portal_findCard_never_throws|].
  split; [apply dashboard_findCard_never_throws|].
  split; [apply portal_findCard_guarded|].
  split.
  { apply (@guarded_try_catch W _ (DashboardPage.findCard_body H page cardName)
             (fun _ => BasePage.takeScreenshot H page "error-finding-card.png") None).
    intros _. apply takeScreenshot_never_throws. }
  split.
  { intros w. unfold Sim.result. split.
    + destruct (portal_findCard_sim Scenarios.blank page cardName w) as (w1 & w' & _ & ->).
      reflexivity.
    + destruct (dashboard_findCard_sim Scenarios.blank page cardName w) as (w' & ->).
      reflexivity. }
  split.
  { intros sc w Hnone. unfold Sim.result.
    destruct (portal_findCard_sim sc page cardName w) as (w1 & w' & _ & ->).
    cbn [fst]. f_equal. apply portal_resolves_to_null.
    intros card Hin. exact (Hnone _ card Hin). }
  split.
  { intros sc w Hnone Htext. unfold Sim.result.
    destruct (dashboard_findCard_sim sc page cardName w) as (w' & ->).
    cbn [fst]. f_equal. apply dashboard_resolves_to_null; [|exact Htext].
    intros card Hin. exact (Hnone _ card Hin). }
  split; reflexivity.
Qed.

Lemma findCard_returns_null_instead_of_throwing_witness :
  Sim.select_all Documents.hidden_first 0 PortalPage.cardSelector = [1; 2]%nat
  /\ Sim.result (PortalPage.findCard (Sim.host Documents.hidden_first) 0 "Payroll") Sim.start
     = Ret None
  /\ Sim.result (DashboardPage.findCard (Sim.host Documents.hidden_first) 0 "Payroll")
       Sim.start
     = Ret None.
Proof.
  destruct (@findCard_returns_null_instead_of_throwing
              Sim.World (Sim.host Documents.hidden_first) 0%nat "Payroll")
    as (_ & _ & _ & _ & _ & Hportal & Hdashboard & _).
  split; [reflexivity|]. split.
  - apply Hportal. intros k card Hin. simpl in Hin.
    destruct Hin as [<- | [<- | []]]; split; intros;
      repeat match goal with
             | Heq : _ = Some _ |- _ => vm_compute in Heq; injection Heq as Heq; subst
             end;
      reflexivity.
  - apply Hdashboard.
    + intros k card Hin. simpl in Hin.
      destruct Hin as [<- | [<- | []]]; split; intros;
        repeat match goal with
               | Heq : _ = Some _ |- _ => vm_compute in Heq; injection Heq as Heq; subst
               end;
        reflexivity.
    + right. reflexivity.
Defined.

(** ** C2: the order of the strategies of findCard *)

(** C2 (as amended). On the simulated browser, for every document, card
    name and world, [findCard] returns what [Resolver] computes from the
    cards its query finds: [PortalPage.findCard] tries the title test and
    then the content test, both case-insensitive containment, and has no
    page-wide search; [DashboardPage.findCard] tries the same two and then
    the page-wide text search by regular expression; within a step the first
    card in document order that passes is returned.  Whether an element is
    visible plays no part: changing the visibility of the elements of an
    unchanged document changes no result. *)
Theorem findCard_strategy_order :
  forall (sc : Sim.Scenario) (page : PageId) (cardName : string) (w : Sim.World),
    (exists w1 w',
        PortalPage.waitForPortalPageLoad (Sim.host sc) page 30000 w = (Ret tt, w1)
        /\ PortalPage.findCard (Sim.host sc) page cardName w
           = (Ret (Resolver.portal sc
                     (Sim.select_all sc (Sim.polls w1) PortalPage.cardSelector) cardName), w'))
    /\ (exists w',
        DashboardPage.findCard (Sim.host sc) page cardName w
        = (Ret (Resolver.dashboard sc
                  (Sim.select_all sc (Sim.polls w) DashboardPage.dashboardCardSelector)
                  cardName), w'))
    /\ (forall v : ElementHandle -> bool,
        Sim.result (PortalPage.findCard
                      (Sim.host (Sim.freeze (Scenarios.with_visible v sc))) page cardName) w
        = Sim.result (PortalPage.findCard (Sim.host (Sim.freeze sc)) page cardName) w
        /\ Sim.result (DashboardPage.findCard
                         (Sim.host (Sim.freeze (Scenarios.with_visible v sc))) page cardName) w
           = Sim.result (DashboardPage.findCard (Sim.host (Sim.freeze sc)) page cardName) w).
Proof.
  intros sc page cardName w. split; [|split].
  - apply portal_findCard_sim.
  - apply dashboard_findCard_sim.
  - intros v. unfold Sim.result. split.
    + destruct (portal_findCard_sim (Sim.freeze (Scenarios.with_visible v sc)) page cardName w)
        as (w1 & w' & _ & ->).
      destruct (portal_findCard_sim (Sim.freeze sc) page cardName w) as (w2 & w'' & _ & ->).
      reflexivity.
    + destruct (dashboard_findCard_sim (Sim.freeze (Scenarios.with_visible v sc)) page cardName w)
        as (w' & ->).
      destruct (dashboard_findCard_sim (Sim.freeze sc) page cardName w) as (w'' & ->).
      reflexivity.
Qed.

(** The claim as stated fails.  On [hidden_first] both cards pass the title
    test and only the second is visible: [PortalPage.findCard] returns the
    first, hidden one, where the first visible match is the second.  On
    [text_only] only a page-wide text search can find the name:
    [DashboardPage.findCard] returns its first hit, [PortalPage.findCard]
    has no such step and returns [null]. *)
Lemma findCard_counterexample :
  Sim.result (PortalPage.findCard (Sim.host Documents.hidden_first) 0 "international portal")
    Sim.start = Ret (Some 1%nat)
  /\ Sim.visible Documents.hidden_first 1 = false
  /\ Resolver.first_visible Documents.hidden_first
       (Resolver.title_hit Documents.hidden_first PortalPage.cardTitleSelector
          "international portal")
       (Sim.select_all Documents.hidden_first 0 PortalPage.cardSelector) = Some 2%nat
  /\ Sim.result (PortalPage.findCard (Sim.host Documents.text_only) 0 "Portal") Sim.start
     = Ret None
  /\ Sim.result (DashboardPage.findCard (Sim.host Documents.text_only) 0 "Portal") Sim.start
     = Ret (Some (Loc (first (getByText "Portal")))).
Proof. repeat split; vm_compute; reflexivity. Qed.

(** ** C8: findCard twice on an unchanged document *)

(** C8. On an unchanged document (every query answered as the first one),
    two calls of [findCard] in succession, the second starting in the world
    the first one left, return the same reference: the same element handle,
    or the same locator for the first text match.  This holds for
    [PortalPage] and for [DashboardPage]. *)
Theorem findCard_twice_same_element :
  forall (sc : Sim.Scenario) (page : PageId) (cardName : string) (w : Sim.World),
    (exists r w1 w2,
        PortalPage.findCard (Sim.host (Sim.freeze sc)) page cardName w = (Ret r, w1)
        /\ PortalPage.findCard (Sim.host (Sim.freeze sc)) page cardName w1 = (Ret r, w2))
    /\ (exists r w1 w2,
        DashboardPage.findCard (Sim.host (Sim.freeze sc)) page cardName w = (Ret r, w1)
        /\ DashboardPage.findCard (Sim.host (Sim.freeze sc)) page cardName w1 = (Ret r, w2)).
Proof.
  intros sc page cardName w. split.
  - destruct (portal_findCard_sim (Sim.freeze sc) page cardName w) as (u1 & w1 & _ & H1).
    destruct (portal_findCard_sim (Sim.freeze sc) page cardName w1) as (u2 & w2 & _ & H2).
    eexists _, w1, w2. split; [exact H1 | exact H2].
  - destruct (dashboard_findCard_sim (Sim.freeze sc) page cardName w) as (w1 & H1).
    destruct (dashboard_findCard_sim (Sim.freeze sc) page cardName w1) as (w2 & H2).
    eexists _, w1, w2. split; [exact H1 | exact H2].
Qed.

(** ** C3: the click chain *)

Section ClickChainFacts.
Import Sim InternationalStudentPage ClickChain.

Lemma click_with_fallbacks_sim (sc : Scenario) (page : PageId) (el : ElementHandle)
    (w : World) :
  click_with_fallbacks (host sc) page el w
  = (snd (expected sc el), mkWorld (clock w) (polls w) (trace w ++ fst (expected sc el))).
Proof.
  unfold click_with_fallbacks, expected, try_catch, bind. simpl.
  unfold evaluate, log. simpl.
  destruct (click_fails sc el); simpl; [|reflexivity].
  destruct (script_result sc ClickOrDispatch (Some el)) as [b|]; simpl.
  - rewrite <- !app_assoc. reflexivity.
  - destruct (script_result sc DispatchClick (Some el)) as [b|]; simpl;
      rewrite <- !app_assoc; reflexivity.
Qed.

Lemma expected_attempts (sc : Scenario) (el : ElementHandle) :
  exists n, (1 <= n <= 3)%nat /\ attempts (fst (expected sc el)) = take n order.
Proof.
  unfold expected.
  destruct (click_fails sc el); simpl; [|exists 1%nat; split; [lia|reflexivity]].
  destruct (script_result sc ClickOrDispatch (Some el)); simpl;
    [exists 2%nat; split; [lia|reflexivity]|].
  destruct (script_result sc DispatchClick (Some el)); simpl;
    exists 3%nat; split; try lia; reflexivity.
Qed.

End ClickChainFacts.

Example click_chain_on_svg :
  Sim.added
    (InternationalStudentPage.click_with_fallbacks
       (Sim.host (ClickChain.menu_page true false)) 0 51) Sim.start
  = [Sim.ClickElement 51 true; Sim.Evaluate ClickOrDispatch (Some 51%nat);
     Sim.Dom InternationalStudentPage.DispatchMouseEvent 51].
Proof. vm_compute. reflexivity. Qed.

Example click_chain_all_fail :
  Sim.result (InternationalStudentPage.clickPortalFeatures
                (Sim.host (ClickChain.scripts_fail (ClickChain.menu_page true true))) 0)
    Sim.start = Ret false
  /\ ClickChain.attempts
       (Sim.added (InternationalStudentPage.clickPortalFeatures
                     (Sim.host (ClickChain.scripts_fail (ClickChain.menu_page true true))) 0)
          Sim.start)
     = ClickChain.order.
Proof. split; vm_compute; reflexivity. Qed.

(** C3 (as amended). On the simulated browser, for every element and every
    way its clicks may fail, the click chain of [clickPortalFeatures] makes
    between one and three attempts, in the fixed order forced click, script
    click, dispatched event, each at most once, stopping at the first that
    does not throw.  When the forced click throws and the script runs on an
    element whose [click] is not a function, the script itself dispatches a
    synthetic [MouseEvent]; the third attempt dispatches one when the script
    throws.  The chain returns nothing: it ends normally when some attempt
    succeeded and throws when all three threw, and [clickPortalFeatures]
    itself always returns a boolean, so the result does not say which attempt
    succeeded. *)
Theorem click_chain_three_attempts_in_order :
  forall (sc : Sim.Scenario) (page : PageId) (el : ElementHandle) (w : Sim.World),
    let run := InternationalStudentPage.click_with_fallbacks (Sim.host sc) page el in
    let tr := Sim.added run w in
    Sim.trace (snd (run w)) = Sim.trace w ++ tr
    /\ (exists n, (1 <= n <= 3)%nat
                  /\ ClickChain.attempts tr = take n ClickChain.order)
    /\ (tr, Sim.result run w) = ClickChain.expected sc el
    /\ (Sim.click_fails sc el = true ->
        Sim.click_is_function sc el = false ->
        Sim.script_result sc ClickOrDispatch (Some el) <> None ->
        In (Sim.Dom InternationalStudentPage.DispatchMouseEvent el) tr
        /\ Sim.result run w = Ret tt)
    /\ (Sim.result run w = Ret tt
        \/ (ClickChain.attempts tr = ClickChain.order
            /\ Sim.result run w = Raise Sim.ScriptError))
    /\ never_throws (InternationalStudentPage.clickPortalFeatures (Sim.host sc) page).
Proof.
  intros sc page el w run tr.
  assert (Htr : tr = fst (ClickChain.expected sc el)).
  { unfold tr, Sim.added, run. rewrite click_with_fallbacks_sim. simpl.
    rewrite drop_app_length. reflexivity. }
  assert (Hres : Sim.result run w = snd (ClickChain.expected sc el)).
  { unfold Sim.result, run. rewrite click_with_fallbacks_sim. reflexivity. }
  rewrite Htr, Hres. repeat split.
  - unfold run. rewrite click_with_fallbacks_sim. reflexivity.
  - apply expected_attempts.
  - destruct (ClickChain.expected sc el). reflexivity.
  - unfold ClickChain.expected. rewrite H, H0. simpl.
    destruct (Sim.script_result sc ClickOrDispatch (Some el)); [|contradiction].
    simpl. auto.
  - unfold ClickChain.expected. rewrite H. simpl.
    destruct (Sim.script_result sc ClickOrDispatch (Some el)); [|contradiction].
    reflexivity.
  - unfold ClickChain.expected.
    destruct (Sim.click_fails sc el); simpl; [|left; reflexivity].
    destruct (Sim.script_result sc ClickOrDispatch (Some el)); simpl; [left; reflexivity|].
    destruct (Sim.script_result sc DispatchClick (Some el)); simpl;
      [left; reflexivity | right; split; reflexivity].
  - apply clickPortalFeatures_never_throws.
Qed.

Lemma click_chain_three_attempts_in_order_witness :
  In (Sim.Dom InternationalStudentPage.DispatchMouseEvent 51)
     (Sim.added
        (InternationalStudentPage.click_with_fallbacks
           (Sim.host (ClickChain.menu_page true false)) 0 51) Sim.start)
  /\ Sim.result
       (InternationalStudentPage.click_with_fallbacks
          (Sim.host (ClickChain.menu_page true false)) 0 51) Sim.start = Ret tt.
Proof.
  destruct (click_chain_three_attempts_in_order (ClickChain.menu_page true false) 0 51 Sim.start)
    as (_ & _ & _ & Hsvg & _).
  apply Hsvg; [reflexivity | reflexivity | discriminate].
Defined.

(** The claim as stated fails in its last part.  [clickPortalFeatures]
    returns the same [true] on a page where the forced click succeeds and on
    one where it throws and the script click succeeds: the result does not
    report the strategy. *)
Lemma click_result_counterexample :
  Sim.result (InternationalStudentPage.clickPortalFeatures
                (Sim.host (ClickChain.menu_page false true)) 0) Sim.start = Ret true
  /\ Sim.result (InternationalStudentPage.clickPortalFeatures
                   (Sim.host (ClickChain.menu_page true true)) 0) Sim.start = Ret true
  /\ ClickChain.attempts
       (Sim.added (InternationalStudentPage.clickPortalFeatures
                            (Sim.host (ClickChain.menu_page false true)) 0) Sim.start)
     = [ClickChain.ForcedClick]
  /\ ClickChain.attempts
       (Sim.added (InternationalStudentPage.clickPortalFeatures
                            (Sim.host (ClickChain.menu_page true true)) 0) Sim.start)
     = [ClickChain.ForcedClick; ClickChain.ScriptedClick].
Proof. repeat split; vm_compute; reflexivity. Qed.

(** ** C5: the waits and their timeout *)

Section WaitTimes.
Import Sim.

Lemma portal_polls_bounded (f : nat -> nat) (k0 : nat) :
  (PortalPage.attempt (PortalCount.scan f k0 PortalPage.maxAttempts PortalPage.initial)
   <= PortalPage.maxAttempts)%nat.
Proof.
  pose proof (scan_after f k0 PortalPage.maxAttempts 0) as Hscan.
  rewrite Nat.add_0_r in Hscan.
  change (PortalCount.after f k0 0) with PortalPage.initial in Hscan.
  rewrite Hscan, attempt_after.
  pose proof (stop_bounds f k0 PortalPage.maxAttempts 0) as [_ Hle]. lia.
Qed.

(** Once its three selectors are present, [waitForPortalPageLoad] takes one
    second per poll and two seconds more, whatever its timeout. *)
Lemma portal_wait_elapsed (sc : Scenario) (page : PageId) (timeout : Z) (w : World) :
  let present := Scenarios.with_selector_appears (fun _ => true) sc in
  elapsed (PortalPage.waitForPortalPageLoad (host present) page timeout) w
  = (1000 * Z.of_nat (PortalPage.attempt
                        (PortalCount.scan (portal_count sc) (polls w)
                           PortalPage.maxAttempts PortalPage.initial))
     + 2000)%Z.
Proof.
  intros present. unfold elapsed, PortalPage.waitForPortalPageLoad, try_catch.
  do 3 (unfold bind at 1; rewrite sim_waitForSelector;
        cbn [selector_appears present Scenarios.with_selector_appears]).
  unfold bind at 1.
  destruct (portal_count_loop_sim present page PortalPage.maxAttempts PortalPage.initial w)
    as (w' & Hrun & Hclock).
  rewrite Hrun. cbv beta iota.
  unfold bind at 1. rewrite sim_wait. cbv beta iota. rewrite sim_takeScreenshot.
  simpl in Hclock |- *.
  change (portal_count present) with (portal_count sc) in Hclock.
  lia.
Qed.

End WaitTimes.

(** C5 (as amended).  In [DashboardPage] the loop compares the elapsed time
    with the timeout at the top of each attempt: when it finds the timeout
    exceeded, the loop ends at once with nothing more polled, whatever the
    stability counter holds.  [PortalPage] never looks at the clock: on the
    simulated browser, once its three selectors are present its wait takes
    1000 ms per poll, for at most ten polls, and 2000 ms more, whatever the
    timeout is. *)
Theorem timeout_checked_only_in_dashboard_loop :
  forall (sc : Sim.Scenario) (page : PageId) (timeout : Z) (w : Sim.World),
    (forall (W : Type) (H : Host W) (startTime : Z) (remaining : nat)
            (st : DashboardPage.CountState) (w0 : W),
        (timeout < date_now H w0 - startTime)%Z ->
        DashboardPage.count_loop H page startTime timeout (S remaining) st w0
        = (Ret (st, DashboardPage.TimedOut), w0))
    /\ (let present := Scenarios.with_selector_appears (fun _ => true) sc in
        let polled :=
          PortalPage.attempt
            (PortalCount.scan (portal_count sc) (Sim.polls w)
               PortalPage.maxAttempts PortalPage.initial) in
        Sim.elapsed (PortalPage.waitForPortalPageLoad (Sim.host present) page timeout) w
        = (1000 * Z.of_nat polled + 2000)%Z
        /\ (polled <= 10)%nat).
Proof.
  intros sc page timeout w. split.
  - intros W H startTime remaining st w0 Hlate. simpl.
    unfold bind at 1, DashboardPage.checkTimeout.
    destruct (Z.ltb_spec timeout (date_now H w0 - startTime)); [reflexivity | lia].
  - split.
    + apply portal_wait_elapsed.
    + apply portal_polls_bounded.
Qed.

Lemma timeout_checked_only_in_dashboard_loop_witness :
  DashboardPage.count_loop (Sim.host Scenarios.no_cards) 0 0 1000 5
    (DashboardPage.mkCount [] 0 0) (Sim.mkWorld 5000 1 [])
  = (Ret (DashboardPage.mkCount [] 0 0, DashboardPage.TimedOut), Sim.mkWorld 5000 1 []).
Proof.
  destruct (timeout_checked_only_in_dashboard_loop Scenarios.no_cards 0 1000 Sim.start)
    as (Hlate & _).
  apply Hlate. simpl. lia.
Defined.

(** The claim as stated fails.  With a timeout of 3000 ms on a page whose
    card count keeps changing, [waitForPortalPageLoad] polls ten times and
    returns after 12000 ms.  With a timeout of 1000 ms on a dashboard without
    any card, [waitForDashboardPageLoad] returns after 5000 ms, the time it
    waits for a first card before its loop starts.  Both exceed the timeout
    by more than one poll interval of 1000 ms. *)
Lemma wait_timeout_counterexample :
  Sim.elapsed (PortalPage.waitForPortalPageLoad (Sim.host Scenarios.flickering) 0 3000)
    Sim.start = 12000%Z
  /\ (3000 + 1000 < 12000)%Z
  /\ Sim.elapsed (DashboardPage.waitForDashboardPageLoad (Sim.host Scenarios.no_cards) 0 1000)
       Sim.start = 5000%Z
  /\ (1000 + 1000 < 5000)%Z
  /\ Sim.select_all Scenarios.no_cards 0 DashboardPage.dashboardCardSelector = [].
Proof. repeat split; vm_compute; reflexivity. Qed.

(** ** C9: every wait is capped at five seconds *)

(** C9. For every host and every requested duration [ms], [BasePage.wait]
    asks the host to wait [min(ms, 5000)] milliseconds, returns normally
    whatever the host does, and leaves the world as that one host call left
    it.  On the simulated browser the wait therefore takes [min(ms, 5000)]
    ms (nothing for a negative request), and
    [RequirementsPage.waitOnRequirementsPage] takes exactly 5000 ms for every
    [seconds] above 5. *)
Theorem wait_capped_at_five_seconds :
  forall (W : Type) (H : Host W) (page : PageId) (ms : Z) (w : W),
    BasePage.wait H page ms w
      = (Ret tt, snd (page_waitForTimeout H page (Z.min ms 5000) w))
    /\ (Z.min ms 5000 <= 5000)%Z
    /\ (forall (sc : Sim.Scenario) (w : Sim.World),
        Sim.elapsed (BasePage.wait (Sim.host sc) page ms) w = Z.max 0 (Z.min ms 5000)
        /\ Sim.added (BasePage.wait (Sim.host sc) page ms) w
           = [Sim.WaitForTimeout (Z.min ms 5000)]
        /\ forall seconds : Z,
            Sim.elapsed (RequirementsPage.waitOnRequirementsPage (Sim.host sc) page seconds) w
            = if (5 <? seconds)%Z then 5000%Z else Z.max 0 (seconds * 1000)).
Proof.
  intros W H page ms w. split; [|split; [lia|]].
  - unfold BasePage.wait, try_catch. cbv zeta.
    destruct (page_waitForTimeout H page (Z.min ms 5000) w) as [[[] | e] w1]; reflexivity.
  - intros sc w0. split; [|split].
    + unfold Sim.elapsed. rewrite sim_wait. simpl. lia.
    + unfold Sim.added. rewrite sim_wait. simpl. rewrite drop_app_length. reflexivity.
    + intros seconds. unfold Sim.elapsed, RequirementsPage.waitOnRequirementsPage.
      rewrite sim_wait. simpl.
      destruct (Z.ltb_spec 5 seconds); lia.
Qed.

Example waitOnRequirementsPage_ten_seconds :
  Sim.elapsed (RequirementsPage.waitOnRequirementsPage (Sim.host Scenarios.blank) 0 10)
    Sim.start = 5000%Z.
Proof. reflexivity. Qed.

(** ** C10: who lets errors through *)

Section Propagation.
Context {W : Type} (H : Host W) (page : PageId).




End Propagation.



(** ** C7: the configuration prologue never fails *)

Lemma js_or_not_falsy (a : option string) (b : string) :
  Tests.falsy b = false -> Tests.falsy (Tests.js_or a b) = false.
Proof.
  intros Hb. unfold Tests.js_or.
  destruct a as [[|c s]|]; simpl; auto.
Qed.

(** C7 (what the code does).  Whatever the environment holds, the
    configuration prologue of the test scripts returns a configuration: the
    login script uses its literals, and the event-signup script replaces each
    absent (or empty) variable by its literal, so that its check for missing
    values never throws.  With an empty environment both scripts go on to
    open the built-in URL and to log in with the built-in credentials. *)
Theorem configuration_defaults_substituted :
  forall env : gmap string string,
    (exists c, Tests.event_signup_config env = Ret c)
    /\ Tests.login_spec_config env
       = Ret (Tests.mkConfig Tests.ellucianUrl "vberg" "111111")
    /\ Tests.event_signup_config ∅
       = Ret (Tests.mkConfig Tests.ellucianUrl "vberg" "111111")
    /\ Sim.added (Tests.event_signup_spec (Sim.host Scenarios.blank) 0 ∅) Sim.start
       = [Sim.Goto Tests.ellucianUrl;
          Sim.Fill LoginPage.usernameInput "vberg";
          Sim.Fill LoginPage.passwordInput "111111";
          Sim.ClickSelector LoginPage.loginButton;
          Sim.WaitForTimeout 1000;
          Sim.Screenshot "after-login.png";
          Sim.Screenshot "screenshots/after-login.png"]
    /\ Sim.added (Tests.login_spec (Sim.host Scenarios.blank) 0 ∅) Sim.start
       = [Sim.Goto Tests.ellucianUrl;
          Sim.Fill LoginPage.usernameInput "vberg";
          Sim.Fill LoginPage.passwordInput "111111";
          Sim.ClickSelector LoginPage.loginButton;
          Sim.WaitForTimeout 1000;
          Sim.Screenshot "after-login.png";
          Sim.Screenshot "screenshots/ellucian-after-login.png"].
Proof.
  intros env. split; [|split; [reflexivity|split; [reflexivity|split]]].
  - unfold Tests.event_signup_config.
    rewrite !js_or_not_falsy by reflexivity. simpl. eauto.
  - vm_compute. reflexivity.
  - vm_compute. reflexivity.
Qed.

(** * Further properties of the page objects *)

(** ** Strings: trim and slug *)

Section StringFacts.

Lemma trimEnd_head (c : ascii) (r : string) :
  Js.is_space c = false -> exists r', Js.trimEnd (String c r) = String c r'.
Proof.
  intros Hc. simpl. destruct (Js.trimEnd r); [rewrite Hc|]; eauto.
Qed.

Lemma trimEnd_idempotent (s : string) : Js.trimEnd (Js.trimEnd s) = Js.trimEnd s.
Proof.
  induction s as [|c r IH]; [reflexivity|]. simpl.
  destruct (Js.trimEnd r) as [|c' r'] eqn:E.
  - destruct (Js.is_space c) eqn:Hc; simpl; [reflexivity|]. rewrite Hc. reflexivity.
  - change (Js.trimEnd (String c (String c' r')))
      with (match Js.trimEnd (String c' r') with
            | EmptyString => if Js.is_space c then EmptyString else String c EmptyString
            | r0 => String c r0
            end).
    rewrite IH. reflexivity.
Qed.

Lemma trimStart_head (s : string) :
  Js.trimStart s = EmptyString
  \/ exists c r, Js.trimStart s = String c r /\ Js.is_space c = false.
Proof.
  induction s as [|c r IH]; [left; reflexivity|]. simpl.
  destruct (Js.is_space c) eqn:Hc; [exact IH|]. right. eauto.
Qed.

Lemma trim_idempotent (s : string) : Js.trim (Js.trim s) = Js.trim s.
Proof.
  unfold Js.trim.
  destruct (trimStart_head s) as [-> | (c & r & -> & Hc)]; [reflexivity|].
  destruct (trimEnd_head r Hc) as (r' & Htrim). rewrite Htrim.
  cbn [Js.trimStart]. rewrite Hc. rewrite <- Htrim. apply trimEnd_idempotent.
Qed.

Lemma lower_ascii_idempotent (c : ascii) :
  Js.lower_ascii (Js.lower_ascii c) = Js.lower_ascii c.
Proof. destruct c as [[] [] [] [] [] [] [] []]; reflexivity. Qed.

Lemma is_space_lower_ascii (c : ascii) : Js.is_space (Js.lower_ascii c) = Js.is_space c.
Proof. destruct c as [[] [] [] [] [] [] [] []]; reflexivity. Qed.

Lemma toLowerCase_idempotent (s : string) :
  Js.toLowerCase (Js.toLowerCase s) = Js.toLowerCase s.
Proof.
  induction s as [|c r IH]; simpl; [reflexivity|].
  rewrite lower_ascii_idempotent, IH. reflexivity.
Qed.

Lemma toLowerCase_replace_spaces (b : bool) (s : string) :
  Js.toLowerCase (Js.replace_spaces b s) = Js.replace_spaces b (Js.toLowerCase s).
Proof.
  revert b. induction s as [|c r IH]; intros b; simpl; [reflexivity|].
  rewrite is_space_lower_ascii.
  destruct (Js.is_space c); [destruct b|]; simpl; rewrite ?IH; reflexivity.
Qed.

Lemma replace_spaces_no_space (b : bool) (s : string) :
  no_space (Js.replace_spaces b s).
Proof.
  revert b. induction s as [|c r IH]; intros b x; simpl; [tauto|].
  destruct (Js.is_space c) eqn:Hc; [destruct b|]; simpl.
  - apply IH.
  - intros [<- | Hin]; [reflexivity | exact (IH true x Hin)].
  - intros [<- | Hin]; [exact Hc | exact (IH false x Hin)].
Qed.

Lemma replace_spaces_fixed (b : bool) (s : string) :
  no_space s -> Js.replace_spaces b s = s.
Proof.
  revert b. induction s as [|c r IH]; intros b Hs; simpl; [reflexivity|].
  rewrite (Hs c) by (simpl; auto). f_equal.
  apply IH. intros x Hx. apply Hs. simpl. auto.
Qed.

End StringFacts.

(** X14. The file-name stem built from a card or button name,
    [name.toLowerCase().replace(/\s+/g, '-')], contains no white space,
    is unchanged by lower-casing, and is its own stem. *)
Theorem slug_is_clean :
  forall name : string,
    no_space (Js.slug name)
    /\ Js.toLowerCase (Js.slug name) = Js.slug name
    /\ Js.slug (Js.slug name) = Js.slug name.
Proof.
  intros name. unfold Js.slug. split; [|split].
  - apply replace_spaces_no_space.
  - rewrite toLowerCase_replace_spaces, toLowerCase_idempotent. reflexivity.
  - rewrite toLowerCase_replace_spaces, toLowerCase_idempotent.
    apply replace_spaces_fixed, replace_spaces_no_space.
Qed.

(** ** Control flow: tails that cannot fail, loops that collect *)

Section TailFacts.
Context {W : Type}.

Lemma bind_assoc {A B C : Type} (m : M W A) (f : A -> M W B) (g : B -> M W C) (w : W) :
  bind (bind m f) g w = bind m (fun a => bind (f a) g) w.
Proof. unfold bind. destruct (m w) as [[a | e] w1]; reflexivity. Qed.

(** A tail that never throws and hands the value on leaves the outcome alone. *)
Lemma bind_tail {A : Type} (m : M W A) (k : A -> M W A) :
  (forall a w, exists w', k a w = (Ret a, w')) ->
  forall w, fst (bind m k w) = fst (m w).
Proof.
  intros Hk w. unfold bind. destruct (m w) as [[a | e] w1]; [|reflexivity].
  destruct (Hk a w1) as (w2 & ->). reflexivity.
Qed.

Lemma never_throws_unit (m : M W unit) :
  never_throws m -> forall w, exists w', m w = (Ret tt, w').
Proof. intros Hm w. destruct (Hm w) as ([] & w' & ->). eauto. Qed.

Lemma for_each_length {A B : Type} (f : A -> M W B) :
  (forall x, never_throws (f x)) ->
  forall xs w, exists ys w', for_each xs f w = (Ret ys, w') /\ length ys = length xs.
Proof.
  intros Hf. induction xs as [|x xs IH]; intros w; simpl.
  - exists [], w. split; reflexivity.
  - unfold bind. destruct (Hf x w) as (y & w1 & ->).
    destruct (IH w1) as (ys & w2 & -> & Hlen).
    exists (y :: ys), w2. split; [reflexivity | simpl; congruence].
Qed.

End TailFacts.

(** One step of running a page object by hand: split the next call on its
    outcome. *)
Ltac run_step :=
  match goal with
  | |- context [match ?x with _ => _ end] =>
      lazymatch x with
      | context [match _ with _ => _ end] => fail
      | _ => idtac
      end;
      lazymatch type of x with
      | (outcome _ * _)%type => destruct x as [[?|?] ?]
      | option _ => destruct x
      | bool => destruct x
      end
  end.

(** ** The card-count loops keep their invariants on every host *)

Section LoopInvariants.
Context {W : Type} (H : Host W) (page : PageId).

Lemma tick_invariant (st : PortalPage.CountState) (count : nat) :
  portal_count_invariant st ->
  (PortalPage.attempt st < PortalPage.maxAttempts)%nat ->
  (PortalPage.stableCount st < 3)%nat ->
  portal_count_invariant (PortalPage.tick st count).
Proof.
  unfold portal_count_invariant, PortalPage.tick, PortalPage.maxAttempts. simpl.
  intros (Hpc & Hs & Ha & Hpos & Hzero & Hlt) Hatt Hst.
  destruct (Nat.eqb_spec count (PortalPage.previousCardCount st));
    destruct (Nat.ltb_spec 0 count); simpl; repeat split; lia.
Qed.

Lemma portal_count_loop_invariant (fuel : nat) :
  forall (st st' : PortalPage.CountState) (w w' : W),
    portal_count_invariant st ->
    PortalPage.count_loop H page fuel st w = (Ret st', w') ->
    portal_count_invariant st'.
Proof.
  induction fuel as [|fuel IH]; intros st st' w w' Hinv Hrun; simpl in Hrun.
  - injection Hrun as <- <-. exact Hinv.
  - destruct (Nat.ltb_spec (PortalPage.attempt st) PortalPage.maxAttempts);
      destruct (Nat.ltb_spec (PortalPage.stableCount st) 3); simpl in Hrun;
      try (injection Hrun as <- <-; exact Hinv).
    unfold bind at 1 in Hrun.
    destruct (wait_never_throws H page 1000 w) as ([] & w1 & Hwait).
    rewrite Hwait in Hrun. unfold bind at 1 in Hrun.
    destruct (page_queryAll H page PortalPage.cardSelector w1) as [[cards | e] w2];
      [|discriminate].
    eapply IH; [|exact Hrun]. apply tick_invariant; assumption.
Qed.

Lemma initial_invariant : portal_count_invariant PortalPage.initial.
Proof. unfold portal_count_invariant, PortalPage.maxAttempts. simpl. lia. Qed.

Lemma dashboard_count_loop_invariant (startTime timeout : Z) (remaining : nat) :
  forall (st st' : DashboardPage.CountState) (exit : DashboardPage.LoopExit) (w w' : W),
    (DashboardPage.stableCount st <= 1)%nat ->
    DashboardPage.count_loop H page startTime timeout remaining st w = (Ret (st', exit), w') ->
    match exit with
    | DashboardPage.Stabilized =>
        DashboardPage.stableCount st' = 2%nat
        /\ length (DashboardPage.cards st') = DashboardPage.previousCardCount st'
    | _ => (DashboardPage.stableCount st' <= 1)%nat
    end.
Proof.
  induction remaining as [|remaining IH]; intros st st' exit w w' Hst Hrun; simpl in Hrun.
  - injection Hrun as <- <- <-. exact Hst.
  - unfold bind at 1, DashboardPage.checkTimeout in Hrun.
    destruct (timeout <? date_now H w - startTime)%Z.
    { injection Hrun as <- <- <-. exact Hst. }
    destruct (Nat.eqb_spec (length (DashboardPage.cards st))
                (DashboardPage.previousCardCount st)) as [Heq|Hne].
    + destruct (DashboardPage.stableCount st) as [|s] eqn:Hs.
      2: { injection Hrun as <- <- <-. simpl. split; [lia | exact Heq]. }
      * unfold bind at 1 in Hrun.
        destruct (wait_never_throws H page 1000 w) as ([] & w1 & Hwait).
        rewrite Hwait in Hrun. unfold bind at 1 in Hrun.
        destruct (page_queryAll H page DashboardPage.dashboardCardSelector w1)
          as [[cards' | e] w2]; [|discriminate].
        eapply IH; [|exact Hrun]. simpl. lia.
    + unfold bind at 1 in Hrun.
      destruct (wait_never_throws H page 1000 w) as ([] & w1 & Hwait).
      rewrite Hwait in Hrun. unfold bind at 1 in Hrun.
      destruct (page_queryAll H page DashboardPage.dashboardCardSelector w1)
        as [[cards' | e] w2]; [|discriminate].
      eapply IH; [|exact Hrun]. simpl. lia.
Qed.

Lemma portal_count_loop_end (st : PortalPage.CountState) (w w' : W) :
  PortalPage.count_loop H page PortalPage.maxAttempts PortalPage.initial w = (Ret st, w') ->
  portal_count_invariant st
  /\ ((PortalPage.stableCount st = 3
       /\ 4 <= PortalPage.attempt st
       /\ 0 < PortalPage.currentCardCount st)
      \/ (PortalPage.stableCount st < 3
          /\ PortalPage.attempt st = PortalPage.maxAttempts))%nat.
Proof.
  intros Hrun.
  pose proof (portal_count_loop_invariant initial_invariant Hrun) as Hinv.
  split; [exact Hinv|].
  pose proof (count_loop_exits (H := H) (page := page) (fuel := PortalPage.maxAttempts)
                (st := PortalPage.initial) (st' := st) (w := w) (w' := w')) as Hexit.
  specialize (Hexit ltac:(simpl; lia) Hrun).
  destruct Hinv as (Hpc & Hs & Ha & Hpos & Hzero & Hlt).
  unfold PortalPage.maxAttempts in *.
  destruct (Nat.ltb_spec (PortalPage.attempt st) 10);
    destruct (Nat.ltb_spec (PortalPage.stableCount st) 3); simpl in Hexit;
    try discriminate; lia.
Qed.

End LoopInvariants.

(** X1. On every host, when the card-count loop of
    [PortalPage.waitForPortalPageLoad] returns, its variables satisfy the
    loop invariant (both count variables hold the last count, the counter is at
    most 3 and below the number of polls, a positive counter goes with a
    positive count), and the loop has ended in one of two ways: with the
    counter at 3 after at least 4 polls and with cards on the page, or with
    the counter below 3 after exactly 10 polls. *)
Theorem portal_count_loop_result :
  forall (W : Type) (H : Host W) (page : PageId) (st : PortalPage.CountState) (w w' : W),
    PortalPage.count_loop H page PortalPage.maxAttempts PortalPage.initial w = (Ret st, w') ->
    portal_count_invariant st
    /\ ((PortalPage.stableCount st = 3
         /\ 4 <= PortalPage.attempt st
         /\ 0 < PortalPage.currentCardCount st)
        \/ (PortalPage.stableCount st < 3
            /\ PortalPage.attempt st = PortalPage.maxAttempts))%nat.
Proof.
  intros W H page st w w'. apply portal_count_loop_end.
Qed.

Lemma portal_count_loop_result_witness :
  exists st w',
    PortalPage.count_loop (Sim.host Scenarios.five_four_times) 0
      PortalPage.maxAttempts PortalPage.initial Sim.start = (Ret st, w')
    /\ portal_count_invariant st
    /\ ((PortalPage.stableCount st = 3
         /\ 4 <= PortalPage.attempt st
         /\ 0 < PortalPage.currentCardCount st)
        \/ (PortalPage.stableCount st < 3
            /\ PortalPage.attempt st = PortalPage.maxAttempts))%nat.
Proof.
  eexists. eexists. split; [vm_compute; reflexivity|].
  apply (@portal_count_loop_result _ (Sim.host Scenarios.five_four_times) 0%nat
           _ Sim.start _ eq_refl).
Defined.

(** X4. On every host, the card-count loop of
    [DashboardPage.waitForDashboardPageLoad], entered with its counter at 0
    or 1, ends by the [break] that reports a stable count only with the
    counter at exactly 2 and with [previousCardCount] equal to the number of
    cards it holds; when it ends by the timeout or by running out of
    attempts, the counter is at most 1. *)
Theorem dashboard_count_loop_result :
  forall (W : Type) (H : Host W) (page : PageId) (startTime timeout : Z)
         (remaining : nat) (st st' : DashboardPage.CountState)
         (exit : DashboardPage.LoopExit) (w w' : W),
    (DashboardPage.stableCount st <= 1)%nat ->
    DashboardPage.count_loop H page startTime timeout remaining st w = (Ret (st', exit), w') ->
    match exit with
    | DashboardPage.Stabilized =>
        DashboardPage.stableCount st' = 2%nat
        /\ length (DashboardPage.cards st') = DashboardPage.previousCardCount st'
    | _ => (DashboardPage.stableCount st' <= 1)%nat
    end.
Proof.
  intros W H page startTime timeout remaining st st' exit w w'.
  apply dashboard_count_loop_invariant.
Qed.

Lemma dashboard_count_loop_result_witness :
  exists st' w',
    DashboardPage.count_loop (Sim.host Scenarios.no_cards) 0 0 30000
      DashboardPage.maxAttempts (DashboardPage.mkCount [] 0 0) Sim.start
    = (Ret (st', DashboardPage.Stabilized), w')
    /\ DashboardPage.stableCount st' = 2%nat
    /\ length (DashboardPage.cards st') = DashboardPage.previousCardCount st'.
Proof.
  eexists. eexists. split; [vm_compute; reflexivity|].
  apply (@dashboard_count_loop_result _ (Sim.host Scenarios.no_cards) 0%nat 0%Z 30000%Z
           DashboardPage.maxAttempts (DashboardPage.mkCount [] 0 0) _
           DashboardPage.Stabilized Sim.start _ ltac:(simpl; lia) eq_refl).
Defined.

(** ** Waits and screenshots after the work is done cannot fail it *)

Section Tails.
Context {W : Type} (H : Host W) (page : PageId).

Lemma content_strategy2_succeeds (w : W) :
  exists w', InternationalStudentPage.content_strategy2 H page w = (Ret true, w').
Proof.
  unfold InternationalStudentPage.content_strategy2, try_catch, bind.
  destruct (takeScreenshot_never_throws H page "screenshots/before-content-wait.png" w)
    as ([] & w1 & ->).
  destruct (waitForLoadState_never_throws H page "networkidle" 5000 w1) as (b & w2 & ->).
  destruct (wait_never_throws H page 1000 w2) as ([] & w3 & ->).
  destruct (takeScreenshot_never_throws H page "screenshots/after-content-wait.png" w3)
    as ([] & w4 & ->).
  exists w4. reflexivity.
Qed.

Lemma until_first_cut (s1 : M W bool) (rest rest' : list (M W bool)) (w : W) :
  InternationalStudentPage.until_first
    (s1 :: InternationalStudentPage.content_strategy2 H page :: rest) w
  = InternationalStudentPage.until_first
      (s1 :: InternationalStudentPage.content_strategy2 H page :: rest') w.
Proof.
  simpl. unfold bind at 1 3. destruct (s1 w) as [[[] | e] w1]; try reflexivity.
  unfold bind. destruct (content_strategy2_succeeds w1) as (w2 & ->). reflexivity.
Qed.

Lemma login_tail_never_throws :
  never_throws
    (bind (try_catch
             (bind (BasePage.waitForLoadState H page "domcontentloaded" 10000)
                   (fun _ => BasePage.wait H page 1000))
             (fun error => ret tt))
          (fun _ => BasePage.takeScreenshot H page "after-login.png")).
Proof. auto with never_throws. Qed.

Lemma ellucian_tail_never_throws :
  never_throws
    (try_catch
       (bind (BasePage.waitForLoadState H page "domcontentloaded" 20000)
             (fun _ => bind (BasePage.wait H page 2000)
                (fun _ => BasePage.takeScreenshot H page "after-login-navigation.png")))
       (fun error => ret tt)).
Proof. auto with never_throws. Qed.

End Tails.

(** X7. On every host, the second strategy of
    [waitForPortalFeaturesContent] reports success whatever the page does:
    its screenshots, its wait for the network and its pause all swallow their
    errors.  So the loop over the strategies never reaches the third strategy
    (the script that measures the text of the page) nor the fourth (the fixed
    wait of 5000 ms): replacing them by anything leaves the operation
    unchanged. *)
Theorem content_strategies_after_second_never_run :
  forall (W : Type) (H : Host W) (page : PageId) (s3 s4 : M W bool) (w : W),
    (exists w', InternationalStudentPage.content_strategy2 H page w = (Ret true, w'))
    /\ InternationalStudentPage.waitForPortalFeaturesContent H page w
       = try_catch
           (bind (InternationalStudentPage.until_first
                    [InternationalStudentPage.content_strategy1 H page;
                     InternationalStudentPage.content_strategy2 H page; s3; s4])
              (fun _ =>
                 bind (BasePage.wait H page 2000)
                   (fun _ => BasePage.takeScreenshot H page
                               "screenshots/page-content-loaded.png")))
           (fun error => BasePage.takeScreenshot H page "screenshots/page-content-error.png")
           w.
Proof.
  intros W H page s3 s4 w. split; [apply content_strategy2_succeeds|].
  unfold InternationalStudentPage.waitForPortalFeaturesContent, try_catch.
  unfold bind at 1 3.
  rewrite (until_first_cut H page (InternationalStudentPage.content_strategy1 H page)
             [InternationalStudentPage.content_strategy3 H page;
              InternationalStudentPage.content_strategy4 H page] [s3; s4] w).
  reflexivity.
Qed.

(** X8. On every host, [loginAndWaitForNavigation] of both login page
    objects ends as the steps up to the click on the login button end: it
    returns when they return and fails with their error when they fail.  The
    wait for the load state, the pause and the screenshots that follow the
    click cannot make it fail. *)
Theorem login_fails_only_in_its_steps :
  forall (W : Type) (H : Host W) (page : PageId) (url username password : string)
         (rememberMe : bool),
    rethrows (LoginPage.loginAndWaitForNavigation H page url username password)
      (bind (LoginPage.navigateToLoginPage H page url)
            (fun _ => LoginPage.login H page username password))
    /\ rethrows
         (EllucianLoginPage.loginAndWaitForNavigation H page url username password rememberMe)
         (bind (EllucianLoginPage.navigateToLoginPage H page url)
            (fun _ => bind (BasePage.takeScreenshot H page "at-login-page.png")
               (fun _ => EllucianLoginPage.login H page username password rememberMe))).
Proof.
  intros W H page url username password rememberMe. split; intros w.
  - unfold LoginPage.loginAndWaitForNavigation.
    rewrite (@rethrows_try_catch W _
               (LoginPage.loginAndWaitForNavigation_body H page url username password)
               (fun _ => BasePage.takeScreenshot H page "login-error.png")
               ltac:(intros e; apply takeScreenshot_never_throws) w).
    unfold LoginPage.loginAndWaitForNavigation_body.
    rewrite <- bind_assoc. apply bind_tail. intros [] w1.
    apply never_throws_unit, login_tail_never_throws.
  - unfold EllucianLoginPage.loginAndWaitForNavigation.
    rewrite (@rethrows_try_catch W _
               (EllucianLoginPage.loginAndWaitForNavigation_body H page url username
                  password rememberMe)
               (fun _ => BasePage.takeScreenshot H page "login-process-error.png")
               ltac:(intros e; apply takeScreenshot_never_throws) w).
    unfold EllucianLoginPage.loginAndWaitForNavigation_body.
    rewrite <- (@bind_tail W _
                  (bind (EllucianLoginPage.navigateToLoginPage H page url)
                          (fun _ => bind (BasePage.takeScreenshot H page "at-login-page.png")
                             (fun _ => EllucianLoginPage.login H page username password
                                         rememberMe)))
                  (fun portalPage =>
                          bind (try_catch
                                  (bind (BasePage.waitForLoadState H page
                                           "domcontentloaded" 20000)
                                     (fun _ => bind (BasePage.wait H page 2000)
                                        (fun _ => BasePage.takeScreenshot H page
                                                    "after-login-navigation.png")))
                                  (fun error => ret tt))
                               (fun _ => ret portalPage))).
    + f_equal. unfold bind.
      destruct (EllucianLoginPage.navigateToLoginPage H page url w) as [[[] | e] w1];
        cbv beta iota; [|reflexivity].
      destruct (BasePage.takeScreenshot H page "at-login-page.png" w1) as [[[] | e] w2];
        reflexivity.
    + intros p w3. unfold bind at 1.
      destruct (never_throws_unit (ellucian_tail_never_throws H page) w3) as (w4 & ->).
      exists w4. reflexivity.
Qed.

(** ** Reading the cards and the requirements *)

Section Reading.
Context {W : Type} (H : Host W) (page : PageId).

Lemma getCardContent_trimmed_result (card : ElementHandle) (w : W) :
  exists title content w',
    PortalPage.getCardContent H card w = (Ret (title, content), w')
    /\ Js.trim title = title /\ Js.trim content = content.
Proof.
  unfold PortalPage.getCardContent, try_catch, bind, trim_of, ret, throw.
  repeat run_step;
    do 3 eexists; (split; [reflexivity|]); split;
    first [apply trim_idempotent | reflexivity].
Qed.

Lemma getRequirementText_trimmed (requirement : ElementHandle) (w : W) :
  exists text w',
    RequirementsPage.getRequirementText H requirement w = (Ret text, w')
    /\ Js.trim text = text.
Proof.
  unfold RequirementsPage.getRequirementText, try_catch, bind, trim_of, ret, throw.
  repeat run_step; do 2 eexists; (split; [reflexivity|]);
    first [apply trim_idempotent | reflexivity].
Qed.

Lemma getRequirementStatus_trimmed (requirement : ElementHandle) (w : W) :
  exists status w',
    RequirementsPage.getRequirementStatus H requirement w = (Ret status, w')
    /\ Js.trim status = status.
Proof.
  unfold RequirementsPage.getRequirementStatus, try_catch, bind, trim_of, ret, throw.
  repeat run_step; do 2 eexists; (split; [reflexivity|]);
    first [apply trim_idempotent | reflexivity].
Qed.

End Reading.

(** X11. On every host, [getAllCardTitles] and [getAllCardContents] return
    one entry for each card that [getAllCards] returns from the same state,
    and [getAllRequirementTextsAndStatuses] one entry for each requirement
    that [getAllRequirements] returns: a card or requirement whose text
    cannot be read still gets its entry. *)
Theorem one_entry_per_element :
  forall (W : Type) (H : Host W) (page : PageId) (w : W),
    (exists cards w1,
        PortalPage.getAllCards H page w = (Ret cards, w1)
        /\ (exists titles w2,
               PortalPage.getAllCardTitles H page w = (Ret titles, w2)
               /\ length titles = length cards)
        /\ (exists contents w2,
               PortalPage.getAllCardContents H page w = (Ret contents, w2)
               /\ length contents = length cards))
    /\ (exists requirements w1,
           RequirementsPage.getAllRequirements H page w = (Ret requirements, w1)
           /\ exists entries w2,
               RequirementsPage.getAllRequirementTextsAndStatuses H page w = (Ret entries, w2)
               /\ length entries = length requirements).
Proof.
  intros W H page w. split.
  - destruct (portal_getAllCards_never_throws H page w) as (cards & w1 & Hcards).
    exists cards, w1. split; [exact Hcards|]. split.
    + unfold PortalPage.getAllCardTitles, bind at 1. rewrite Hcards.
      apply for_each_length. intros card.
      apply never_throws_bind; [apply getCardContent_never_throws|].
      intros c. apply never_throws_ret.
    + unfold PortalPage.getAllCardContents, bind at 1. rewrite Hcards.
      apply for_each_length. apply getCardContent_never_throws.
  - destruct (getAllRequirements_never_throws H page w) as (rs & w1 & Hrs).
    exists rs, w1. split; [exact Hrs|].
    unfold RequirementsPage.getAllRequirementTextsAndStatuses, bind at 1. rewrite Hrs.
    apply for_each_length. intros r.
    apply never_throws_bind; [apply getRequirementText_never_throws|]. intros text.
    apply never_throws_bind; [apply getRequirementStatus_never_throws|]. intros status.
    apply never_throws_ret.
Qed.

(** X12. On every host, the strings that [PortalPage.getCardContent],
    [RequirementsPage.getRequirementText] and
    [RequirementsPage.getRequirementStatus] return carry no white space at
    either end, whether they come from the page or are one of the
    placeholders: trimming them again changes nothing. *)
Theorem texts_are_returned_trimmed :
  forall (W : Type) (H : Host W) (element : ElementHandle) (w : W),
    (exists title content w',
        PortalPage.getCardContent H element w = (Ret (title, content), w')
        /\ Js.trim title = title /\ Js.trim content = content)
    /\ (exists text w',
           RequirementsPage.getRequirementText H element w = (Ret text, w')
           /\ Js.trim text = text)
    /\ (exists status w',
           RequirementsPage.getRequirementStatus H element w = (Ret status, w')
           /\ Js.trim status = status).
Proof.
  intros W H element w. split; [|split].
  - apply getCardContent_trimmed_result.
  - apply getRequirementText_trimmed.
  - apply getRequirementStatus_trimmed.
Qed.

(** ** The configuration prologue reads the environment *)



(** ** What a run leaves unchanged in the simulated world *)

Section Preserves.
Context {X : Type} (f : Sim.World -> X).

Lemma preserves_ret {A : Type} (a : A) : preserves f (ret a).
Proof. intros w. reflexivity. Qed.

Lemma preserves_throw {A : Type} (e : JsError) : preserves f (throw (A := A) e).
Proof. intros w. reflexivity. Qed.

Lemma preserves_bind {A B : Type} (m : M Sim.World A) (k : A -> M Sim.World B) :
  preserves f m -> (forall a, preserves f (k a)) -> preserves f (bind m k).
Proof.
  intros Hm Hk w. unfold bind. specialize (Hm w).
  destruct (m w) as [[a | e] w1]; simpl in *; [|exact Hm].
  rewrite Hk. exact Hm.
Qed.

Lemma preserves_try_catch {A : Type} (m : M Sim.World A) (h : JsError -> M Sim.World A) :
  preserves f m -> (forall e, preserves f (h e)) -> preserves f (try_catch m h).
Proof.
  intros Hm Hh w. unfold try_catch. specialize (Hm w).
  destruct (m w) as [[a | e] w1]; simpl in *; [exact Hm|].
  rewrite Hh. exact Hm.
Qed.

Lemma preserves_or_else {A : Type} (m k : M Sim.World (option A)) :
  preserves f m -> preserves f k -> preserves f (or_else m k).
Proof.
  intros Hm Hk. unfold or_else. apply preserves_bind; [assumption|].
  intros [v|]; [apply preserves_ret | assumption].
Qed.

Lemma preserves_for_of {A B : Type} (xs : list A) (body : A -> M Sim.World (option B)) :
  (forall x, preserves f (body x)) -> preserves f (for_of xs body).
Proof.
  intros Hbody. induction xs as [|x xs IH]; simpl.
  - apply preserves_ret.
  - apply preserves_or_else; [apply Hbody | exact IH].
Qed.

Lemma preserves_returning {A : Type} (m : M Sim.World (option A)) (d : A) :
  preserves f m -> preserves f (returning m d).
Proof.
  intros Hm. unfold returning. apply preserves_bind; [assumption|].
  intros r. apply preserves_ret.
Qed.

End Preserves.

Section PortalOnSim.
Import Sim.
Variable sc : Scenario.
Variable page : PageId.

Lemma clicks_log (a : Action) (w : World) :
  clicks (log a w) = clicks w ++ (if is_click a then [a] else []).
Proof.
  unfold clicks, log. simpl. rewrite List.filter_app. simpl.
  destruct (is_click a); reflexivity.
Qed.

Lemma takeScreenshot_preserves_clicks (path : string) :
  preserves clicks (BasePage.takeScreenshot (host sc) page path).
Proof. intros w. rewrite sim_takeScreenshot. simpl. rewrite clicks_log. apply app_nil_r. Qed.

Lemma takeScreenshot_preserves_clock (path : string) :
  preserves clock (BasePage.takeScreenshot (host sc) page path).
Proof. intros w. reflexivity. Qed.

Lemma wait_preserves_clicks (ms : Z) : preserves clicks (BasePage.wait (host sc) page ms).
Proof. intros w. rewrite sim_wait. simpl. unfold clicks. simpl.
  rewrite List.filter_app. simpl. apply app_nil_r. Qed.

Lemma waitForSelector_preserves_clicks (selector : string) (timeout : option Z) :
  preserves clicks (page_waitForSelector (host sc) page selector timeout).
Proof. intros w. rewrite sim_waitForSelector. destruct (selector_appears sc selector); reflexivity. Qed.

Lemma portal_count_loop_preserves_clicks (fuel : nat) :
  forall st, preserves clicks (PortalPage.count_loop (host sc) page fuel st).
Proof.
  induction fuel as [|fuel IH]; intros st; simpl; [apply preserves_ret|].
  destruct (_ && _); [|apply preserves_ret].
  apply preserves_bind; [apply wait_preserves_clicks|]. intros _.
  apply preserves_bind; [intros w; reflexivity|]. intros cards. apply IH.
Qed.

Lemma waitForPortalPageLoad_preserves_clicks (timeout : Z) :
  preserves clicks (PortalPage.waitForPortalPageLoad (host sc) page timeout).
Proof.
  unfold PortalPage.waitForPortalPageLoad.
  apply preserves_try_catch; [|intros e; apply takeScreenshot_preserves_clicks].
  repeat (apply preserves_bind; [apply waitForSelector_preserves_clicks|]; intros _).
  apply preserves_bind; [apply portal_count_loop_preserves_clicks|]. intros _.
  apply preserves_bind; [apply wait_preserves_clicks|]. intros _.
  apply takeScreenshot_preserves_clicks.
Qed.

Lemma portal_match_title_preserves {X : Type} (f : World -> X) (cardName : string) :
  (forall path, preserves f (BasePage.takeScreenshot (host sc) page path)) ->
  forall card, preserves f (PortalPage.match_title (host sc) page cardName card).
Proof.
  intros Hshot card. unfold PortalPage.match_title.
  apply preserves_bind; [intros w; reflexivity|]. intros [t|]; [|apply preserves_ret].
  apply preserves_bind; [intros w; reflexivity|]. intros text.
  destruct (negb _); [apply preserves_ret|].
  destruct (Js.icontains _ _); [|apply preserves_ret].
  apply preserves_bind; [intros w; reflexivity|]. intros _.
  apply preserves_bind; [apply Hshot|]. intros _. apply preserves_ret.
Qed.

Lemma portal_match_content_preserves {X : Type} (f : World -> X) (cardName : string) :
  (forall path, preserves f (BasePage.takeScreenshot (host sc) page path)) ->
  forall card, preserves f (PortalPage.match_content (host sc) page cardName card).
Proof.
  intros Hshot card. unfold PortalPage.match_content.
  apply preserves_bind; [intros w; reflexivity|]. intros text.
  destruct (negb _); [apply preserves_ret|].
  destruct (Js.icontains _ _); [|apply preserves_ret].
  apply preserves_bind; [intros w; reflexivity|]. intros _.
  apply preserves_bind; [apply Hshot|]. intros _. apply preserves_ret.
Qed.

(** The lookup of [findCard], once the page has loaded: it reads the
    document and takes screenshots, so it takes no time and clicks nothing. *)
Lemma portal_lookup_preserves {X : Type} (f : World -> X) (cardName : string) :
  (forall path, preserves f (BasePage.takeScreenshot (host sc) page path)) ->
  (forall w, f (polled w) = f w) ->
  preserves f
    (try_catch (PortalPage.findCard_body (host sc) page cardName)
       (fun error =>
          bind (BasePage.takeScreenshot (host sc) page "error-finding-card.png")
            (fun _ => ret None))).
Proof.
  intros Hshot Hpoll.
  apply preserves_try_catch.
  - unfold PortalPage.findCard_body.
    apply preserves_bind; [intros w; apply Hpoll|]. intros cards.
    apply preserves_returning.
    apply preserves_or_else;
      [apply preserves_for_of; apply portal_match_title_preserves; assumption|].
    apply preserves_or_else;
      [apply preserves_for_of; apply portal_match_content_preserves; assumption|].
    apply preserves_bind; [apply Hshot|]. intros _. apply preserves_ret.
  - intros e. apply preserves_bind; [apply Hshot|]. intros _. apply preserves_ret.
Qed.

Lemma portal_findCard_preserves_clicks (cardName : string) :
  preserves clicks (PortalPage.findCard (host sc) page cardName).
Proof.
  unfold PortalPage.findCard.
  apply preserves_bind; [apply waitForPortalPageLoad_preserves_clicks|]. intros _.
  apply portal_lookup_preserves; [apply takeScreenshot_preserves_clicks | reflexivity].
Qed.

End PortalOnSim.

(** ** How long the portal operations take on the simulated browser *)

Section PortalTimes.
Import Sim.

Lemma portal_polls_at_least (sc : Scenario) (k : nat) :
  (4 <= PortalPage.attempt
          (PortalCount.scan (portal_count sc) k PortalPage.maxAttempts PortalPage.initial))%nat.
Proof.
  destruct (portal_count_loop_sim sc 0%nat PortalPage.maxAttempts PortalPage.initial
              (mkWorld 0 k [])) as (w' & Hrun & _).
  cbn [polls] in Hrun.
  destruct (portal_count_loop_end Hrun) as (_ & [(_ & Hfour & _) | (_ & Hten)]);
    [exact Hfour | rewrite Hten; unfold PortalPage.maxAttempts; lia].
Qed.

Lemma elapsed_bind_instant {A B : Type} (m : M World A) (k : A -> M World B) (w : World) :
  (forall a, preserves clock (k a)) ->
  elapsed (bind m k) w = elapsed m w.
Proof.
  intros Hk. unfold elapsed, bind.
  destruct (m w) as [[a | e] w1]; simpl; [|reflexivity].
  rewrite Hk. reflexivity.
Qed.

End PortalTimes.

(** X2. On the simulated browser, once the three selectors of the portal
    are present, [waitForPortalPageLoad] takes between 6000 and 12000 ms
    whatever its timeout and whatever the page shows: the loop cannot see a
    stable count before its fourth poll.  [findCard] and [getAllCards] take
    exactly the time of that wait, since all they do afterwards is read the
    document, so every lookup of a card costs at least six seconds. *)
Theorem portal_lookup_takes_six_to_twelve_seconds :
  forall (sc : Sim.Scenario) (page : PageId) (cardName : string) (timeout : Z)
         (w : Sim.World),
    let present := Scenarios.with_selector_appears (fun _ => true) sc in
    (6000 <= Sim.elapsed (PortalPage.waitForPortalPageLoad (Sim.host present) page timeout) w
     <= 12000)%Z
    /\ Sim.elapsed (PortalPage.findCard (Sim.host present) page cardName) w
       = Sim.elapsed (PortalPage.waitForPortalPageLoad (Sim.host present) page 30000) w
    /\ Sim.elapsed (PortalPage.getAllCards (Sim.host present) page) w
       = Sim.elapsed (PortalPage.waitForPortalPageLoad (Sim.host present) page 30000) w.
Proof.
  intros sc page cardName timeout w present. split; [|split].
  - unfold present. rewrite portal_wait_elapsed.
    pose proof (portal_polls_at_least sc (Sim.polls w)).
    pose proof (portal_polls_bounded (portal_count sc) (Sim.polls w)).
    unfold PortalPage.maxAttempts in *. lia.
  - unfold PortalPage.findCard. apply elapsed_bind_instant. intros _.
    apply portal_lookup_preserves; [intros path w0; reflexivity | reflexivity].
  - unfold PortalPage.getAllCards. apply elapsed_bind_instant. intros _.
    apply preserves_try_catch; [intros w0; reflexivity|].
    intros e. apply preserves_ret.
Qed.

(** X3. On the simulated browser, when one of the three selectors of the
    portal never appears, [waitForPortalPageLoad] gives up after a third of
    its timeout: it does not poll the cards at all, takes the screenshot
    portal-page-load-error.png and nothing else, and returns normally.  The
    timeout is a positive number of milliseconds that 3 divides and that
    JavaScript represents exactly, so that [timeout / 3] is the value the
    code passes to each wait. *)
Theorem portal_wait_gives_up_without_polling :
  forall (sc : Sim.Scenario) (page : PageId) (timeout : Z) (w : Sim.World),
    (0 < timeout <= 9007199254740991)%Z ->
    (timeout mod 3 = 0)%Z ->
    Sim.selector_appears sc PortalPage.mainContentSelector
    && Sim.selector_appears sc PortalPage.cardsContainerSelector
    && Sim.selector_appears sc PortalPage.cardSelector = false ->
    let run := PortalPage.waitForPortalPageLoad (Sim.host sc) page timeout in
    Sim.result run w = Ret tt
    /\ (3 * Sim.elapsed run w = timeout)%Z
    /\ Sim.polls (snd (run w)) = Sim.polls w
    /\ Sim.added run w = [Sim.Screenshot "portal-page-load-error.png"].
Proof.
  intros sc page timeout w Hrange Hthree Hmissing run.
  assert (Hrun : run w = (Ret tt, Sim.log (Sim.Screenshot "portal-page-load-error.png")
                                    (Sim.advance (timeout / 3) w))).
  { unfold run, PortalPage.waitForPortalPageLoad, try_catch.
    unfold bind at 1. rewrite sim_waitForSelector.
    destruct (Sim.selector_appears sc PortalPage.mainContentSelector);
      simpl in Hmissing; cbv beta iota; [|reflexivity].
    unfold bind at 1. rewrite sim_waitForSelector.
    destruct (Sim.selector_appears sc PortalPage.cardsContainerSelector);
      simpl in Hmissing; cbv beta iota; [|reflexivity].
    unfold bind at 1. rewrite sim_waitForSelector, Hmissing. reflexivity. }
  unfold Sim.result, Sim.elapsed, Sim.added. rewrite Hrun. simpl.
  rewrite drop_app_length.
  pose proof (Z.div_mod timeout 3 ltac:(lia)) as Hdiv.
  repeat split; lia.
Qed.

Lemma portal_wait_gives_up_without_polling_witness :
  let sc := Scenarios.with_selector_appears
              (fun s => String.eqb s PortalPage.mainContentSelector) Scenarios.blank in
  let run := PortalPage.waitForPortalPageLoad (Sim.host sc) 0 30000 in
  Sim.result run Sim.start = Ret tt
  /\ (3 * Sim.elapsed run Sim.start = 30000)%Z
  /\ Sim.polls (snd (run Sim.start)) = Sim.polls Sim.start
  /\ Sim.added run Sim.start = [Sim.Screenshot "portal-page-load-error.png"].
Proof.
  apply (@portal_wait_gives_up_without_polling
           (Scenarios.with_selector_appears
              (fun s => String.eqb s PortalPage.mainContentSelector) Scenarios.blank)
           0%nat 30000%Z Sim.start); [lia | reflexivity | reflexivity].
Defined.

(** ** What the click operations of PortalPage click *)

Section PortalClicks.
Import Sim.
Variable sc : Scenario.
Variable page : PageId.

Lemma clicks_advance (ms : Z) (w : World) : clicks (advance ms w) = clicks w.
Proof. reflexivity. Qed.

Ltac clicks_norm :=
  repeat (rewrite clicks_log || rewrite clicks_advance);
  cbn [is_click]; rewrite ?app_nil_r.

Lemma click_matching_button_sim (text : string) (button : ElementHandle) (w : World) :
  PortalPage.click_matching_button (host sc) page text button w
  = if Resolver.content_hit sc text button then
      let shot := log (Screenshot (Js.slug text +:+ "-button-found.png")) w in
      let clicked := log (ClickElement button true) shot in
      if click_fails sc button then (Raise ClickError, clicked)
      else (Ret (Some true), advance 1000 (log (WaitForTimeout 1000) clicked))
    else (Ret None, w).
Proof.
  unfold PortalPage.click_matching_button, Resolver.content_hit, bind. simpl.
  destruct (text_of sc button) as [[|c s]|]; simpl; try reflexivity.
  destruct (Js.icontains (String c s) text); [|reflexivity].
  destruct (click_fails sc button); reflexivity.
Qed.

Lemma portal_click_loop (text : string) :
  forall (buttons : list ElementHandle) (w : World),
    let r := for_of buttons (PortalPage.click_matching_button (host sc) page text) w in
    match List.find (Resolver.content_hit sc text) buttons with
    | Some button =>
        fst r = (if click_fails sc button then Raise ClickError else Ret (Some true))
        /\ clicks (snd r) = clicks w ++ [ClickElement button true]
    | None => fst r = Ret None /\ clicks (snd r) = clicks w
    end.
Proof.
  induction buttons as [|b bs IH]; intros w.
  - split; reflexivity.
  - assert (Hstep :
      for_of (b :: bs) (PortalPage.click_matching_button (host sc) page text) w
      = if Resolver.content_hit sc text b then
          PortalPage.click_matching_button (host sc) page text b w
        else for_of bs (PortalPage.click_matching_button (host sc) page text) w).
    { cbn [for_of]. unfold or_else, bind at 1. rewrite click_matching_button_sim.
      destruct (Resolver.content_hit sc text b); [|reflexivity].
      cbv zeta. destruct (click_fails sc b); reflexivity. }
    cbv zeta. rewrite Hstep. cbn [List.find].
    destruct (Resolver.content_hit sc text b) eqn:Hhit; [|apply IH].
    rewrite click_matching_button_sim, Hhit.
    cbv zeta. destruct (click_fails sc b); cbn [fst snd]; (split; [reflexivity|]);
      clicks_norm; reflexivity.
Qed.

Lemma click_page_button_sim (text : string) (w : World) :
  PortalPage.click_page_button (host sc) page text w
  = match regexp_error sc text with
    | Some e => (Raise e, w)
    | None =>
        let buttons := getByRole "button" (Some text) in
        match locator_matches sc buttons with
        | [] => (Ret None, w)
        | _ :: _ =>
            (Ret (Some true),
             advance 1000
               (log (WaitForTimeout 1000)
                  (log (ClickLocator (first buttons))
                     (log (Screenshot (Js.slug text +:+ "-button-found.png")) w))))
        end
    end.
Proof.
  unfold PortalPage.click_page_button, new_RegExp, bind. simpl.
  destruct (regexp_error sc text); [reflexivity|]. simpl.
  destruct (locator_matches sc (getByRole "button" (Some text))); reflexivity.
Qed.

(** [clickCardButton] from the point where [findCard] has returned a card. *)
Lemma portal_click_on_card (cardName : string) (card : ElementHandle)
    (buttonText : option string) (clickCardIfNoButton : bool) (w : World) :
  let target := ButtonResolver.portal sc card buttonText clickCardIfNoButton in
  exists w',
    try_catch
      (returning
         ((if Js.truthy buttonText then
             let buttonText := default "" buttonText in
             cardButtons <- el_queryAll (host sc) card PortalPage.cardButtonSelector ;;
             for_of cardButtons (PortalPage.click_matching_button (host sc) page buttonText) ;;?
             PortalPage.click_page_button (host sc) page buttonText
           else
             cardButtons <- el_queryAll (host sc) card PortalPage.cardButtonSelector ;;
             match cardButtons with
             | button0 :: _ =>
                 el_scrollIntoViewIfNeeded (host sc) button0 ;;
                 BasePage.takeScreenshot (host sc) page "card-button-found.png" ;;
                 el_click (host sc) button0 true ;;
                 BasePage.wait (host sc) page 1000 ;;
                 ret (Some true)
             | [] => ret None
             end) ;;?
          (if clickCardIfNoButton then
             el_scrollIntoViewIfNeeded (host sc) card ;;
             BasePage.takeScreenshot (host sc) page (Js.slug cardName +:+ "-card-click.png") ;;
             el_click (host sc) card true ;;
             BasePage.wait (host sc) page 1000 ;;
             ret (Some true)
           else ret None) ;;?
          (BasePage.takeScreenshot (host sc) page "button-not-found.png" ;; ret None))
         false)
      (fun error =>
         BasePage.takeScreenshot (host sc) page "error-clicking-button.png" ;; ret false)
      w
    = (Ret (ButtonResolver.succeeds sc target), w')
    /\ clicks w' = clicks w ++ option_list target.
Proof.
  intros target. subst target. unfold ButtonResolver.portal.
  assert (Hfallback :
    forall w0,
      let fallback := if clickCardIfNoButton then Some (ClickElement card true) else None in
      exists w',
        try_catch
          (returning
             (or_else
                (if clickCardIfNoButton then
                   el_scrollIntoViewIfNeeded (host sc) card ;;
                   BasePage.takeScreenshot (host sc) page
                     (Js.slug cardName +:+ "-card-click.png") ;;
                   el_click (host sc) card true ;;
                   BasePage.wait (host sc) page 1000 ;;
                   ret (Some true)
                 else ret None)
                (BasePage.takeScreenshot (host sc) page "button-not-found.png" ;; ret None))
             false)
          (fun error =>
             BasePage.takeScreenshot (host sc) page "error-clicking-button.png" ;; ret false)
          w0
        = (Ret (ButtonResolver.succeeds sc fallback), w')
        /\ clicks w' = clicks w0 ++ option_list fallback).
  { intros w0. destruct clickCardIfNoButton; cbv zeta.
    - unfold try_catch, returning, or_else, bind. simpl.
      destruct (click_fails sc card); simpl; eexists; (split; [reflexivity|]);
        clicks_norm; reflexivity.
    - unfold try_catch, returning, or_else, bind. simpl. eexists. split; [reflexivity|].
      clicks_norm. reflexivity. }
  destruct (Js.truthy buttonText); cbv zeta.
  - set (text := default "" buttonText).
    set (buttons := sub_select_all sc card PortalPage.cardButtonSelector).
    pose proof (portal_click_loop text buttons w) as Hloop. cbv zeta in Hloop.
    unfold try_catch at 1, returning at 1, bind at 1, or_else at 1, bind at 1,
      bind at 1, or_else at 1, bind at 1.
    change (el_queryAll (host sc) card PortalPage.cardButtonSelector w)
      with (Ret buttons, w). cbv beta iota.
    destruct (for_of buttons (PortalPage.click_matching_button (host sc) page text) w)
      as [[[v|] | e] w1] eqn:Hrun; cbn [fst snd] in Hloop;
      destruct (List.find (Resolver.content_hit sc text) buttons) as [button|];
      destruct Hloop as (Hres & Hclicks).
    all: try (destruct (click_fails sc button); discriminate).
    all: try discriminate.
    + destruct (click_fails sc button) eqn:Hfails; [discriminate|].
      injection Hres as ->.
      simpl. rewrite Hfails. eexists. split; [reflexivity | exact Hclicks].
    + rewrite click_page_button_sim. cbv zeta.
      destruct (regexp_error sc text) as [e|].
      { simpl. eexists. split; [reflexivity|]. clicks_norm. exact Hclicks. }
      destruct (locator_matches sc (getByRole "button" (Some text))) as [|e0 l0].
      * destruct (Hfallback w1) as (w' & Heq & Hw'). exists w'.
        unfold try_catch, returning, or_else, bind in Heq |- *.
        cbv beta iota. rewrite <- Hclicks. split; assumption.
      * simpl. eexists. split; [reflexivity|]. clicks_norm. rewrite Hclicks. reflexivity.
    + destruct (click_fails sc button) eqn:Hfails; [|discriminate].
      simpl. rewrite Hfails. eexists. split; [reflexivity|]. clicks_norm. exact Hclicks.
  - unfold try_catch at 1, returning at 1, bind at 1, or_else at 1, bind at 1, bind at 1.
    change (el_queryAll (host sc) card PortalPage.cardButtonSelector w)
      with (Ret (sub_select_all sc card PortalPage.cardButtonSelector), w).
    cbv beta iota.
    destruct (sub_select_all sc card PortalPage.cardButtonSelector) as [|button0 rest].
    + destruct (Hfallback w) as (w' & Heq & Hw'). exists w'.
      unfold try_catch, returning, or_else, bind in Heq |- *.
      split; assumption.
    + unfold bind. simpl. destruct (click_fails sc button0); simpl; eexists;
        (split; [reflexivity|]); clicks_norm; reflexivity.
Qed.

End PortalClicks.

(** X5. On the simulated browser, [PortalPage.clickCard] clicks exactly the
    card that [findCard] resolves the name to, once, with a forced click, and
    returns whether that click went through; when no card matches it clicks
    nothing and returns false. *)
Theorem portal_clickCard_clicks_the_card_found :
  forall (sc : Sim.Scenario) (page : PageId) (cardName : string) (w : Sim.World),
  exists w1 w',
    PortalPage.waitForPortalPageLoad (Sim.host sc) page 30000 w = (Ret tt, w1)
    /\ let found :=
         Resolver.portal sc (Sim.select_all sc (Sim.polls w1) PortalPage.cardSelector)
           cardName in
       let target := option_map (fun card => Sim.ClickElement card true) found in
       PortalPage.clickCard (Sim.host sc) page cardName w
       = (Ret (ButtonResolver.succeeds sc target), w')
       /\ clicks w' = clicks w ++ option_list target.
Proof.
  intros sc page cardName w.
  destruct (portal_findCard_sim sc page cardName w) as (w1 & w2 & Hwait & Hfind).
  pose proof (portal_findCard_preserves_clicks sc page cardName w) as Hclicks.
  rewrite Hfind in Hclicks. cbn [snd] in Hclicks.
  exists w1. unfold PortalPage.clickCard, PortalPage.clickCard_body.
  unfold try_catch at 1, bind at 1. rewrite Hfind. cbv beta iota zeta.
  destruct (Resolver.portal sc _ cardName) as [card|]; cbn [option_map option_list].
  - unfold bind. simpl. destruct (Sim.click_fails sc card); simpl; eexists;
      (split; [exact Hwait|]); (split; [reflexivity|]);
      rewrite ?clicks_log, ?clicks_advance; cbn [is_click]; rewrite ?app_nil_r;
      rewrite ?clicks_log, ?clicks_advance; cbn [is_click]; rewrite ?app_nil_r;
      rewrite ?clicks_log, ?clicks_advance; cbn [is_click]; rewrite ?app_nil_r;
      rewrite Hclicks; reflexivity.
  - exists w2. split; [exact Hwait|]. split; [reflexivity|].
    rewrite app_nil_r. exact Hclicks.
Qed.

(** X6. On the simulated browser, [PortalPage.clickCardButton] makes at
    most one click, on the target that the card found and its arguments
    determine: the first button of the card whose text contains the button
    text, else the first button of the page with that name, else (when
    [clickCardIfNoButton] is set) the card itself; without a button text, the
    first button of the card or else the card.  It returns true exactly when
    there is such a target and its click goes through.  When the card is not
    found, or when the button text matches no button of the card and is no
    regular expression, nothing is clicked, whatever the flag. *)
Theorem portal_clickCardButton_clicks_its_target :
  forall (sc : Sim.Scenario) (page : PageId) (cardName : string)
         (buttonText : option string) (clickCardIfNoButton : bool) (w : Sim.World),
  exists w1 w',
    PortalPage.waitForPortalPageLoad (Sim.host sc) page 30000 w = (Ret tt, w1)
    /\ let found :=
         Resolver.portal sc (Sim.select_all sc (Sim.polls w1) PortalPage.cardSelector)
           cardName in
       let target :=
         match found with
         | Some card => ButtonResolver.portal sc card buttonText clickCardIfNoButton
         | None => None
         end in
       PortalPage.clickCardButton (Sim.host sc) page cardName buttonText clickCardIfNoButton w
       = (Ret (ButtonResolver.succeeds sc target), w')
       /\ clicks w' = clicks w ++ option_list target.
Proof.
  intros sc page cardName buttonText clickCardIfNoButton w.
  destruct (portal_findCard_sim sc page cardName w) as (w1 & w2 & Hwait & Hfind).
  pose proof (portal_findCard_preserves_clicks sc page cardName w) as Hclicks.
  rewrite Hfind in Hclicks. cbn [snd] in Hclicks.
  exists w1. unfold PortalPage.clickCardButton, PortalPage.clickCardButton_body.
  unfold try_catch at 1, bind at 1. rewrite Hfind. cbv beta iota zeta.
  destruct (Resolver.portal sc _ cardName) as [card|].
  - destruct (portal_click_on_card sc page cardName card buttonText clickCardIfNoButton w2)
      as (w' & Heq & Hw').
    exists w'. split; [exact Hwait|]. split; [exact Heq|].
    rewrite Hw', Hclicks. reflexivity.
  - exists w2. split; [exact Hwait|]. split; [reflexivity|].
    cbn [option_list]. rewrite app_nil_r. exact Hclicks.
Qed.

Section FindFacts.
Context {A : Type}.

Lemma find_pointwise (f g : A -> bool) (l : list A) :
  (forall x, f x = g x) -> List.find f l = List.find g l.
Proof.
  intros Hfg. induction l as [|x l IH]; simpl; [reflexivity|].
  rewrite Hfg, IH. reflexivity.
Qed.

End FindFacts.

(** X15. On the simulated browser, [PortalPage.findCard] called with the
    empty name does not come back empty-handed: every text contains the
    empty string, so it returns the first card that has a title with some
    text, or else the first card with some text at all. *)
Theorem portal_findCard_empty_name :
  forall (sc : Sim.Scenario) (page : PageId) (w : Sim.World),
  exists w1,
    PortalPage.waitForPortalPageLoad (Sim.host sc) page 30000 w = (Ret tt, w1)
    /\ let cards := Sim.select_all sc (Sim.polls w1) PortalPage.cardSelector in
       Sim.result (PortalPage.findCard (Sim.host sc) page "") w
       = Ret (match List.find (has_title sc) cards with
              | Some card => Some card
              | None => List.find (fun card => Js.truthy (Sim.text_of sc card)) cards
              end).
Proof.
  intros sc page w.
  destruct (portal_findCard_sim sc page "" w) as (w1 & w2 & Hwait & Hfind).
  exists w1. split; [exact Hwait|]. cbv zeta. unfold Sim.result. rewrite Hfind.
  cbn [fst]. unfold Resolver.portal. f_equal.
  rewrite (@find_pointwise _ (Resolver.title_hit sc PortalPage.cardTitleSelector "")
             (has_title sc)).
  2: { intros card. unfold Resolver.title_hit, has_title.
       destruct (Sim.sub_select sc card PortalPage.cardTitleSelector); [|reflexivity].
       rewrite icontains_empty. apply andb_true_r. }
  rewrite (@find_pointwise _ (Resolver.content_hit sc "")
             (fun card => Js.truthy (Sim.text_of sc card))).
  2: { intros card. unfold Resolver.content_hit.
       rewrite icontains_empty. apply andb_true_r. }
  reflexivity.
Qed.

(** ** The page checks of DashboardPage and RequirementsPage *)

(** X10. On the simulated browser, [waitForRequirementsPageLoad] returns
    true exactly when the content selector of the requirements page appears.
    Load states that are not reached, a missing header, a header without
    text and a missing list do not change the result. *)
Theorem requirements_load_depends_on_content_only :
  forall (sc : Sim.Scenario) (page : PageId) (timeout : Z) (w : Sim.World),
    Sim.result (RequirementsPage.waitForRequirementsPageLoad (Sim.host sc) page timeout) w
    = Ret (Sim.selector_appears sc RequirementsPage.requirementsContentSelector).
Proof.
  intros sc page timeout w.
  unfold Sim.result, RequirementsPage.waitForRequirementsPageLoad,
    BasePage.waitForLoadState, try_catch, bind, trim_of.
  simpl. unfold Sim.await_condition.
  destruct (Sim.load_state_reached sc page "domcontentloaded"); simpl;
    destruct (Sim.load_state_reached sc page "networkidle"); simpl;
    destruct (Sim.selector_appears sc RequirementsPage.requirementsContentSelector);
    simpl; try reflexivity;
    (destruct (Sim.select sc RequirementsPage.requirementsHeaderSelector) as [h|]; simpl;
     [destruct (Sim.text_of sc h); simpl|]);
    destruct (Sim.selector_appears sc RequirementsPage.requirementsListSelector);
    reflexivity.
Qed.

(** X13. On the simulated browser, [isDashboardLoaded] returns true exactly
    when the content selector of the dashboard matches, or the title of the
    page contains Dashboard, Portal or Ellucian, or the body of the page has
    any text at all: every page that shows some text counts as a loaded
    dashboard. *)
Theorem dashboard_loaded_on_any_text :
  forall (sc : Sim.Scenario) (page : PageId) (w : Sim.World),
    Sim.result (DashboardPage.isDashboardLoaded (Sim.host sc) page) w
    = Ret (match Sim.select sc DashboardPage.dashboardContentSelector with
           | Some _ => true
           | None =>
               Js.includes (Sim.title sc) "Dashboard"
               || Js.includes (Sim.title sc) "Portal"
               || Js.includes (Sim.title sc) "Ellucian"
               || Js.truthy (Some (Sim.body_text sc))
           end).
Proof.
  intros sc page w.
  unfold Sim.result, DashboardPage.isDashboardLoaded, returning, or_else, try_catch, bind.
  simpl.
  destruct (Sim.select sc DashboardPage.dashboardContentSelector); [reflexivity|].
  destruct (Sim.title sc) as [|c t]; [simpl; destruct (Sim.body_text sc); reflexivity|].
  cbn [Js.truthy andb].
  destruct (Js.includes (String c t) "Dashboard" || Js.includes (String c t) "Portal"
            || Js.includes (String c t) "Ellucian"); simpl; [reflexivity|].
  destruct (Sim.body_text sc); reflexivity.
Qed.

(** ** An upper bound on the waits of the dashboard *)

Section Within.
Import Sim.

Lemma within_ret {A : Type} (a : A) : within 0 (ret a).
Proof. split; [lia|]. intros w. simpl. lia. Qed.

Lemma within_weaken {A : Type} (d d' : Z) (m : M World A) :
  within d m -> (d <= d')%Z -> within d' m.
Proof. intros [Hd Hm] Hle. split; [lia|]. intros w. specialize (Hm w). lia. Qed.

Lemma within_bind {A B : Type} (d1 d2 : Z) (m : M World A) (k : A -> M World B) :
  within d1 m -> (0 <= d2)%Z -> (forall a, within d2 (k a)) -> within (d1 + d2) (bind m k).
Proof.
  intros [Hd1 Hm] Hd2 Hk. split; [lia|]. intros w. unfold bind. specialize (Hm w).
  destruct (m w) as [[a | e] w1]; simpl in *; [|lia].
  destruct (Hk a) as [_ Hka]. specialize (Hka w1). lia.
Qed.

Lemma within_try_catch {A : Type} (d1 d2 : Z) (m : M World A) (h : JsError -> M World A) :
  within d1 m -> (forall e, within d2 (h e)) -> within (d1 + d2) (try_catch m h).
Proof.
  intros [Hd1 Hm] Hh. pose proof (Hh (mkError "" "")) as [Hd2 _].
  split; [lia|]. intros w. unfold try_catch. specialize (Hm w).
  destruct (m w) as [[a | e] w1]; simpl in *; [lia|].
  destruct (Hh e) as [_ He]. specialize (He w1). lia.
Qed.

Lemma within_if {A : Type} (d1 d2 : Z) (b : bool) (m1 m2 : M World A) :
  within d1 m1 -> within d2 m2 -> within (Z.max d1 d2) (if b then m1 else m2).
Proof.
  intros H1 H2. destruct b; [apply (within_weaken H1) | apply (within_weaken H2)]; lia.
Qed.

Variable sc : Scenario.
Variable page : PageId.

Lemma wait_within (ms : Z) :
  within (Z.max 0 (Z.min ms 5000)) (BasePage.wait (host sc) page ms).
Proof. split; [lia|]. intros w. rewrite sim_wait. simpl. lia. Qed.

Lemma takeScreenshot_within (path : string) :
  within 0 (BasePage.takeScreenshot (host sc) page path).
Proof. split; [lia|]. intros w. rewrite sim_takeScreenshot. simpl. lia. Qed.

Lemma waitForSelector_within (selector : string) (timeout : Z) :
  within (Z.max 0 timeout) (page_waitForSelector (host sc) page selector (Some timeout)).
Proof.
  split; [lia|]. intros w. rewrite sim_waitForSelector.
  destruct (selector_appears sc selector); simpl; lia.
Qed.

Lemma waitForLoadState_within (state : string) (timeout : Z) :
  within (Z.max 0 timeout) (BasePage.waitForLoadState (host sc) page state timeout).
Proof.
  split; [lia|]. intros w. unfold BasePage.waitForLoadState, try_catch, bind. simpl.
  unfold await_condition. destruct (load_state_reached sc page state); simpl; lia.
Qed.

Lemma queryAll_within (selector : string) :
  within 0 (page_queryAll (host sc) page selector).
Proof. split; [lia|]. intros w. simpl. lia. Qed.

Lemma checkTimeout_within (startTime timeout : Z) :
  within 0 (DashboardPage.checkTimeout (host sc) startTime timeout).
Proof. split; [lia|]. intros w. simpl. lia. Qed.

Lemma dashboard_count_loop_within (startTime timeout : Z) (remaining : nat) :
  forall st,
    within (1000 * Z.of_nat remaining)
      (DashboardPage.count_loop (host sc) page startTime timeout remaining st).
Proof.
  induction remaining as [|remaining IH]; intros st.
  - apply within_ret.
  - assert (Hcontinue : forall st0,
      within (1000 * Z.of_nat (S remaining))
        (bind (BasePage.wait (host sc) page 1000)
           (fun _ => bind (page_queryAll (host sc) page DashboardPage.dashboardCardSelector)
              (fun cards' =>
                 DashboardPage.count_loop (host sc) page startTime timeout remaining
                   (DashboardPage.mkCount cards' (DashboardPage.previousCardCount st0)
                      (DashboardPage.stableCount st0)))))).
    { intros st0.
      eapply within_weaken.
      - apply within_bind; [apply wait_within | | intros _].
        2: { apply within_bind; [apply queryAll_within | | intros cards'; apply IH]. lia. }
        lia.
      - simpl Z.min. lia. }
    assert (Hstop : forall x : DashboardPage.CountState * DashboardPage.LoopExit,
               within (1000 * Z.of_nat (S remaining)) (ret (W := World) x)).
    { intros x. eapply within_weaken; [apply within_ret | lia]. }
    cbn [DashboardPage.count_loop].
    replace (1000 * Z.of_nat (S remaining))%Z
      with (0 + 1000 * Z.of_nat (S remaining))%Z by lia.
    apply within_bind; [apply checkTimeout_within | lia |].
    intros expired. destruct expired; [apply Hstop|].
    destruct (_ =? _)%nat.
    + destruct (2 <=? _)%nat; [apply Hstop | apply Hcontinue].
    + apply Hcontinue.
Qed.

Lemma wait_for_cards_within (startTime timeout : Z) :
  within 14000 (DashboardPage.wait_for_cards (host sc) page startTime timeout).
Proof.
  unfold DashboardPage.wait_for_cards.
  eapply within_weaken.
  - apply within_try_catch; [|intros e; apply takeScreenshot_within].
    apply within_bind;
      [apply within_try_catch; [apply waitForSelector_within | intros e; apply within_ret]
      | | intros _].
    2: { apply within_bind; [apply queryAll_within | | intros cards0].
         2: { apply within_bind; [apply dashboard_count_loop_within | | intros _].
              2: { apply within_bind; [apply checkTimeout_within | | intros expired].
                   2: { apply within_if; [apply within_ret|].
                        apply within_bind; [apply wait_within | | intros _].
                        2: { apply within_bind; [apply checkTimeout_within | | intros e2].
                             2: { apply within_if; [|apply within_ret].
                                  apply within_bind; [apply queryAll_within | | intros imgs].
                                  2: { apply within_if; [apply wait_within | apply within_ret]. }
                                  simpl; lia. }
                             simpl; lia. }
                        simpl; lia. }
                   simpl; lia. }
              simpl; lia. }
         simpl; lia. }
    simpl; lia.
  - unfold DashboardPage.maxAttempts. simpl. lia.
Qed.

End Within.

(** X17. On the simulated browser, [waitForDashboardPageLoad] returns within
    64000 ms of waiting whatever its timeout and whatever the page does: each
    of its waits has a bound of its own (15 s for either load state, 10 s for
    either container, 5 s for a first card, five polls of 1 s, twice 2 s at
    the end).  The bound is reached, with a timeout of 100000 ms, on a page
    where nothing appears and the number of cards keeps changing. *)
Theorem dashboard_wait_bounded :
  forall (sc : Sim.Scenario) (page : PageId) (timeout : Z),
    within 64000 (DashboardPage.waitForDashboardPageLoad (Sim.host sc) page timeout)
    /\ Sim.elapsed (DashboardPage.waitForDashboardPageLoad (Sim.host slow_dashboard) page 100000)
         Sim.start = 64000%Z.
Proof.
  intros sc page timeout. split; [|vm_compute; reflexivity].
  split; [lia|]. intros w.
  unfold DashboardPage.waitForDashboardPageLoad. cbv zeta.
  set (startTime := date_now (Sim.host sc) w).
  assert (Hrun : within 64000
    (try_catch
       (try_catch
          (_ <- BasePage.waitForLoadState (Sim.host sc) page "domcontentloaded" 15000 ;;
           _ <- BasePage.waitForLoadState (Sim.host sc) page "networkidle" 15000 ;;
           ret tt)
          (fun loadError => ret tt) ;;
        BasePage.takeScreenshot (Sim.host sc) page "dashboard-initial-load.png" ;;
        try_catch
          (page_waitForSelector (Sim.host sc) page DashboardPage.dashboardContentSelector
             (Some 10000%Z))
          (fun error =>
             BasePage.takeScreenshot (Sim.host sc) page "dashboard-content-not-found.png") ;;
        try_catch
          (page_waitForSelector (Sim.host sc) page DashboardPage.dashboardContainerSelector
             (Some 10000%Z))
          (fun error =>
             BasePage.takeScreenshot (Sim.host sc) page "dashboard-container-not-found.png") ;;
        DashboardPage.wait_for_cards (Sim.host sc) page startTime timeout ;;
        BasePage.takeScreenshot (Sim.host sc) page "dashboard-fully-loaded.png")
       (fun error =>
          BasePage.takeScreenshot (Sim.host sc) page "dashboard-page-load-error.png"))).
  { eapply within_weaken.
    - apply within_try_catch; [|intros e; apply takeScreenshot_within].
      apply within_bind; [| |intros _].
      + apply within_try_catch; [|intros e; apply within_ret].
        apply within_bind; [apply waitForLoadState_within | | intros _].
        2: { apply within_bind; [apply waitForLoadState_within | | intros _; apply within_ret].
             lia. }
        lia.
      + instantiate (1 := 34000%Z). lia.
      + eapply within_weaken.
        * apply within_bind; [apply takeScreenshot_within | | intros _].
          2: { apply within_bind; [| |intros _].
               - apply within_try_catch;
                   [apply waitForSelector_within | intros e; apply takeScreenshot_within].
               - instantiate (1 := 24000%Z). lia.
               - eapply within_weaken.
                 + apply within_bind; [| |intros _].
                   * apply within_try_catch;
                       [apply waitForSelector_within | intros e; apply takeScreenshot_within].
                   * instantiate (1 := 14000%Z). lia.
                   * eapply within_weaken.
                     -- apply within_bind;
                          [apply wait_for_cards_within | | intros _; apply takeScreenshot_within].
                        lia.
                     -- lia.
                 + lia. }
          lia.
        * lia.
    - lia. }
  apply Hrun.
Qed.

(** ** What clickCard of DashboardPage clicks *)

Section DashboardClicks.
Import Sim.
Variable sc : Scenario.
Variable page : PageId.

Lemma dashboard_findCard_preserves_clicks (cardName : string) :
  preserves clicks (DashboardPage.findCard (host sc) page cardName).
Proof.
  assert (Hshot : forall path, preserves clicks (BasePage.takeScreenshot (host sc) page path))
    by apply takeScreenshot_preserves_clicks.
  unfold DashboardPage.findCard.
  apply preserves_try_catch.
  2: { intros e. apply preserves_bind; [apply Hshot|]. intros _. apply preserves_ret. }
  unfold DashboardPage.findCard_body.
  apply preserves_bind; [intros w; reflexivity|]. intros cards.
  apply preserves_returning. repeat apply preserves_or_else.
  - apply preserves_for_of. intros card. unfold DashboardPage.match_title.
    apply preserves_bind; [intros w; reflexivity|]. intros [t|]; [|apply preserves_ret].
    apply preserves_bind; [intros w; reflexivity|]. intros text.
    destruct (negb _); [apply preserves_ret|].
    destruct (Js.icontains _ _); [|apply preserves_ret].
    apply preserves_bind; [intros w; reflexivity|]. intros _.
    apply preserves_bind; [apply Hshot|]. intros _. apply preserves_ret.
  - apply preserves_for_of. intros card. unfold DashboardPage.match_content.
    apply preserves_bind; [intros w; reflexivity|]. intros text.
    destruct (negb _); [apply preserves_ret|].
    destruct (Js.icontains _ _); [|apply preserves_ret].
    apply preserves_bind; [intros w; reflexivity|]. intros _.
    apply preserves_bind; [apply Hshot|]. intros _. apply preserves_ret.
  - unfold DashboardPage.match_page_text, new_RegExp.
    apply preserves_bind.
    { simpl. destruct (regexp_error sc cardName); [apply preserves_throw | apply preserves_ret]. }
    intros _. apply preserves_bind; [intros w; reflexivity|]. intros n.
    destruct (0 <? n)%nat; [|apply preserves_ret].
    apply preserves_bind; [intros w; reflexivity|]. intros _.
    apply preserves_bind.
    { intros w. simpl. destruct (take 1 (locator_matches sc (getByText cardName)));
        reflexivity. }
    intros _. apply preserves_bind; [apply Hshot|]. intros _. apply preserves_ret.
  - apply preserves_bind; [apply Hshot|]. intros _. apply preserves_ret.
Qed.

End DashboardClicks.

(** X18. On the simulated browser, [DashboardPage.clickCard] clicks exactly
    what [findCard] resolves the name to, once: the card found by its title
    or content, or else the first element of the page whose text matches the
    name.  It returns whether that click went through, and clicks nothing and
    returns false when nothing matches. *)
Theorem dashboard_clickCard_clicks_the_card_found :
  forall (sc : Sim.Scenario) (page : PageId) (cardName : string) (w : Sim.World),
  exists w',
    let found :=
      Resolver.dashboard sc
        (Sim.select_all sc (Sim.polls w) DashboardPage.dashboardCardSelector) cardName in
    let target := option_map card_click found in
    DashboardPage.clickCard (Sim.host sc) page cardName w
    = (Ret (ButtonResolver.succeeds sc target), w')
    /\ clicks w' = clicks w ++ option_list target.
Proof.
  intros sc page cardName w.
  destruct (dashboard_findCard_sim sc page cardName w) as (w2 & Hfind).
  pose proof (dashboard_findCard_preserves_clicks sc page cardName w) as Hclicks.
  rewrite Hfind in Hclicks. cbn [snd] in Hclicks.
  unfold DashboardPage.clickCard, DashboardPage.clickCard_body.
  unfold try_catch at 1, bind at 1. rewrite Hfind. cbv beta iota zeta.
  unfold Resolver.dashboard, Resolver.page_text.
  destruct (List.find (Resolver.title_hit sc DashboardPage.cardTitleSelector cardName) _)
    as [card|].
  { unfold bind. simpl. destruct (Sim.click_fails sc card); simpl; eexists;
      (split; [reflexivity|]);
      repeat (rewrite ?clicks_log, ?clicks_advance; cbn [is_click]; rewrite ?app_nil_r);
      rewrite Hclicks; reflexivity. }
  destruct (List.find (Resolver.content_hit sc cardName) _) as [card|].
  { unfold bind. simpl. destruct (Sim.click_fails sc card); simpl; eexists;
      (split; [reflexivity|]);
      repeat (rewrite ?clicks_log, ?clicks_advance; cbn [is_click]; rewrite ?app_nil_r);
      rewrite Hclicks; reflexivity. }
  destruct (Sim.regexp_error sc cardName).
  { exists w2. split; [reflexivity|]. simpl. rewrite app_nil_r. exact Hclicks. }
  destruct (Sim.locator_matches sc (getByText cardName)) as [|e l] eqn:Hmatches.
  { exists w2. split; [reflexivity|]. simpl. rewrite app_nil_r. exact Hclicks. }
  unfold bind. simpl. rewrite Hmatches. simpl. eexists. split; [reflexivity|].
  repeat (rewrite ?clicks_log, ?clicks_advance; cbn [is_click]; rewrite ?app_nil_r).
  rewrite Hclicks. reflexivity.
Qed.

(** ** A strategy that throws ends the search *)

(** X9. On the simulated browser, the strategies of [clickSettingsIcon]
    and [clickPortalFeatures] are not tried one after the other when one of
    them throws.  When the direct approach finds nothing and the first
    strategy finds its element but the click on it fails, the operation
    returns false at once: its trace ends with that click and the error
    screenshot, and the four strategies that remain are never run, whatever
    they would have found. *)
Theorem failing_click_ends_the_strategies :
  forall (sc : Sim.Scenario) (page : PageId) (w : Sim.World) (el : ElementHandle),
    Sim.click_fails sc el = true ->
    ((forall k, Sim.select_all sc k ".sidebar a, nav a, aside a" = []) ->
     Sim.select sc InternationalStudentPage.settingsIconSelector = Some el ->
     Sim.result (InternationalStudentPage.clickSettingsIcon (Sim.host sc) page) w = Ret false
     /\ Sim.added (InternationalStudentPage.clickSettingsIcon (Sim.host sc) page) w
        = [Sim.Screenshot "screenshots/before-clicking-settings.png";
           Sim.Screenshot "screenshots/settings-icon-found.png";
           Sim.ClickElement el true;
           Sim.Screenshot "screenshots/error-clicking-settings-icon.png"])
    /\ ((forall k, Sim.select_all sc k "a" = []) ->
        Sim.select sc
          "a:text(Portal Features), a[href*=portal-features], li:text(Portal Features)" = None ->
        Sim.select sc InternationalStudentPage.portalFeaturesSelector = Some el ->
        Sim.result (InternationalStudentPage.clickPortalFeatures (Sim.host sc) page) w
        = Ret false
        /\ Sim.added (InternationalStudentPage.clickPortalFeatures (Sim.host sc) page) w
           = [Sim.Screenshot "screenshots/before-clicking-portal-features.png";
              Sim.WaitForTimeout 2000;
              Sim.Screenshot "screenshots/portal-features-found.png";
              Sim.ClickElement el true;
              Sim.Screenshot "screenshots/error-clicking-portal-features.png"]).
Proof.
  intros sc page w el Hfails. split.
  - intros Hlinks Hicon.
    assert (Hrun :
      InternationalStudentPage.clickSettingsIcon (Sim.host sc) page w
      = (Ret false,
         Sim.log (Sim.Screenshot "screenshots/error-clicking-settings-icon.png")
           (Sim.log (Sim.ClickElement el true)
              (Sim.log (Sim.Screenshot "screenshots/settings-icon-found.png")
                 (Sim.polled
                    (Sim.log (Sim.Screenshot "screenshots/before-clicking-settings.png")
                       w)))))).
    { unfold InternationalStudentPage.clickSettingsIcon,
        InternationalStudentPage.clickSettingsIcon_body,
        InternationalStudentPage.settings_direct,
        InternationalStudentPage.first_strategy.
      cbn [for_of].
      unfold InternationalStudentPage.settings_strategy1.
      unfold try_catch at 1, bind at 1. rewrite sim_takeScreenshot. cbv beta iota.
      unfold returning at 1, bind at 1, or_else at 1, bind at 1, try_catch at 1, bind at 1.
      rewrite sim_queryAll, Hlinks. cbv beta iota. cbn [for_of ret].
      cbv beta iota.
      unfold or_else at 1, bind at 1, or_else at 1, bind at 1, bind at 1, bind at 1.
      cbn [page_query Sim.host Sim.answer]. rewrite Hicon. cbv beta iota.
      unfold bind at 1. cbn [el_scrollIntoViewIfNeeded Sim.host Sim.answer]. cbv beta iota.
      unfold bind at 1. rewrite sim_takeScreenshot. cbv beta iota.
      unfold bind at 1. cbn [el_click Sim.host]. rewrite Hfails. cbv beta iota.
      unfold bind at 1. rewrite sim_takeScreenshot. reflexivity. }
    unfold Sim.result, Sim.added. rewrite Hrun. split; [reflexivity|].
    simpl. rewrite <- !app_assoc. rewrite drop_app_length. reflexivity.
  - intros Hlinks Hdirect Hfeatures.
    assert (Hrun :
      InternationalStudentPage.clickPortalFeatures (Sim.host sc) page w
      = (Ret false,
         Sim.log (Sim.Screenshot "screenshots/error-clicking-portal-features.png")
           (Sim.log (Sim.ClickElement el true)
              (Sim.log (Sim.Screenshot "screenshots/portal-features-found.png")
                 (Sim.polled
                    (Sim.advance 2000
                       (Sim.log (Sim.WaitForTimeout 2000)
                          (Sim.log (Sim.Screenshot
                                      "screenshots/before-clicking-portal-features.png")
                             w)))))))).
    { unfold InternationalStudentPage.clickPortalFeatures,
        InternationalStudentPage.clickPortalFeatures_body,
        InternationalStudentPage.features_direct,
        InternationalStudentPage.first_strategy.
      cbn [for_of].
      unfold InternationalStudentPage.features_strategy1.
      unfold try_catch at 1, bind at 1. rewrite sim_takeScreenshot. cbv beta iota.
      unfold bind at 1. rewrite sim_wait. cbv beta iota.
      unfold returning at 1, bind at 1, or_else at 1, bind at 1, try_catch at 1,
        or_else at 1, bind at 1, bind at 1.
      cbn [page_query Sim.host Sim.answer]. rewrite Hdirect. cbv beta iota.
      cbn [ret]. cbv beta iota.
      unfold bind at 1. rewrite sim_queryAll, Hlinks. cbv beta iota. cbn [for_of ret].
      cbv beta iota.
      unfold or_else at 1, bind at 1, or_else at 1, bind at 1, bind at 1, bind at 1.
      cbn [page_query Sim.host Sim.answer]. rewrite Hfeatures. cbv beta iota.
      unfold bind at 1. cbn [el_scrollIntoViewIfNeeded Sim.host Sim.answer]. cbv beta iota.
      unfold bind at 1. rewrite sim_takeScreenshot. cbv beta iota.
      unfold bind at 1. cbn [el_click Sim.host]. rewrite Hfails. cbv beta iota.
      unfold bind at 1. rewrite sim_takeScreenshot. reflexivity. }
    unfold Sim.result, Sim.added. rewrite Hrun. split; [reflexivity|].
    simpl. rewrite <- !app_assoc. rewrite drop_app_length. reflexivity.
Qed.

Lemma failing_click_ends_the_strategies_witness :
  (Sim.result (InternationalStudentPage.clickSettingsIcon (Sim.host stuck_icon) 0) Sim.start
   = Ret false
   /\ Sim.added (InternationalStudentPage.clickSettingsIcon (Sim.host stuck_icon) 0) Sim.start
      = [Sim.Screenshot "screenshots/before-clicking-settings.png";
         Sim.Screenshot "screenshots/settings-icon-found.png";
         Sim.ClickElement 3 true;
         Sim.Screenshot "screenshots/error-clicking-settings-icon.png"])
  /\ (Sim.result (InternationalStudentPage.clickPortalFeatures (Sim.host stuck_icon) 0)
        Sim.start = Ret false
      /\ Sim.added (InternationalStudentPage.clickPortalFeatures (Sim.host stuck_icon) 0)
           Sim.start
         = [Sim.Screenshot "screenshots/before-clicking-portal-features.png";
            Sim.WaitForTimeout 2000;
            Sim.Screenshot "screenshots/portal-features-found.png";
            Sim.ClickElement 3 true;
            Sim.Screenshot "screenshots/error-clicking-portal-features.png"]).
Proof.
  destruct (@failing_click_ends_the_strategies stuck_icon 0%nat Sim.start 3%nat eq_refl)
    as [Hsettings Hfeatures].
  split.
  - apply Hsettings; [intros k; reflexivity | reflexivity].
  - apply Hfeatures; [intros k; reflexivity | reflexivity | reflexivity].
Defined.
